(** * Ingestion pipeline of mira-knowledge: chunking, row preparation,
      ledger write and index polling

    The development embeds [src/ingest.py] (remote store, with the version
    ledger) and [src/custom-ingestion.py] (local store) as pure functions
    and a small store machine.  The two scripts call the text splitters of
    [langchain_text_splitters]; their algorithms are embedded in
    [Module Langchain] so that the scripts can be evaluated on concrete
    pages.  Of pandas and of the store the scripts use what these do with
    text; what they do with other values is an input of the model
    ([Module Pandas], [Module Store]). *)

From Stdlib Require Import ZArith Ascii String List Bool Lia.
From Stdlib Require SpecFloat DecimalString.
From stdpp Require Import base option list gmap strings.

Local Open Scope string_scope.

(** ** Python values and exceptions *)

(** A value as [json.load] returns it and as pandas hands it back.
    Objects are association lists in key order; an [int] carries its
    integer and a [float] its binary64 value, which may be [nan]. *)
#[local] Unset Elimination Schemes.
Inductive json : Type :=
  | JNull
  | JBool (b : bool)
  | JNum (z : Z)
  | JFloat (f : SpecFloat.spec_float)
  | JStr (s : string)
  | JArr (items : list json)
  | JObj (fields : list (string * json)).
#[local] Set Elimination Schemes.

Inductive exn : Type :=
  | AttributeError
  | IndexError
  | KeyError
  | StoreError.

Inductive result (A : Type) : Type :=
  | Ok (a : A)
  | Raise (e : exn).

Arguments Ok {A} a.
Arguments Raise {A} e.

#[global] Instance result_ret : MRet result := @Ok.

#[global] Instance result_bind : MBind result :=
  fun A B (k : A -> result B) (r : result A) =>
    match r with
    | Ok a => k a
    | Raise e => Raise e
    end.

(** [for x in xs: acc = body(acc, x)] where the body may raise. *)
Fixpoint for_each {A S : Type} (body : S -> A -> result S) (xs : list A) (acc : S)
  : result S :=
  match xs with
  | [] => Ok acc
  | x :: rest => acc' ← body acc x; for_each body rest acc'
  end.

(** ** Python [str] methods used by the scripts and by the splitters *)

Module PyStr.

Definition nl : ascii := Ascii.ascii_of_nat 10.
Definition newline : string := String nl "".

Definition code (c : ascii) : N := Ascii.N_of_ascii c.

(** [str.isspace] on one code point below 256. *)
Definition isspace (c : ascii) : bool :=
  let n := code c in
  (((9 <=? n) && (n <=? 13)) || ((28 <=? n) && (n <=? 32))
   || (n =? 133) || (n =? 160))%N.

(** [str.isprintable] on one code point below 256. *)
Definition isprintable (c : ascii) : bool :=
  let n := code c in
  (((32 <=? n) && (n <=? 126)) || ((161 <=? n) && negb (n =? 173)))%N.

Fixpoint lstrip (s : string) : string :=
  match s with
  | "" => ""
  | String c s' => if isspace c then lstrip s' else s
  end.

Fixpoint rstrip (s : string) : string :=
  match s with
  | "" => ""
  | String c s' =>
      match rstrip s' with
      | "" => if isspace c then "" else String c ""
      | r => String c r
      end
  end.

Definition strip (s : string) : string := rstrip (lstrip s).

Fixpoint filter (p : ascii -> bool) (s : string) : string :=
  match s with
  | "" => ""
  | String c s' => if p c then String c (filter p s') else filter p s'
  end.

Definition startswith (s p : string) : bool := String.prefix p s.

Fixpoint drop (n : nat) (s : string) : string :=
  match n, s with
  | O, _ => s
  | S _, "" => ""
  | S k, String _ s' => drop k s'
  end.

(** [s.split("\n")]: never empty. *)
Fixpoint split_lines (s : string) : list string :=
  match s with
  | "" => [""]
  | String c s' =>
      if Ascii.eqb c nl then "" :: split_lines s'
      else match split_lines s' with
           | l :: ls => String c l :: ls
           | [] => [String c ""]
           end
  end.

(** [sep.join(parts)]. *)
Fixpoint join (sep : string) (parts : list string) : string :=
  match parts with
  | [] => ""
  | [p] => p
  | p :: rest => p ++ sep ++ join sep rest
  end.

(** [s.count(sub)] for a non-empty [sub]: occurrences from left to
    right that do not overlap.  [skip] characters belong to the
    occurrence found last. *)
Fixpoint count_from (sub : string) (skip : nat) (s : string) : nat :=
  match s with
  | "" => 0
  | String _ s' =>
      match skip with
      | S k => count_from sub k s'
      | O =>
          if String.prefix sub s
          then S (count_from sub (String.length sub - 1) s')
          else count_from sub 0 s'
      end
  end.

Definition count (s sub : string) : nat := count_from sub 0 s.

(** [sub in s] for a non-empty [sub]. *)
Fixpoint contains (s sub : string) : bool :=
  match s with
  | "" => false
  | String _ s' => String.prefix sub s || contains s' sub
  end.

(** [list(s)]: one string per character. *)
Fixpoint chars (s : string) : list string :=
  match s with
  | "" => []
  | String c s' => String c "" :: chars s'
  end.

(** [c * n]. *)
Fixpoint repeat (c : ascii) (n : nat) : string :=
  match n with
  | O => ""
  | S k => String c (repeat c k)
  end.

(** [s[:n]] and [s[-n:]] for [n <= len(s)]. *)
Definition take (n : nat) (s : string) : string := String.substring 0 n s.
Definition take_last (n : nat) (s : string) : string :=
  drop (String.length s - n) s.

End PyStr.

(** ** The splitters of [langchain_text_splitters]

    [ingest.py] and [custom-ingestion.py] build a
    [MarkdownHeaderTextSplitter] and a [RecursiveCharacterTextSplitter] and
    call [split_text] and [split_documents] on them.  The definitions below
    follow the two classes method by method. *)

Module Langchain.

(** A [Document] as the markdown splitter returns it: header metadata
    only. *)
Record Document : Type := mkDocument {
  page_content : string;
  metadata : gmap string string
}.

(** [LineType] and [HeaderType] of the markdown splitter. *)
Record LineType : Type := mkLine {
  content : string;
  line_metadata : gmap string string
}.

Record HeaderType : Type := mkHeader {
  level : nat;
  name : string;
  data : string
}.

(** [sorted(headers, key=lambda split: len(split[0]), reverse=True)]:
    longest separator first, equal lengths in their given order. *)
Fixpoint insert_by_len (h : string * string) (hs : list (string * string))
  : list (string * string) :=
  match hs with
  | [] => [h]
  | h' :: rest =>
      if (String.length (fst h') <? String.length (fst h))%nat
      then h :: hs
      else h' :: insert_by_len h rest
  end.

Definition sort_headers (hs : list (string * string)) : list (string * string) :=
  fold_left (fun acc h => insert_by_len h acc) hs [].

Record MarkdownHeaderTextSplitter : Type := mkMarkdownSplitter {
  headers_to_split_on : list (string * string);
  return_each_line : bool;
  strip_headers : bool
}.

(** The constructor: [return_each_line] keeps its default. *)
Definition new_markdown_splitter (headers : list (string * string))
    (strip : bool) : MarkdownHeaderTextSplitter :=
  {| headers_to_split_on := sort_headers headers;
     return_each_line := false;
     strip_headers := strip |}.

(** The header test of [split_text]: the line starts with [sep] and
    either ends there or continues with a space. *)
Definition is_header_line (stripped_line sep : string) : bool :=
  PyStr.startswith stripped_line sep
  && ((String.length stripped_line =? String.length sep)%nat
      || match String.get (String.length sep) stripped_line with
         | Some c => Ascii.eqb c " "
         | None => false
         end).

(** The first [(sep, name)] of the sorted header list that the line
    matches: the [for ... break] of [split_text]. *)
Fixpoint match_header (stripped_line : string) (hs : list (string * string))
  : option (string * string) :=
  match hs with
  | [] => None
  | (sep, nm) :: rest =>
      if is_header_line stripped_line sep then Some (sep, nm)
      else match_header stripped_line rest
  end.

(** The [while] loop that pops headers of the same or a deeper level
    and removes their names from [initial_metadata].  The stack is kept
    with its top first. *)
Fixpoint pop_headers (current_header_level : nat)
    (header_stack : list HeaderType) (initial_metadata : gmap string string)
  : list HeaderType * gmap string string :=
  match header_stack with
  | h :: rest =>
      if (current_header_level <=? level h)%nat
      then pop_headers current_header_level rest (delete (name h) initial_metadata)
      else (header_stack, initial_metadata)
  | [] => ([], initial_metadata)
  end.

(** The local variables of [split_text] that live across lines. *)
Record SplitState : Type := mkSplitState {
  lines_with_metadata : list LineType;
  current_content : list string;
  current_metadata : gmap string string;
  header_stack : list HeaderType;
  initial_metadata : gmap string string;
  in_code_block : bool;
  opening_fence : string
}.

Definition init_state : SplitState :=
  {| lines_with_metadata := [];
     current_content := [];
     current_metadata := ∅;
     header_stack := [];
     initial_metadata := ∅;
     in_code_block := false;
     opening_fence := "" |}.

(** Flush [current_content] into [lines_with_metadata] when it is not
    empty. *)
Definition flush (lines : list LineType) (cur : list string)
    (meta : gmap string string) : list LineType :=
  match cur with
  | [] => lines
  | _ => lines ++ [mkLine (PyStr.join PyStr.newline cur) meta]
  end.

Definition fence_backticks : string := "```".
Definition fence_tildes : string := "~~~".

(** One iteration of the [for line in lines] loop of [split_text]. *)
Definition step_line (sp : MarkdownHeaderTextSplitter) (st : SplitState)
    (line : string) : SplitState :=
  let stripped_line := PyStr.filter PyStr.isprintable (PyStr.strip line) in
  let '(in_code, fence) :=
    if negb (in_code_block st) then
      if PyStr.startswith stripped_line fence_backticks
         && (PyStr.count stripped_line fence_backticks =? 1)%nat
      then (true, fence_backticks)
      else if PyStr.startswith stripped_line fence_tildes
      then (true, fence_tildes)
      else (false, opening_fence st)
    else
      if PyStr.startswith stripped_line (opening_fence st)
      then (false, "")
      else (true, opening_fence st) in
  if in_code then
    (* append the line and [continue] *)
    {| lines_with_metadata := lines_with_metadata st;
       current_content := current_content st ++ [stripped_line];
       current_metadata := current_metadata st;
       header_stack := header_stack st;
       initial_metadata := initial_metadata st;
       in_code_block := in_code;
       opening_fence := fence |}
  else
    match match_header stripped_line (headers_to_split_on sp) with
    | Some (sep, nm) =>
        let current_header_level := PyStr.count sep "#" in
        let '(stack, meta) :=
          pop_headers current_header_level (header_stack st) (initial_metadata st) in
        let header :=
          mkHeader current_header_level nm
            (PyStr.strip (PyStr.drop (String.length sep) stripped_line)) in
        let meta' := <[nm := data header]> meta in
        {| lines_with_metadata :=
             flush (lines_with_metadata st) (current_content st) (current_metadata st);
           current_content := if strip_headers sp then [] else [stripped_line];
           current_metadata := meta';
           header_stack := header :: stack;
           initial_metadata := meta';
           in_code_block := in_code;
           opening_fence := fence |}
    | None =>
        if negb (String.eqb stripped_line "") then
          {| lines_with_metadata := lines_with_metadata st;
             current_content := current_content st ++ [stripped_line];
             current_metadata := initial_metadata st;
             header_stack := header_stack st;
             initial_metadata := initial_metadata st;
             in_code_block := in_code;
             opening_fence := fence |}
        else
          {| lines_with_metadata :=
               flush (lines_with_metadata st) (current_content st) (current_metadata st);
             current_content := [];
             current_metadata := initial_metadata st;
             header_stack := header_stack st;
             initial_metadata := initial_metadata st;
             in_code_block := in_code;
             opening_fence := fence |}
    end.

(** The first character of the last line of a chunk's content is ["#"];
    indexing an empty last line raises. *)
Definition last_line_is_header (c : string) : result bool :=
  match String.get 0 (List.last (PyStr.split_lines c) "") with
  | Some ch => Ok (Ascii.eqb ch "#")
  | None => Raise IndexError
  end.

Definition two_spaces_newline : string := "  " ++ PyStr.newline.

(** One iteration of the loop of [aggregate_lines_to_chunks];
    [aggregated_chunks] is kept newest first. *)
Definition aggregate_step (sp : MarkdownHeaderTextSplitter)
    (aggregated_chunks : list LineType) (line : LineType)
  : result (list LineType) :=
  match aggregated_chunks with
  | [] => Ok [line]
  | lst :: older =>
      if bool_decide (line_metadata lst = line_metadata line) then
        Ok (mkLine (content lst ++ two_spaces_newline ++ content line)
                   (line_metadata lst) :: older)
      else if (size (line_metadata lst) <? size (line_metadata line))%nat then
        is_hdr ← last_line_is_header (content lst);
        if is_hdr && negb (strip_headers sp) then
          Ok (mkLine (content lst ++ two_spaces_newline ++ content line)
                     (line_metadata line) :: older)
        else Ok (line :: aggregated_chunks)
      else Ok (line :: aggregated_chunks)
  end.

Definition aggregate_lines_to_chunks (sp : MarkdownHeaderTextSplitter)
    (lines : list LineType) : result (list Document) :=
  agg ← for_each (aggregate_step sp) lines [];
  Ok (map (fun c => mkDocument (content c) (line_metadata c)) (rev agg)).

(** [MarkdownHeaderTextSplitter.split_text]. *)
Definition md_split_text (sp : MarkdownHeaderTextSplitter) (text : string)
  : result (list Document) :=
  let st := fold_left (step_line sp) (PyStr.split_lines text) init_state in
  let lines :=
    flush (lines_with_metadata st) (current_content st) (current_metadata st) in
  if negb (return_each_line sp) then aggregate_lines_to_chunks sp lines
  else Ok (map (fun c => mkDocument (content c) (line_metadata c)) lines).

(** *** [RecursiveCharacterTextSplitter]

    The scripts pass [chunk_size] and [chunk_overlap] only, so
    [separators], [keep_separator = True], [strip_whitespace = True],
    [is_separator_regex = False] and [length_function = len] keep their
    defaults. *)

Record RecursiveCharacterTextSplitter : Type := mkRecursiveSplitter {
  chunk_size : Z;
  chunk_overlap : Z;
  separators : list string
}.

Definition default_separators : list string :=
  [PyStr.newline ++ PyStr.newline; PyStr.newline; " "; ""].

Definition new_recursive_splitter (size overlap : Z)
  : RecursiveCharacterTextSplitter :=
  {| chunk_size := size; chunk_overlap := overlap;
     separators := default_separators |}.

Definition len (s : string) : Z := Z.of_nat (String.length s).

Definition cons_head (c : ascii) (parts : list string) : list string :=
  match parts with
  | p :: ps => String c p :: ps
  | [] => [String c ""]
  end.

(** [re.split("(sep)", text)] followed by gluing each separator to the
    piece after it: the result is the piece before the first
    occurrence, then every occurrence together with the text up to the
    next one.  [skip] characters belong to the occurrence found last. *)
Fixpoint split_keep_from (sep : string) (skip : nat) (s : string) : list string :=
  match s with
  | "" => [""]
  | String c s' =>
      match skip with
      | S k => cons_head c (split_keep_from sep k s')
      | O =>
          if String.prefix sep s
          then "" :: cons_head c (split_keep_from sep (String.length sep - 1) s')
          else cons_head c (split_keep_from sep 0 s')
      end
  end.

(** [_split_text_with_regex(text, separator, keep_separator=True)]. *)
Definition split_text_with_regex (text separator : string) : list string :=
  let splits :=
    if String.eqb separator "" then PyStr.chars text
    else split_keep_from separator 0 text in
  List.filter (fun p => negb (String.eqb p "")) splits.

(** [_join_docs]: [None] when the stripped text is empty. *)
Definition join_docs (docs : list string) (separator : string) : option string :=
  let text := PyStr.strip (PyStr.join separator docs) in
  if String.eqb text "" then None else Some text.

Definition sep_if (b : bool) (separator_len : Z) : Z :=
  if b then separator_len else 0%Z.

(** The guard of the [while] loop of [_merge_splits]. *)
Definition keep_popping (sp : RecursiveCharacterTextSplitter)
    (separator_len _len total : Z) (current_doc : list string) : bool :=
  (chunk_overlap sp <? total)%Z
  || ((chunk_size sp <?
         total + _len + sep_if (0 <? length current_doc)%nat separator_len)%Z
      && (0 <? total)%Z).

(** The [while] loop of [_merge_splits]; [current_doc[0]] on an empty
    list raises. *)
Fixpoint pop_front (sp : RecursiveCharacterTextSplitter)
    (separator_len _len total : Z) (current_doc : list string)
  : result (Z * list string) :=
  if keep_popping sp separator_len _len total current_doc then
    match current_doc with
    | [] => Raise IndexError
    | d0 :: rest =>
        pop_front sp separator_len _len
          (total - (len d0 + sep_if (1 <? length current_doc)%nat separator_len))%Z
          rest
    end
  else Ok (total, current_doc).

Record MergeState : Type := mkMergeState {
  docs : list string;
  current_doc : list string;
  total : Z
}.

Definition append_doc (ds : list string) (d : option string) : list string :=
  match d with
  | Some t => ds ++ [t]
  | None => ds
  end.

(** One iteration of the [for d in splits] loop of [_merge_splits]. *)
Definition merge_step (sp : RecursiveCharacterTextSplitter) (separator : string)
    (st : MergeState) (d : string) : result MergeState :=
  let separator_len := len separator in
  let _len := len d in
  st' ←
    (if (chunk_size sp <?
           total st + _len
           + sep_if (0 <? length (current_doc st))%nat separator_len)%Z
     then
       match current_doc st with
       | [] => Ok st
       | _ =>
           let ds := append_doc (docs st) (join_docs (current_doc st) separator) in
           '(t, cur) ← pop_front sp separator_len _len (total st) (current_doc st);
           Ok (mkMergeState ds cur t)
       end
     else Ok st);
  let cur := (current_doc st' ++ [d])%list in
  Ok (mkMergeState (docs st') cur
        (total st' + (_len + sep_if (1 <? length cur)%nat separator_len))%Z).

(** [_merge_splits]. *)
Definition merge_splits (sp : RecursiveCharacterTextSplitter)
    (splits : list string) (separator : string) : result (list string) :=
  st ← for_each (merge_step sp separator) splits (mkMergeState [] [] 0%Z);
  Ok (append_doc (docs st) (join_docs (current_doc st) separator)).

(** The separator that [_split_text] selects and the separators left
    for the recursive calls: the first separator that is empty or
    occurs in the text; when there is none, the last separator and
    nothing left. *)
Fixpoint choose_separator (seps : list string) (text : string)
  : option (string * list string) :=
  match seps with
  | [] => None
  | s :: rest =>
      if String.eqb s "" then Some (s, [])
      else if PyStr.contains text s then Some (s, rest)
      else match rest with
           | [] => Some (s, [])
           | _ => choose_separator rest text
           end
  end.

Record SplitAcc : Type := mkSplitAcc {
  final_chunks : list string;
  good_splits : list string
}.

Definition flush_good (sp : RecursiveCharacterTextSplitter) (acc : SplitAcc)
  : result (list string) :=
  match good_splits acc with
  | [] => Ok (final_chunks acc)
  | _ =>
      merged ← merge_splits sp (good_splits acc) "";
      Ok (final_chunks acc ++ merged)%list
  end.

(** One iteration of the [for s in splits] loop of [_split_text];
    [recurse] is [_split_text] on the separators left, [None] when
    there are none. *)
Definition split_step (sp : RecursiveCharacterTextSplitter)
    (recurse : option (string -> result (list string)))
    (acc : SplitAcc) (s : string) : result SplitAcc :=
  if (len s <? chunk_size sp)%Z then
    Ok (mkSplitAcc (final_chunks acc) (good_splits acc ++ [s])%list)
  else
    chunks ← flush_good sp acc;
    match recurse with
    | None => Ok (mkSplitAcc (chunks ++ [s])%list [])
    | Some f =>
        other_info ← f s;
        Ok (mkSplitAcc (chunks ++ other_info)%list [])
    end.

(** The body of [_split_text] once the separator is chosen. *)
Definition split_with (sp : RecursiveCharacterTextSplitter) (separator : string)
    (recurse : option (string -> result (list string))) (text : string)
  : result (list string) :=
  acc ← for_each (split_step sp recurse)
          (split_text_with_regex text separator) (mkSplitAcc [] []);
  flush_good sp acc.

(** [_split_text(text, separators)], by recursion on [separators]: a
    separator that is skipped leaves the same search on the rest of the
    list (see [rc_split_text_choose]). *)
Fixpoint rc_split_text_rec (sp : RecursiveCharacterTextSplitter)
    (seps : list string) (text : string) : result (list string) :=
  match seps with
  | [] => Raise IndexError
  | s :: rest =>
      if String.eqb s "" then split_with sp s None text
      else if PyStr.contains text s then
        match rest with
        | [] => split_with sp s None text
        | _ => split_with sp s (Some (rc_split_text_rec sp rest)) text
        end
      else match rest with
           | [] => split_with sp s None text
           | _ => rc_split_text_rec sp rest text
           end
  end.

(** [RecursiveCharacterTextSplitter.split_text]. *)
Definition rc_split_text (sp : RecursiveCharacterTextSplitter) (text : string)
  : result (list string) :=
  rc_split_text_rec sp (separators sp) text.

(** [split_documents]: every chunk of a document's text becomes a
    document with a copy of that document's metadata. *)
Definition split_documents (sp : RecursiveCharacterTextSplitter)
    (documents : list Document) : result (list Document) :=
  for_each
    (fun acc doc =>
       chunks ← rc_split_text sp (page_content doc);
       Ok (acc ++ map (fun c => mkDocument c (metadata doc)) chunks)%list)
    documents [].

End Langchain.

(** ** Definitions shared by [ingest.py] and [custom-ingestion.py]

    The two scripts repeat the same statements around different header
    lists and title lookups; the repeated statements are embedded once. *)

Module Common.

(** A JSON object of an input file. *)
Definition record : Type := list (string * json).

(** [item.get(key, default)]. *)
Fixpoint dict_get (key : string) (default : json) (item : record) : json :=
  match item with
  | [] => default
  | (k, v) :: rest => if String.eqb k key then v else dict_get key default rest
  end.

(** An entry of [files]. *)
Record FileEntry : Type := mkFile {
  path : string;
  file_source : string
}.

(** [{"url": url, "source": file["source"]}]. *)
Record PageMetadata : Type := mkPageMetadata {
  url : json;
  source : string
}.

(** An entry of [parsed_data]; a row of [df] has the same fields. *)
Record ParsedItem : Type := mkParsedItem {
  title : json;
  content : json;
  metadata : PageMetadata
}.

(** A split after the loop has added the page keys to its metadata:
    the header keys hold text, the page keys hold what the record
    held. *)
Record Chunk : Type := mkChunk {
  page_content : string;
  chunk_metadata : gmap string json
}.

(** [class ChunkMetadata(LanceModel)]; [None] is [JNull]. *)
Record ChunkMetadata : Type := mkChunkMetadata {
  header_1 : json;
  header_2 : json;
  header_3 : json;
  header_4 : json;
  page_title : json;
  row_source : json;
  row_url : json
}.

(** A row handed to [table.add]; the store computes [vector] from
    [text]. *)
Record Chunks : Type := mkChunks {
  text : string;
  row_metadata : ChunkMetadata
}.

(** [class Config(LanceModel)]. *)
Record Config : Type := mkConfig {
  key : string;
  value : string
}.

Definition chunk_size : Z := 2000.
Definition chunk_overlap : Z := 200.

Definition text_splitter : Langchain.RecursiveCharacterTextSplitter :=
  Langchain.new_recursive_splitter chunk_size chunk_overlap.

(** [markdown_splitter.split_text(row["content"])]: the method calls
    [text.split], which only a [str] has. *)
Definition split_content (markdown_splitter : Langchain.MarkdownHeaderTextSplitter)
    (c : json) : result (list Langchain.Document) :=
  match c with
  | JStr s => Langchain.md_split_text markdown_splitter s
  | _ => Raise AttributeError
  end.

(** The inner loop body: the three assignments to [split.metadata]. *)
Definition tag_split (row : ParsedItem) (split : Langchain.Document) : Chunk :=
  mkChunk (Langchain.page_content split)
    (<["source" := JStr (source (metadata row))]>
       (<["url" := url (metadata row)]>
          (<["page_title" := title row]>
             (JStr <$> Langchain.metadata split)))).

(** The chunks that one row of [df] appends to [chunks]. *)
Definition chunks_of_row (markdown_splitter : Langchain.MarkdownHeaderTextSplitter)
    (row : ParsedItem) : result (list Chunk) :=
  md_header_splits ← split_content markdown_splitter (content row);
  splits ← Langchain.split_documents text_splitter md_header_splits;
  Ok (map (tag_split row) splits).

(** [for i, row in df.iterrows(): ...] starting from [chunks]. *)
Definition chunk_loop (markdown_splitter : Langchain.MarkdownHeaderTextSplitter)
    (df : list ParsedItem) (chunks : list Chunk) : result (list Chunk) :=
  for_each
    (fun chunks row =>
       new ← chunks_of_row markdown_splitter row;
       Ok (chunks ++ new)%list)
    df chunks.

(** [m[k] if k in m else None]. *)
Definition get_or_none (k : string) (m : gmap string json) : json :=
  match m !! k with
  | Some v => v
  | None => JNull
  end.

(** [m[k]]. *)
Definition getitem (k : string) (m : gmap string json) : result json :=
  match m !! k with
  | Some v => Ok v
  | None => Raise KeyError
  end.

(** One element of the [processed_chunks] comprehension. *)
Definition processed_chunk (chunk : Chunk) : result Chunks :=
  let m := chunk_metadata chunk in
  pt ← getitem "page_title" m;
  src ← getitem "source" m;
  u ← getitem "url" m;
  Ok {| text := page_content chunk;
        row_metadata :=
          {| header_1 := get_or_none "header_1" m;
             header_2 := get_or_none "header_2" m;
             header_3 := get_or_none "header_3" m;
             header_4 := get_or_none "header_4" m;
             page_title := pt;
             row_source := src;
             row_url := u |} |}.

Definition processed_chunks (chunks : list Chunk) : result (list Chunks) :=
  for_each
    (fun rows chunk => r ← processed_chunk chunk; Ok (rows ++ [r])%list)
    chunks [].

Definition POLL_INTERVAL : nat := 10.

(** What a call of [wait_for_index] that returns has done. *)
Record Waited : Type := mkWaited {
  polls : nat;
  slept : nat
}.

(** [wait_for_index(table, index_name)].  [list_indices k] is the list
    of index names that the [k]-th call of [table.list_indices()]
    returns; [fuel] bounds the iterations that are unfolded, and [None]
    means that the loop is still running after that many. *)
Fixpoint wait_for_index_from (list_indices : nat -> list string)
    (index_name : string) (fuel k : nat) : option Waited :=
  match fuel with
  | O => None
  | S fuel' =>
      let indices := list_indices k in
      if negb (Nat.eqb (length indices) 0)
         && existsb (fun nm => String.eqb nm index_name) indices
      then Some (mkWaited (S k) (POLL_INTERVAL * k))
      else wait_for_index_from list_indices index_name fuel' (S k)
  end.

Definition wait_for_index (list_indices : nat -> list string)
    (index_name : string) (fuel : nat) : option Waited :=
  wait_for_index_from list_indices index_name fuel 0.

End Common.

(** ** [pd.DataFrame(parsed_data)] and [df.iterrows()]

    Both scripts put [parsed_data] into a pandas frame and read it back
    row by row.  pandas is not part of the repository.  What the model
    takes from it: the frame has one row per entry, in order; the
    [metadata] column holds dicts, which come back as they are; in the
    [title] and [content] columns a [str] comes back as the same [str].
    Any other value of these two columns goes through the type inference
    of pandas, which looks at the whole column (a column of integers and
    nulls comes back as floats, with [nan] for null).  What the inference
    returns is not decided by the scripts, so it is an input of the
    model: [infer column v] is what comes back for the value [v] of a
    column.  pandas makes no text of a value that is not text, so the
    model takes no text from [infer]. *)

Module Pandas.
Import Common.

Definition Inference : Type := list json -> json -> json.

(** What [row[name]] gives for the value [v] of a column. *)
Definition cell (infer : Inference) (column : list json) (v : json) : json :=
  match v with
  | JStr s => JStr s
  | _ =>
      match infer column v with
      | JStr _ => v
      | w => w
      end
  end.

(** The row that [iterrows] yields for the entry [p] of [parsed_data]. *)
Definition row (infer : Inference) (parsed_data : list ParsedItem)
    (p : ParsedItem) : ParsedItem :=
  {| title := cell infer (map title parsed_data) (title p);
     content := cell infer (map content parsed_data) (content p);
     metadata := metadata p |}.

(** The rows of [pd.DataFrame(parsed_data)] in the order of
    [df.iterrows()]. *)
Definition DataFrame (infer : Inference) (parsed_data : list ParsedItem)
  : list ParsedItem :=
  map (row infer parsed_data) parsed_data.

End Pandas.

(** ** [src/ingest.py]: the remote store, with the version ledger *)

Module Ingest.
Import Common.

Definition headers_to_split_on : list (string * string) :=
  [("#", "header_1"); ("##", "header_2"); ("###", "header_3");
   ("####", "header_4"); ("#####", "header_5"); ("######", "header_6")].

Definition markdown_splitter : Langchain.MarkdownHeaderTextSplitter :=
  Langchain.new_markdown_splitter headers_to_split_on false.

Definition files : list FileEntry :=
  [mkFile "data/molecule_docs.json" "Molecule Documentation";
   mkFile "data/molecule_blog.json" "Molecule Blog";
   mkFile "data/desci_codes.json" "DeSci.Codes"].

(** The body of [for item in data]. *)
Definition parse_item (file : FileEntry) (item : record) : ParsedItem :=
  {| title := dict_get "title" (JStr "") item;
     content := dict_get "markdown" (JStr "") item;
     metadata := {| url := dict_get "url" (JStr "N/A") item;
                    source := file_source file |} |}.

(** [parsed_data] after the loop over [fs]; [load p] is what
    [json.load] returns for the file at [p]: a list of objects. *)
Definition parsed_data_of (fs : list FileEntry) (load : string -> list record)
  : list ParsedItem :=
  flat_map (fun file => map (parse_item file) (load (path file))) fs.

Definition parsed_data (load : string -> list record) : list ParsedItem :=
  parsed_data_of files load.

(** [chunks] after the loop over the rows of [df]. *)
Definition chunks_of (df : list ParsedItem) : result (list Chunk) :=
  chunk_loop markdown_splitter df [].

(** [chunks] of the script: [df = pd.DataFrame(parsed_data)], then the
    loop. *)
Definition chunks (infer : Pandas.Inference) (load : string -> list record)
  : result (list Chunk) :=
  chunks_of (Pandas.DataFrame infer (parsed_data load)).

(** The rows that the script hands to [table.add]. *)
Definition rows_of (df : list ParsedItem) : result (list Chunks) :=
  cs ← chunks_of df; processed_chunks cs.

End Ingest.

(** ** [src/custom-ingestion.py]: the local store *)

Module CustomIngestion.
Import Common.

Definition headers_to_split_on : list (string * string) :=
  [("#", "header_1"); ("##", "header_2"); ("###", "header_3");
   ("####", "header_4")].

Definition markdown_splitter : Langchain.MarkdownHeaderTextSplitter :=
  Langchain.new_markdown_splitter headers_to_split_on false.

Definition files : list FileEntry :=
  [mkFile "data/molecule-docs.json" "Molecule Documentation";
   mkFile "data/molecule-blog.json" "Molecule Blog";
   mkFile "data/desci-codes.json" "DeSci.Codes"].

(** [item.get("metadata", {}).get("title", "N/A")]: only a [dict] has
    [get]. *)
Definition get_title (item : record) : result json :=
  match dict_get "metadata" (JObj []) item with
  | JObj fields => Ok (dict_get "title" (JStr "N/A") fields)
  | _ => Raise AttributeError
  end.

Definition parse_item (file : FileEntry) (item : record) : result ParsedItem :=
  t ← get_title item;
  Ok {| title := t;
        content := dict_get "markdown" (JStr "") item;
        metadata := {| url := dict_get "url" (JStr "N/A") item;
                       source := file_source file |} |}.

Definition parsed_data_of (fs : list FileEntry) (load : string -> list record)
  : result (list ParsedItem) :=
  for_each
    (fun parsed file =>
       for_each
         (fun parsed item => p ← parse_item file item; Ok (parsed ++ [p])%list)
         (load (path file)) parsed)
    fs [].

Definition parsed_data (load : string -> list record) : result (list ParsedItem) :=
  parsed_data_of files load.

Definition chunks_of (df : list ParsedItem) : result (list Chunk) :=
  chunk_loop markdown_splitter df [].

Definition chunks (infer : Pandas.Inference) (load : string -> list record)
  : result (list Chunk) :=
  parsed ← parsed_data load; chunks_of (Pandas.DataFrame infer parsed).

Definition rows_of (df : list ParsedItem) : result (list Chunks) :=
  cs ← chunks_of df; processed_chunks cs.

End CustomIngestion.

(** ** The store calls of [ingest.py]

    Everything after the chunk loop talks to the remote database.  A call
    either has its effect or raises; which calls raise is not decided by
    the script, so it is an input of the model.

    The chunk table has the schema [Chunks]: every field of
    [ChunkMetadata] is [str | None].  A field that is text or [None] is
    stored as it is.  Any other value (a title or url that is a number,
    say) is cast by the store, which looks at the whole batch: an integer
    title is read back as its decimal text.  What the cast returns is not
    decided by the script either: [cast rows v] is what the table holds
    for the value [v] of a batch [rows], [Some] text or [None].  A batch
    that the store cannot cast makes [table.add] raise. *)

Module Store.
Import Common.

Inductive StoreOp : Type :=
  | CreateMolrag      (* db.create_table("molrag", ..., mode="overwrite") *)
  | OpenConfig        (* db.open_table("config") *)
  | CreateConfig      (* db.create_table("config", schema=Config) *)
  | DeleteVersion     (* config_table.delete("key = 'knowledge_version'") *)
  | AddVersion        (* config_table.add(config_data) *)
  | AddChunks         (* table.add(processed_chunks) *)
  | CreateFtsIndex    (* table.create_fts_index("text", replace=True) *)
  | CreateIndex.      (* table.create_index(metric="cosine") *)

#[global] Instance StoreOp_eq_dec : EqDecision StoreOp.
Proof. solve_decision. Defined.

(** The database: the two tables (absent until created), with the rows
    they hold, and the two indexes of [molrag]. *)
Record Db : Type := mkDb {
  molrag : option (list Chunks);
  config : option (list Config);
  fts_index : bool;
  vector_index : bool
}.

(** The database together with the calls that have taken effect, oldest
    first. *)
Record World : Type := mkWorld {
  db : Db;
  log : list StoreOp
}.

Definition M (A : Type) : Type := World -> World * result A.

Definition ret {A : Type} (a : A) : M A := fun w => (w, Ok a).

Definition bind {A B : Type} (m : M A) (k : A -> M B) : M B :=
  fun w =>
    match m w with
    | (w', Ok a) => k a w'
    | (w', Raise e) => (w', Raise e)
    end.

(** [try: m except Exception: handler]. *)
Definition try_except {A : Type} (m : M A) (handler : M A) : M A :=
  fun w =>
    match m w with
    | (w', Ok a) => (w', Ok a)
    | (w', Raise _) => handler w'
    end.

Definition lift {A : Type} (r : result A) : M A := fun w => (w, r).

(** A store call: it raises when the oracle says so or when its own
    precondition [pre] fails, and otherwise updates the database and is
    logged. *)
Definition call (fails : StoreOp -> bool) (op : StoreOp)
    (pre : Db -> bool) (effect : Db -> Db) : M unit :=
  fun w =>
    if fails op || negb (pre (db w)) then (w, Raise StoreError)
    else (mkWorld (effect (db w)) (log w ++ [op]), Ok tt).

Definition is_some {A : Type} (o : option A) : bool :=
  match o with Some _ => true | None => false end.

Definition version_key : string := "knowledge_version".

Definition Cast : Type := list Chunks -> json -> option string.

(** A metadata field as the table holds it. *)
Definition stored_field (cast : json -> option string) (v : json) : json :=
  match v with
  | JStr s => JStr s
  | JNull => JNull
  | _ =>
      match cast v with
      | Some s => JStr s
      | None => JNull
      end
  end.

(** A row as the table holds it; [text] is a [str] by construction. *)
Definition stored_row (cast : json -> option string) (r : Chunks) : Chunks :=
  let md := row_metadata r in
  {| text := text r;
     row_metadata :=
       {| header_1 := stored_field cast (header_1 md);
          header_2 := stored_field cast (header_2 md);
          header_3 := stored_field cast (header_3 md);
          header_4 := stored_field cast (header_4 md);
          page_title := stored_field cast (page_title md);
          row_source := stored_field cast (row_source md);
          row_url := stored_field cast (row_url md) |} |}.

Section Script.
Variable fails : StoreOp -> bool.
Variable cast : Cast.
Variable infer : Pandas.Inference.

Definition create_molrag : M unit :=
  call fails CreateMolrag (fun _ => true)
    (fun d => mkDb (Some []) (config d) false false).

Definition open_config : M unit :=
  call fails OpenConfig (fun d => is_some (config d)) (fun d => d).

Definition create_config : M unit :=
  call fails CreateConfig (fun d => negb (is_some (config d)))
    (fun d => mkDb (molrag d) (Some []) (fts_index d) (vector_index d)).

Definition delete_version : M unit :=
  call fails DeleteVersion (fun d => is_some (config d))
    (fun d =>
       mkDb (molrag d)
         (List.filter (fun c => negb (String.eqb (key c) version_key))
            <$> config d)
         (fts_index d) (vector_index d)).

Definition add_config (config_data : list Config) : M unit :=
  call fails AddVersion (fun d => is_some (config d))
    (fun d =>
       mkDb (molrag d) ((fun old => old ++ config_data)%list <$> config d)
         (fts_index d) (vector_index d)).

Definition table_add (rows : list Chunks) : M unit :=
  call fails AddChunks (fun d => is_some (molrag d))
    (fun d =>
       mkDb ((fun old => old ++ map (stored_row (cast rows)) rows)%list
               <$> molrag d)
         (config d) (fts_index d) (vector_index d)).

Definition create_fts_index : M unit :=
  call fails CreateFtsIndex (fun d => is_some (molrag d))
    (fun d => mkDb (molrag d) (config d) true (vector_index d)).

Definition create_index : M unit :=
  call fails CreateIndex (fun d => is_some (molrag d))
    (fun d => mkDb (molrag d) (config d) (fts_index d) true).

(** Lines 150 to 223 of [ingest.py], given [chunks] and the date that
    [datetime.now().strftime("%Y-%m-%d")] returns. *)
Definition store_script (today : string) (chunks : list Chunk) : M unit :=
  bind create_molrag (fun _ =>
  bind (try_except open_config create_config) (fun _ =>
  let config_data := [mkConfig version_key today] in
  bind (try_except delete_version (ret tt)) (fun _ =>
  bind (add_config config_data) (fun _ =>
  bind (lift (processed_chunks chunks)) (fun processed =>
  bind (table_add processed) (fun _ =>
  bind create_fts_index (fun _ =>
  create_index))))))).

(** The whole script: the chunk loop, then the store calls. *)
Definition main (today : string) (load : string -> list record) : M unit :=
  bind (lift (Ingest.chunks infer load)) (store_script today).

End Script.

(** [config_table.search().where("key = 'knowledge_version'")]: the
    values recorded under the version key. *)
Definition knowledge_version (d : Db) : list string :=
  match config d with
  | Some rows =>
      map value (List.filter (fun c => String.eqb (key c) version_key) rows)
  | None => []
  end.

(** The position of the first occurrence of [op] in a log. *)
Fixpoint index_of (op : StoreOp) (l : list StoreOp) : option nat :=
  match l with
  | [] => None
  | o :: rest =>
      if bool_decide (o = op) then Some 0
      else S <$> index_of op rest
  end.

End Store.

(** ** Concrete pages and files used in the examples *)

Module Examples.
Import Common.

Definition nl : string := PyStr.newline.

(** ["# A\n\nfoo\n\n## B\n\nbar\n\n# C\n\nbaz"]. *)
Definition heading_page : string :=
  "# A" ++ nl ++ nl ++ "foo" ++ nl ++ nl ++ "## B" ++ nl ++ nl ++ "bar"
  ++ nl ++ nl ++ "# C" ++ nl ++ nl ++ "baz".

(** A page whose first and third sections have the same heading and
    the same body. *)
Definition repeated_section_page : string :=
  "# A" ++ nl ++ nl ++ "foo" ++ nl ++ nl ++ "# B" ++ nl ++ nl ++ "bar"
  ++ nl ++ nl ++ "# A" ++ nl ++ nl ++ "foo".

(** A page with a level-5 heading. *)
Definition deep_heading_page : string :=
  "# A" ++ nl ++ nl ++ "##### E" ++ nl ++ nl ++ "deep".

(** One section of 3003 characters: two paragraphs of 1500. *)
Definition two_paragraph_page : string :=
  PyStr.repeat "a" 1500 ++ nl ++ nl ++ PyStr.repeat "b" 1500.

(** Four pieces for one merge: the first three fit into one chunk, and
    the third alone is short enough to be kept for the next. *)
Definition overlap_pieces : list string :=
  [PyStr.repeat "a" 900; PyStr.repeat "b" 900; PyStr.repeat "c" 150;
   PyStr.repeat "d" 900].

(** A code fence that is never closed, followed by empty lines. *)
Definition open_fence_page : string := "``` " ++ nl ++ nl.

(** A level-5 heading right after a paragraph line. *)
Definition deep_inline_page : string :=
  "# A" ++ nl ++ "foo" ++ nl ++ "##### E" ++ nl ++ "bar".

Definition docs_file : FileEntry :=
  mkFile "data/molecule_docs.json" "Molecule Documentation".

Definition item (t u md : string) : record :=
  [("title", JStr t); ("url", JStr u); ("markdown", JStr md)].

(** A row of the frame whose title is the number 7. *)
Definition numbered_page : ParsedItem :=
  {| title := JNum 7;
     content := JStr "# A";
     metadata := {| url := JStr "https://a";
                    source := "Molecule Documentation" |} |}.

(** A record with its title in both places. *)
Definition item_both (t u md : string) : record :=
  [("title", JStr t); ("metadata", JObj [("title", JStr t)]);
   ("url", JStr u); ("markdown", JStr md)].

Definition page (t u md : string) : ParsedItem :=
  Ingest.parse_item docs_file (item t u md).

(** A [json.load] that finds [items] in the documentation file and
    nothing in the other files. *)
Definition load_docs (items : list record) (p : string) : list record :=
  if String.eqb p (path docs_file) then items else [].

(** Two records with the same markdown and different urls. *)
Definition duplicate_items : list record :=
  [item "First" "https://a" "same text"; item "Second" "https://b" "same text"].

(** A record without [markdown], and one whose [markdown] is [null]. *)
Definition no_markdown_item : record :=
  [("title", JStr "T"); ("url", JStr "https://a")].
Definition null_markdown_item : record :=
  [("title", JStr "T"); ("url", JStr "https://a"); ("markdown", JNull)].

(** A database that already has a ledger entry. *)
Definition old_db : Store.Db :=
  Store.mkDb None (Some [mkConfig Store.version_key "2020-01-01"]) false false.

(** Only [table.add] fails. *)
Definition add_chunks_fails (op : Store.StoreOp) : bool :=
  bool_decide (op = Store.AddChunks).

(** The value of a computation that did not raise. *)
Definition get_ok {A : Type} (r : result (list A)) : list A :=
  match r with
  | Ok a => a
  | Raise _ => []
  end.

(** The inference of pandas as the examples need it: a column that
    holds integers and nulls only, with at least one of each, comes back
    as floats, [nan] for null; every other value comes back as it is. *)
Definition is_int (v : json) : bool :=
  match v with JNum _ => true | _ => false end.
Definition is_null (v : json) : bool :=
  match v with JNull => true | _ => false end.

Definition float_of_int (z : Z) : SpecFloat.spec_float :=
  SpecFloat.binary_normalize 53 1024 z 0 false.

Definition infer : Pandas.Inference :=
  fun column v =>
    if forallb (fun x => is_int x || is_null x) column
       && existsb is_int column && existsb is_null column
    then match v with
         | JNum z => JFloat (float_of_int z)
         | JNull => JFloat SpecFloat.S754_nan
         | _ => v
         end
    else v.

(** The cast of the store as the examples need it: an integer is held as
    its decimal text; the examples have no other value that is neither
    text nor null. *)
Definition cast : Store.Cast :=
  fun _ v =>
    match v with
    | JNum z => Some (DecimalString.NilZero.string_of_int (Z.to_int z))
    | _ => None
    end.

(** The index appears at the third poll. *)
Definition index_at_third_poll (k : nat) : list string :=
  if (k <? 2)%nat then [] else ["vector_idx"; "text_idx"].

End Examples.

(** ** Readings of a chunk's metadata *)

Module Reading.
Import Common.

Definition header_key (n : nat) : string :=
  match n with
  | 1 => "header_1"
  | 2 => "header_2"
  | 3 => "header_3"
  | 4 => "header_4"
  | 5 => "header_5"
  | _ => "header_6"
  end.

(** The heading path of a chunk: the levels from 1 to 6 that its
    metadata has a header for, with the header. *)
Definition heading_path (c : Chunk) : list (nat * json) :=
  flat_map
    (fun n =>
       match chunk_metadata c !! header_key n with
       | Some v => [(n, v)]
       | None => []
       end)
    [1; 2; 3; 4; 5; 6].

(** The chunk without its level-5 and level-6 headers. *)
Definition without_deep_headers (c : Chunk) : Chunk :=
  mkChunk (page_content c)
    (delete "header_5" (delete "header_6" (chunk_metadata c))).

(** The header stack of the markdown splitter is well formed: levels
    grow strictly towards the top (the head), and every entry is named
    after its level. *)
Fixpoint stack_ok (stack : list Langchain.HeaderType) : Prop :=
  match stack with
  | [] => True
  | h :: rest =>
      Langchain.name h = header_key (Langchain.level h)
      /\ 1 <= Langchain.level h <= 6
      /\ List.Forall (fun h' => Langchain.level h' < Langchain.level h) rest
      /\ stack_ok rest
  end.

(** Every key of the header metadata names an entry of the stack. *)
Definition meta_ok (stack : list Langchain.HeaderType)
    (meta : gmap string string) : Prop :=
  forall k, is_Some (meta !! k) -> exists h, In h stack /\ Langchain.name h = k.

Definition state_ok (st : Langchain.SplitState) : Prop :=
  stack_ok (Langchain.header_stack st)
  /\ meta_ok (Langchain.header_stack st) (Langchain.initial_metadata st).

(** The summed length of the pieces of a chunk in the making. *)
Fixpoint total_len (parts : list string) : Z :=
  match parts with
  | [] => 0
  | p :: rest => Langchain.len p + total_len rest
  end.

(** The merge loop holds pieces that fit into one chunk, counts their
    length exactly, and has emitted chunks within the size. *)
Definition merge_ok (sp : Langchain.RecursiveCharacterTextSplitter)
    (st : Langchain.MergeState) : Prop :=
  Langchain.total st = total_len (Langchain.current_doc st)
  /\ (Langchain.total st <= Langchain.chunk_size sp)%Z
  /\ List.Forall (fun d => (Langchain.len d <= Langchain.chunk_size sp)%Z)
       (Langchain.docs st).

(** The separator list ends with the empty separator. *)
Definition ends_with_empty (seps : list string) : Prop :=
  exists front, seps = (front ++ [""])%list.

(** The record has the same title at the top level, where [ingest.py]
    looks, and under [metadata], where [custom-ingestion.py] looks. *)
Definition titles_agree (item : record) : Prop :=
  exists fields,
    dict_get "metadata" (JObj []) item = JObj fields
    /\ dict_get "title" (JStr "N/A") fields = dict_get "title" (JStr "") item.

(** The line is not a heading of level 5 or 6. *)
Definition shallow_line (line : string) : bool :=
  let s := PyStr.filter PyStr.isprintable (PyStr.strip line) in
  negb (Langchain.is_header_line s "######")
  && negb (Langchain.is_header_line s "#####").

(** No line of the text is a heading of level 5 or 6. *)
Definition no_deep_heading (md : string) : Prop :=
  forallb shallow_line (PyStr.split_lines md) = true.

Definition shallow (item : record) : Prop :=
  match dict_get "markdown" (JStr "") item with
  | JStr md => no_deep_heading md
  | _ => True
  end.

(** The line as [split_text] looks at it. *)
Definition stripped (line : string) : string :=
  PyStr.filter PyStr.isprintable (PyStr.strip line).

(** The line neither opens nor continues a code block. *)
Definition outside_code (st : Langchain.SplitState) (line : string) : Prop :=
  Langchain.in_code_block st = false
  /\ PyStr.startswith (stripped line) Langchain.fence_backticks = false
  /\ PyStr.startswith (stripped line) Langchain.fence_tildes = false.

End Reading.

(** ** The rest of the store calls: the checks at the end of [ingest.py]
       and the store calls of [custom-ingestion.py] *)

Module StoreChecks.
Import Common Store.

(** No call raises. *)
Definition never_fails : StoreOp -> bool := fun _ => false.

(** Only the call [op] raises. *)
Definition only_fails (op : StoreOp) : StoreOp -> bool :=
  fun o => bool_decide (o = op).

(** Lines 239 to 246 of [ingest.py]: the value of the first row that the
    query on the version key returns, [None] when the result is empty. *)
Definition retrieved_version (d : Db) : option string :=
  match knowledge_version d with
  | [] => None
  | v :: _ => Some v
  end.

(** The rows of the config table under the key [k]. *)
Definition entries_for (k : string) (d : Db) : list Config :=
  match config d with
  | Some rows => List.filter (fun c => String.eqb (key c) k) rows
  | None => []
  end.

(** The database after the store calls of [ingest.py], started with an
    empty log. *)
Definition run_db (fails : StoreOp -> bool) (cast : Cast) (today : string)
    (chunks : list Chunk) (d : Db) : Db :=
  db (fst (store_script fails cast today chunks (mkWorld d []))).

(** Lines 130 to 176 of [custom-ingestion.py]: the table is created, the
    rows are prepared and added, and the two indexes are built; there is
    no config table. *)
Definition local_store_script (fails : StoreOp -> bool) (cast : Cast)
    (chunks : list Chunk) : M unit :=
  bind (create_molrag fails) (fun _ =>
  bind (lift (processed_chunks chunks)) (fun processed =>
  bind (table_add fails cast processed) (fun _ =>
  bind (create_fts_index fails) (fun _ =>
  create_index fails)))).

(** The value is text or null, as every field of [ChunkMetadata] is
    declared. *)
Definition text_or_null (v : json) : Prop := v = JNull \/ exists s, v = JStr s.

(** The metadata of the row is as the schema [Chunks] declares it. *)
Definition fits_schema (r : Chunks) : Prop :=
  let md := row_metadata r in
  text_or_null (header_1 md) /\ text_or_null (header_2 md)
  /\ text_or_null (header_3 md) /\ text_or_null (header_4 md)
  /\ text_or_null (page_title md) /\ text_or_null (row_source md)
  /\ text_or_null (row_url md).

(** The config step of [ingest.py] goes through: the table is there and
    can be opened, or it is not there and can be created. *)
Definition config_step_ok (fails : StoreOp -> bool) (d : Db) : bool :=
  if is_some (config d) then negb (fails OpenConfig)
  else negb (fails CreateConfig).

End StoreChecks.

(** ** Invariants of the markdown splitter's line loop *)

Module SplitInv.

(** The string has no line break. *)
Fixpoint no_nl (s : string) : bool :=
  match s with
  | "" => true
  | String c s' => negb (Ascii.eqb c PyStr.nl) && no_nl s'
  end.

(** The last line of the content is not empty, so that its first
    character can be read. *)
Definition ends_in_text (c : string) : Prop :=
  String.get 0 (List.last (PyStr.split_lines c) "") <> None.

(** Every separator of the splitter starts with ["#"]. *)
Definition hash_headers (sp : Langchain.MarkdownHeaderTextSplitter) : Prop :=
  List.Forall (fun h => PyStr.startswith (fst h) "#" = true)
    (Langchain.headers_to_split_on sp).

Definition is_fence (f : string) : Prop :=
  f = Langchain.fence_backticks \/ f = Langchain.fence_tildes.

(** What the line loop keeps: the contents flushed so far end in text; the
    lines being collected have no line break and, outside a code block,
    the last of them is not empty; inside a code block the fence that
    opened it is known. *)
Definition lines_ok (st : Langchain.SplitState) : Prop :=
  List.Forall (fun l => ends_in_text (Langchain.content l))
    (Langchain.lines_with_metadata st)
  /\ forallb no_nl (Langchain.current_content st) = true
  /\ (Langchain.in_code_block st = false ->
      List.last (Langchain.current_content st) "x" <> "")
  /\ (Langchain.in_code_block st = true -> is_fence (Langchain.opening_fence st)).

(** The page content is text. *)
Definition is_text (v : json) : Prop := exists s, v = JStr s.

End SplitInv.

Module AggregateInv.

(** The newest aggregated chunk, if any, ends in text. *)
Definition head_ok (aggregated_chunks : list Langchain.LineType) : Prop :=
  match aggregated_chunks with
  | [] => True
  | lst :: _ => SplitInv.ends_in_text (Langchain.content lst)
  end.

End AggregateInv.

(** ** The export loops of the crawl scripts

    [crawl_docs.py] and [crawl_blog.py] write the JSON files that the
    ingestion scripts read.  Their export loops drop results whose
    markdown has a hash that was seen before.  A crawl result is reduced
    to the fields the loops read. *)

Module Crawl.

Record CrawlResult : Type := mkCrawlResult {
  success : bool;
  url : string;
  markdown : option string;
  metadata : json
}.

(** An entry of [pages_data]. *)
Record PageData : Type := mkPageData {
  title : json;
  page_url : string;
  page_markdown : option string;
  source : string
}.

(** [d.get(key, default)] on a value that must be a [dict]. *)
Definition get (key : string) (default : json) (d : json) : result json :=
  match d with
  | JObj fields => Ok (Common.dict_get key default fields)
  | _ => Raise AttributeError
  end.

(** [v.strip()] on a value that must be a [str]. *)
Definition strip (v : json) : result string :=
  match v with
  | JStr s => Ok (PyStr.strip s)
  | _ => Raise AttributeError
  end.

(** The truth value of [result.markdown]. *)
Definition truthy (md : option string) : bool :=
  match md with
  | Some s => negb (String.eqb s "")
  | None => false
  end.

(** What identifies an exported page and a crawl result. *)
Definition page_key (p : PageData) : string * option string :=
  (page_url p, page_markdown p).
Definition result_key (r : CrawlResult) : string * option string :=
  (url r, markdown r).

Section Loops.
(** [hash] of a markdown value, and [extract_title_from_markdown], whose
    regular expressions are not embedded. *)
Variable hash : option string -> Z.
Variable extract_title_from_markdown : option string -> string.
(** [url_data.get(url)]: the seeder's entry for the url, if any. *)
Variable url_data : string -> option Common.record.

(** Lines 90 to 107 of [crawl_docs.py]: the body of the loop on
    [pages_data] and [seen_content]. *)
Definition docs_step (st : list PageData * gset Z) (r : CrawlResult)
  : result (list PageData * gset Z) :=
  let '(pages_data, seen_content) := st in
  let content_hash := hash (markdown r) in
  if bool_decide (content_hash ∈ seen_content) then Ok st
  else
    let extracted_title := extract_title_from_markdown (markdown r) in
    t ← (if String.eqb extracted_title "" then get "title" (JStr "") (metadata r)
         else Ok (JStr extracted_title));
    Ok ((pages_data ++ [mkPageData t (url r) (markdown r) "Molecule Docs"])%list,
        {[content_hash]} ∪ seen_content).

(** [pages_data] of [crawl_docs.py] when the loop ends, before the sort. *)
Definition docs_pages (results : list CrawlResult) : result (list PageData) :=
  st ← for_each docs_step results ([], ∅); Ok (fst st).

(** Lines 100 to 106 of [crawl_blog.py]: the title of a page. *)
Definition blog_title (r : CrawlResult) : result string :=
  let seeder_info :=
    match url_data (url r) with
    | Some info => JObj info
    | None => JObj []
    end in
  head_data ← get "head_data" (JObj []) seeder_info;
  st ← get "title" (JStr "") head_data;
  seeder_title ← strip st;
  ct ← get "title" (JStr "") (metadata r);
  crawler_title ← strip ct;
  Ok (if String.eqb seeder_title "" then crawler_title else seeder_title).

(** Lines 87 to 113 of [crawl_blog.py]: the body of the loop. *)
Definition blog_step (st : list PageData * gset Z) (r : CrawlResult)
  : result (list PageData * gset Z) :=
  let '(pages_data, seen_content) := st in
  if negb (success r) then Ok st
  else
    let content_hash := hash (markdown r) in
    if truthy (markdown r) && bool_decide (content_hash ∈ seen_content) then Ok st
    else
      let seen_content' :=
        if truthy (markdown r) then {[content_hash]} ∪ seen_content
        else seen_content in
      final_title ← blog_title r;
      Ok ((pages_data
             ++ [mkPageData (JStr final_title) (url r) (markdown r) "Molecule Blog"])%list,
          seen_content').

Definition blog_pages (results : list CrawlResult) : result (list PageData) :=
  st ← for_each blog_step results ([], ∅); Ok (fst st).

(** The hashes of the pages seen so far are the set [seen_content], and
    no two pages have the same hash. *)
Definition docs_ok (st : list PageData * gset Z) : Prop :=
  (forall h, h ∈ snd st <-> In h (map (fun p => hash (page_markdown p)) (fst st)))
  /\ List.NoDup (map (fun p => hash (page_markdown p)) (fst st)).

(** The same for the pages with markdown of [crawl_blog.py]. *)
Definition blog_ok (st : list PageData * gset Z) : Prop :=
  (forall h, h ∈ snd st <->
             In h (map (fun p => hash (page_markdown p))
                     (List.filter (fun p => truthy (page_markdown p)) (fst st))))
  /\ List.NoDup (map (fun p => hash (page_markdown p))
                   (List.filter (fun p => truthy (page_markdown p)) (fst st))).

End Loops.

(** [url_exclusion_patterns] of [crawl_blog.py]. *)
Definition url_exclusion_patterns : list string :=
  ["gamifying-longevity-increasing-participation-accelerating-breakthroughs";
   "vitalik-buterin-on-decentralized-science-aging-ai-and-scientific-progress";
   "exploring-decentralized-science-with-balaji-srinivasan-on-the-desci-podcast";
   "desci-berlin-2025-bigger-busier-bolder";
   "desci-berlin-2023";
   "desci-berlin-2024-recap";
   "desci-berlin"].

(** The inner loop of lines 42 to 48: some pattern occurs in the url. *)
Definition should_exclude (patterns : list string) (u : string) : bool :=
  existsb (fun pattern => PyStr.contains u pattern) patterns.

(** Lines 39 to 52 of [crawl_blog.py]: [filtered_url_list] and
    [excluded_urls] after the loop. *)
Definition exclude_step (st : list string * list string) (u : string)
  : list string * list string :=
  let '(filtered_url_list, excluded_urls) := st in
  if should_exclude url_exclusion_patterns u
  then (filtered_url_list, (excluded_urls ++ [u])%list)
  else ((filtered_url_list ++ [u])%list, excluded_urls).

Definition filter_urls (url_list : list string) : list string * list string :=
  fold_left exclude_step url_list ([], []).

End Crawl.

Module CrawlExamples.

(** A hash that identifies markdown of the same length. *)
Definition length_hash (md : option string) : Z :=
  match md with
  | Some s => Z.of_nat (String.length s)
  | None => (-1)%Z
  end.

Definition no_title (_ : option string) : string := "".

Definition no_seeder (_ : string) : option Common.record := None.

Definition crawled (ok : bool) (u md : string) : Crawl.CrawlResult :=
  Crawl.mkCrawlResult ok u (Some md) (JObj [("title", JStr " Page ")]).

(** Four results: the second has other markdown of the same length as
    the first, the fourth repeats the first. *)
Definition docs_results : list Crawl.CrawlResult :=
  [crawled true "https://a" "one"; crawled true "https://b" "two";
   crawled true "https://c" "three"; crawled true "https://d" "one"].

(** A failed result, two results without markdown and a repeated one. *)
Definition blog_results : list Crawl.CrawlResult :=
  [crawled false "https://a" "one"; crawled true "https://b" "";
   crawled true "https://c" "one"; crawled true "https://d" "";
   crawled true "https://e" "one"].

End CrawlExamples.

Module ChunkText.

(** The text is not empty and has no white space at either end. *)
Definition trimmed (t : string) : Prop := t <> "" /\ PyStr.strip t = t.

End ChunkText.

Module BlankPage.

(** Every line of the text is empty as [split_text] looks at it:
    stripped of the white space at its ends and then of its characters
    that are not printable. *)
Definition blank (md : string) : Prop :=
  List.Forall (fun line => Reading.stripped line = "") (PyStr.split_lines md).

(** The text has white space only. *)
Fixpoint white (md : string) : bool :=
  match md with
  | "" => true
  | String c md' => PyStr.isspace c && white md'
  end.

End BlankPage.

(** ** Reading a chunk back from its row *)

Module RowDecode.
Import Common.

(** A header field of a row goes back into the metadata unless it is
    [None]. *)
Definition with_header (k : string) (v : json) (m : gmap string json)
  : gmap string json :=
  match v with
  | JNull => m
  | _ => <[k := v]> m
  end.

(** The chunk that a row describes. *)
Definition chunk_of_row (r : Chunks) : Chunk :=
  let md := row_metadata r in
  mkChunk (text r)
    (<["source" := row_source md]>
       (<["url" := row_url md]>
          (<["page_title" := page_title md]>
             (with_header "header_1" (header_1 md)
                (with_header "header_2" (header_2 md)
                   (with_header "header_3" (header_3 md)
                      (with_header "header_4" (header_4 md) ∅))))))).

(** The metadata names that a markdown splitter can write. *)
Definition header_names (sp : Langchain.MarkdownHeaderTextSplitter) : list string :=
  map snd (Langchain.headers_to_split_on sp).

(** Every key of the metadata is one of [names]. *)
Definition keys_in (names : list string) (m : gmap string string) : Prop :=
  forall k, is_Some (m !! k) -> In k names.

(** The metadata that the line loop holds has header names as keys. *)
Definition keys_ok (sp : Langchain.MarkdownHeaderTextSplitter)
    (st : Langchain.SplitState) : Prop :=
  keys_in (header_names sp) (Langchain.initial_metadata st)
  /\ keys_in (header_names sp) (Langchain.current_metadata st)
  /\ List.Forall (fun l => keys_in (header_names sp) (Langchain.line_metadata l))
       (Langchain.lines_with_metadata st).

End RowDecode.

Module RowHeaders.

(** The header field that the row of a chunk gets for the key [k]. *)
Definition header_field (m : gmap string string) (k : string) : json :=
  match m !! k with
  | Some v => JStr v
  | None => JNull
  end.

End RowHeaders.

(** ** The pieces of the chunks of one merge

    [_merge_splits] makes every chunk of consecutive pieces of its
    input.  A window names the pieces of one chunk: those it keeps from
    the chunk before it, then the pieces that follow in the input. *)

Module Overlap.

Record Window : Type := mkWindow {
  kept : list string;
  fresh : list string
}.

Definition pieces (w : Window) : list string := (kept w ++ fresh w)%list.

(** The chunk of a window: [_join_docs] of its pieces, [None] when the
    stripped text is empty. *)
Definition chunk (w : Window) : option string :=
  Langchain.join_docs (pieces w) "".

(** Every window keeps trailing pieces of the window before it; [prev]
    are the pieces before the first window. *)
Fixpoint chained (prev : list string) (ws : list Window) : Prop :=
  match ws with
  | [] => True
  | w :: rest => kept w `suffix_of` prev /\ chained (pieces w) rest
  end.

(** The pieces of the last window, [prev] when there is none. *)
Definition last_pieces (prev : list string) (ws : list Window) : list string :=
  fold_left (fun _ w => pieces w) ws prev.

(** The kept pieces fit into the overlap and all pieces into a chunk. *)
Definition fits (sp : Langchain.RecursiveCharacterTextSplitter) (w : Window) : Prop :=
  (Reading.total_len (kept w) <= Langchain.chunk_overlap sp)%Z
  /\ (Reading.total_len (pieces w) <= Langchain.chunk_size sp)%Z.

(** What the merge loop keeps, with the windows [done] of the chunks
    emitted so far and the window [cur] of the chunk in the making,
    after the pieces [consumed]. *)
Definition merge_inv (sp : Langchain.RecursiveCharacterTextSplitter)
    (consumed : list string) (done : list Window) (cur : Window)
    (st : Langchain.MergeState) : Prop :=
  Langchain.docs st = omap chunk done
  /\ Langchain.current_doc st = pieces cur
  /\ Langchain.total st = Reading.total_len (pieces cur)
  /\ (Langchain.total st <= Langchain.chunk_size sp)%Z
  /\ chained [] done
  /\ kept cur `suffix_of` last_pieces [] done
  /\ List.Forall (fits sp) done
  /\ (Reading.total_len (kept cur) <= Langchain.chunk_overlap sp)%Z
  /\ (concat (map fresh done) ++ fresh cur)%list = consumed.

End Overlap.

(** * Properties *)

Local Open Scope list_scope.

(** ** Loops in the exception monad *)

Lemma for_each_app {A S : Type} (body : S -> A -> result S) (xs ys : list A) (acc : S) :
  for_each body (xs ++ ys) acc = (acc' ← for_each body xs acc; for_each body ys acc').
Proof.
  revert acc. induction xs as [|x xs IH]; intros acc; simpl.
  - reflexivity.
  - destruct (body acc x) as [a|e]; simpl; [apply IH | reflexivity].
Qed.

Lemma bind_ok_inv {A B : Type} (r : result A) (k : A -> result B) (b : B) :
  (a ← r; k a) = Ok b -> exists a, r = Ok a /\ k a = Ok b.
Proof. destruct r as [a|e]; simpl; [eauto | discriminate]. Qed.

(** ** [wait_for_index] *)

Lemma index_listed_spec (indices : list string) (index_name : string) :
  negb (Nat.eqb (length indices) 0)
  && existsb (fun nm => String.eqb nm index_name) indices = true
  <-> In index_name indices.
Proof.
  split.
  - intros H. apply andb_true_iff in H as [_ H].
    apply existsb_exists in H as (nm & Hin & Heq).
    apply String.eqb_eq in Heq. now subst.
  - intros H. apply andb_true_iff. split.
    + destruct indices; [destruct H | reflexivity].
    + apply existsb_exists. exists index_name. split; [assumption|].
      apply String.eqb_refl.
Qed.

Lemma wait_from_found (list_indices : nat -> list string) (index_name : string) :
  forall (gap k fuel : nat),
    In index_name (list_indices (k + gap)) ->
    (forall j, k <= j < k + gap -> ~ In index_name (list_indices j)) ->
    gap < fuel ->
    Common.wait_for_index_from list_indices index_name fuel k
    = Some (Common.mkWaited (S (k + gap)) (Common.POLL_INTERVAL * (k + gap))).
Proof.
  induction gap as [|gap IH]; intros k fuel Hin Hnot Hfuel.
  - destruct fuel as [|fuel]; [lia|].
    replace (k + 0) with k in * by lia.
    cbn [Common.wait_for_index_from].
    apply index_listed_spec in Hin. rewrite Hin. reflexivity.
  - destruct fuel as [|fuel]; [lia|]. cbn [Common.wait_for_index_from].
    destruct (negb (Nat.eqb (length (list_indices k)) 0)
              && existsb (fun nm => String.eqb nm index_name) (list_indices k))
      eqn:Hk.
    + apply index_listed_spec in Hk. exfalso. apply (Hnot k); [lia | assumption].
    + replace (k + S gap) with (S k + gap) in * by lia.
      apply IH; [assumption | | lia].
      intros j Hj. apply Hnot. lia.
Qed.

Lemma wait_from_never (list_indices : nat -> list string) (index_name : string) :
  (forall k, ~ In index_name (list_indices k)) ->
  forall fuel k, Common.wait_for_index_from list_indices index_name fuel k = None.
Proof.
  intros Hnever. induction fuel as [|fuel IH]; intros k;
    cbn [Common.wait_for_index_from].
  - reflexivity.
  - destruct (negb (Nat.eqb (length (list_indices k)) 0)
              && existsb (fun nm => String.eqb nm index_name) (list_indices k))
      eqn:Hk.
    + apply index_listed_spec in Hk. destruct (Hnever k Hk).
    + apply IH.
Qed.

(** C9: [wait_for_index] returns at the first poll whose index list has
    the name, having slept [POLL_INTERVAL] after each earlier poll; when no
    poll ever lists the name, the loop is still running after any number
    of iterations. *)
Theorem wait_for_index_polls_until_listed
    (list_indices : nat -> list string) (index_name : string) :
  (forall k,
      In index_name (list_indices k) ->
      (forall j, j < k -> ~ In index_name (list_indices j)) ->
      forall fuel, k < fuel ->
        Common.wait_for_index list_indices index_name fuel
        = Some (Common.mkWaited (S k) (10 * k)))
  /\ ((forall k, ~ In index_name (list_indices k)) ->
      forall fuel, Common.wait_for_index list_indices index_name fuel = None).
Proof.
  split.
  - intros k Hin Hnot fuel Hfuel. unfold Common.wait_for_index.
    change (10 * k) with (Common.POLL_INTERVAL * (0 + k)).
    change (S k) with (S (0 + k)).
    apply (wait_from_found list_indices index_name k 0 fuel);
      [assumption | | assumption].
    intros j Hj. apply Hnot. lia.
  - intros Hnever fuel. apply wait_from_never. assumption.
Qed.

Lemma wait_for_index_polls_until_listed_witness :
  Common.wait_for_index Examples.index_at_third_poll "text_idx" 5
  = Some (Common.mkWaited 3 20)
  /\ forall fuel, Common.wait_for_index (fun _ => ["vector_idx"]) "text_idx" fuel = None.
Proof.
  split.
  - apply (proj1 (wait_for_index_polls_until_listed
                    Examples.index_at_third_poll "text_idx") 2).
    + simpl. right. left. reflexivity.
    + intros j Hj. destruct j as [|[|j]]; simpl; [tauto | tauto | lia].
    + lia.
  - apply (proj2 (wait_for_index_polls_until_listed (fun _ => ["vector_idx"]) "text_idx")).
    intros k [H|[]]. discriminate H.
Defined.

(** ** The ledger write and the chunk write of [ingest.py] *)

Lemma version_recorded (today : string) (old : list Common.Config) :
  In today
    (map Common.value
       (List.filter (fun c => String.eqb (Common.key c) Store.version_key)
          (old ++ [Common.mkConfig Store.version_key today]))).
Proof.
  apply in_map_iff. exists (Common.mkConfig Store.version_key today).
  split; [reflexivity|].
  apply filter_In. split.
  - apply in_or_app. right. left. reflexivity.
  - reflexivity.
Qed.

(** C1 (amended): in every run of the store calls of [ingest.py], whatever
    calls fail, the ledger entry is added before the chunk rows are: when
    [table.add] has taken effect, [config_table.add] took effect earlier;
    and once [config_table.add] has taken effect the ledger holds the new
    date whether or not the chunk write succeeds afterwards. *)
Theorem ledger_written_before_chunks
    (fails : Store.StoreOp -> bool) (cast : Store.Cast) (today : string)
    (chunks : list Common.Chunk) (d : Store.Db) :
  let w := fst (Store.store_script fails cast today chunks (Store.mkWorld d [])) in
  (In Store.AddChunks (Store.log w) ->
   exists i j,
     Store.index_of Store.AddVersion (Store.log w) = Some i
     /\ Store.index_of Store.AddChunks (Store.log w) = Some j
     /\ i < j)
  /\ (In Store.AddVersion (Store.log w) ->
      In today (Store.knowledge_version (Store.db w))).
Proof.
  unfold Store.store_script, Store.bind, Store.try_except, Store.ret, Store.lift,
    Store.create_molrag, Store.open_config, Store.create_config,
    Store.delete_version, Store.add_config, Store.table_add,
    Store.create_fts_index, Store.create_index, Store.call.
  cbn [Store.db Store.log Store.molrag Store.config Store.is_some].
  destruct d as [mol cfg fts vec]. cbn.
  destruct (Common.processed_chunks chunks) as [rows|e];
  destruct (fails Store.CreateMolrag), (fails Store.OpenConfig),
    (fails Store.CreateConfig), (fails Store.DeleteVersion),
    (fails Store.AddVersion), (fails Store.AddChunks),
    (fails Store.CreateFtsIndex), (fails Store.CreateIndex),
    cfg as [old|]; cbn;
  (split;
   [ intros Hin;
     first [ exfalso; cbn in Hin; intuition discriminate
           | eexists _, _; repeat split; cbn; try reflexivity; lia ]
   | intros Hin;
     first [ exfalso; cbn in Hin; intuition discriminate
           | unfold Store.knowledge_version; cbn [Store.config Store.db];
             first [ apply version_recorded
                   | apply (version_recorded today []) ] ] ]).
Qed.

Lemma ledger_written_before_chunks_witness :
  let w := fst (Store.store_script (fun _ => false) Examples.cast "2026-11-04" []
                  (Store.mkWorld Examples.old_db [])) in
  (exists i j,
     Store.index_of Store.AddVersion (Store.log w) = Some i
     /\ Store.index_of Store.AddChunks (Store.log w) = Some j
     /\ i < j)
  /\ In "2026-11-04" (Store.knowledge_version (Store.db w)).
Proof.
  pose proof (ledger_written_before_chunks (fun _ => false) Examples.cast
                "2026-11-04" [] Examples.old_db) as [Horder Hversion].
  split.
  - apply Horder. vm_compute. tauto.
  - apply Hversion. vm_compute. tauto.
Defined.

(** C1 as stated fails: when [table.add] raises, the run stops with the
    chunk table empty, and the ledger has already moved from the old date
    to the new one. *)
Lemma ledger_advanced_when_chunk_write_fails :
  let run :=
    Store.main Examples.add_chunks_fails Examples.cast Examples.infer "2026-11-04"
      (Examples.load_docs [Examples.item "T" "https://a" Examples.heading_page])
      (Store.mkWorld Examples.old_db []) in
  snd run = Raise StoreError
  /\ Store.molrag (Store.db (fst run)) = Some []
  /\ Store.knowledge_version Examples.old_db = ["2020-01-01"]
  /\ Store.knowledge_version (Store.db (fst run)) = ["2026-11-04"]
  /\ Store.log (fst run)
     = [Store.CreateMolrag; Store.OpenConfig; Store.DeleteVersion; Store.AddVersion].
Proof. vm_compute. repeat split. Qed.

(** ** The chunk loop *)

Lemma chunk_loop_app (sp : Langchain.MarkdownHeaderTextSplitter)
    (xs ys : list Common.ParsedItem) (acc : list Common.Chunk) :
  Common.chunk_loop sp (xs ++ ys) acc
  = (acc' ← Common.chunk_loop sp xs acc; Common.chunk_loop sp ys acc').
Proof. apply for_each_app. Qed.

Lemma chunk_loop_acc (sp : Langchain.MarkdownHeaderTextSplitter)
    (df : list Common.ParsedItem) (acc : list Common.Chunk) :
  Common.chunk_loop sp df acc
  = (cs ← Common.chunk_loop sp df []; Ok (acc ++ cs)).
Proof.
  revert acc. induction df as [|row df IH]; intros acc.
  - simpl. now rewrite app_nil_r.
  - unfold Common.chunk_loop in *. cbn [for_each].
    destruct (Common.chunks_of_row sp row) as [b|e]; simpl; [|reflexivity].
    rewrite (IH (acc ++ b)), (IH b).
    destruct (for_each _ df []) as [cs|e]; simpl; [|reflexivity].
    now rewrite app_assoc.
Qed.

Lemma chunk_loop_cons (sp : Langchain.MarkdownHeaderTextSplitter)
    (row : Common.ParsedItem) (df : list Common.ParsedItem) :
  Common.chunk_loop sp (row :: df) []
  = (b ← Common.chunks_of_row sp row;
     cs ← Common.chunk_loop sp df [];
     Ok (b ++ cs)).
Proof.
  unfold Common.chunk_loop at 1. cbn [for_each].
  destruct (Common.chunks_of_row sp row) as [b|e]; simpl; [|reflexivity].
  apply (chunk_loop_acc sp df b).
Qed.

(** A page inside a run: the chunks of the run are those of the pages
    before it, its own, and those of the pages after it. *)
Lemma chunk_loop_middle (sp : Langchain.MarkdownHeaderTextSplitter)
    (page : Common.ParsedItem) (before after : list Common.ParsedItem)
    (run : list Common.Chunk) :
  Common.chunk_loop sp (before ++ page :: after) [] = Ok run ->
  exists a cs c,
    Common.chunk_loop sp before [] = Ok a
    /\ Common.chunks_of_row sp page = Ok cs
    /\ Common.chunk_loop sp after [] = Ok c
    /\ run = a ++ cs ++ c.
Proof.
  rewrite chunk_loop_app. intros H.
  apply bind_ok_inv in H as (a & Ha & H).
  rewrite chunk_loop_acc, chunk_loop_cons in H.
  apply bind_ok_inv in H as (rest & Hrest & H).
  apply bind_ok_inv in Hrest as (cs & Hcs & Hrest).
  apply bind_ok_inv in Hrest as (c & Hc & Hrest).
  exists a, cs, c. repeat split; try assumption.
  congruence.
Qed.

Lemma chunks_of_row_splits (sp : Langchain.MarkdownHeaderTextSplitter)
    (row : Common.ParsedItem) :
  Common.chunks_of_row sp row
  = (splits ← (md ← Common.split_content sp (Common.content row);
               Langchain.split_documents Common.text_splitter md);
     Ok (map (Common.tag_split row) splits)).
Proof.
  unfold Common.chunks_of_row.
  destruct (Common.split_content sp (Common.content row)) as [md|e]; reflexivity.
Qed.

Lemma tag_split_url (row : Common.ParsedItem) (split : Langchain.Document) :
  Common.chunk_metadata (Common.tag_split row split) !! "url"
  = Some (Common.url (Common.metadata row)).
Proof. unfold Common.tag_split. cbn. by simplify_map_eq. Qed.

Lemma tag_split_page_title (row : Common.ParsedItem) (split : Langchain.Document) :
  Common.chunk_metadata (Common.tag_split row split) !! "page_title"
  = Some (Common.title row).
Proof. unfold Common.tag_split. cbn. by simplify_map_eq. Qed.

Lemma tag_split_source (row : Common.ParsedItem) (split : Langchain.Document) :
  Common.chunk_metadata (Common.tag_split row split) !! "source"
  = Some (JStr (Common.source (Common.metadata row))).
Proof. unfold Common.tag_split. cbn. by simplify_map_eq. Qed.

Lemma tag_split_text (row : Common.ParsedItem) (splits : list Langchain.Document) :
  map Common.page_content (map (Common.tag_split row) splits)
  = map Langchain.page_content splits.
Proof. rewrite map_map. reflexivity. Qed.

Lemma split_content_not_text (sp : Langchain.MarkdownHeaderTextSplitter) (v : json) :
  (forall s, v <> JStr s) -> Common.split_content sp v = Raise AttributeError.
Proof. intros Hv. destruct v; try reflexivity. now destruct (Hv s). Qed.

(** ** The frame between [parsed_data] and the chunk loop *)

Lemma cell_text (infer : Pandas.Inference) (column : list json) (v : json) (s : string) :
  Pandas.cell infer column v = JStr s <-> v = JStr s.
Proof.
  split; [|intros ->; reflexivity].
  destruct v; cbn; try (destruct (infer column _); discriminate). exact id.
Qed.

Lemma cell_same_text (infer1 infer2 : Pandas.Inference) (col1 col2 : list json)
    (v : json) (sp : Langchain.MarkdownHeaderTextSplitter) :
  Common.split_content sp (Pandas.cell infer1 col1 v)
  = Common.split_content sp (Pandas.cell infer2 col2 v).
Proof.
  destruct v as [| | | |s| |]; try reflexivity;
    rewrite !split_content_not_text; try reflexivity;
    intros s H; apply cell_text in H; discriminate H.
Qed.

Lemma DataFrame_middle (infer : Pandas.Inference) (page : Common.ParsedItem)
    (before after : list Common.ParsedItem) :
  Pandas.DataFrame infer (before ++ page :: after)
  = map (Pandas.row infer (before ++ page :: after)) before
    ++ Pandas.row infer (before ++ page :: after) page
    :: map (Pandas.row infer (before ++ page :: after)) after.
Proof. unfold Pandas.DataFrame. now rewrite map_app. Qed.

Lemma DataFrame_length (infer : Pandas.Inference) (parsed : list Common.ParsedItem) :
  length (Pandas.DataFrame infer parsed) = length parsed.
Proof. apply length_map. Qed.

(** The splits of a row are those of its content. *)
Lemma chunks_of_row_same_content (sp : Langchain.MarkdownHeaderTextSplitter)
    (row1 row2 : Common.ParsedItem) (c1 : list Common.Chunk) :
  Common.split_content sp (Common.content row2)
  = Common.split_content sp (Common.content row1) ->
  Common.chunks_of_row sp row1 = Ok c1 ->
  exists splits,
    c1 = map (Common.tag_split row1) splits
    /\ Common.chunks_of_row sp row2 = Ok (map (Common.tag_split row2) splits).
Proof.
  intros Hsame H1. rewrite chunks_of_row_splits in *. rewrite Hsame.
  apply bind_ok_inv in H1 as (splits & -> & H1). injection H1 as <-.
  exists splits. split; reflexivity.
Qed.

Lemma heading_path_tag_split (row : Common.ParsedItem) (split : Langchain.Document) :
  Reading.heading_path (Common.tag_split row split)
  = Reading.heading_path
      (Common.mkChunk (Langchain.page_content split) (JStr <$> Langchain.metadata split)).
Proof.
  unfold Reading.heading_path, Common.tag_split.
  cbn [flat_map Reading.header_key Common.chunk_metadata].
  by rewrite !lookup_insert_ne.
Qed.

(** ** No content dedup in the ingestion scripts *)

(** C2 (amended): the ingestion scripts do no content dedup.  [parsed_data]
    gets one entry per record of a file, in the order of the records, and
    the frame one row per entry.  From two records with the same markdown
    and different urls, the second record is not dropped: its row has the
    same content as the first and gives the same splits, so it contributes
    as many chunks as the first, with the same texts and headers, each
    tagged with the second record's own url and with its title as the
    frame holds it, which is the title itself when that is text. *)
Theorem duplicate_markdown_kept
    (infer : Pandas.Inference) (file : Common.FileEntry) (r1 r2 : Common.record)
    (cs : list Common.Chunk) :
  Common.dict_get "markdown" (JStr "") r1 = Common.dict_get "markdown" (JStr "") r2 ->
  Ingest.chunks_of
    (Pandas.DataFrame infer (Ingest.parsed_data_of [file] (fun _ => [r1; r2])))
  = Ok cs ->
  (forall items,
      Ingest.parsed_data_of [file] (fun _ => items) = map (Ingest.parse_item file) items)
  /\ exists row1 row2 splits c1 c2,
      Pandas.DataFrame infer (Ingest.parsed_data_of [file] (fun _ => [r1; r2]))
      = [row1; row2]
      /\ Common.content row2 = Common.content row1
      /\ Common.url (Common.metadata row1) = Common.dict_get "url" (JStr "N/A") r1
      /\ Common.url (Common.metadata row2) = Common.dict_get "url" (JStr "N/A") r2
      /\ (forall s, Common.dict_get "title" (JStr "") r2 = JStr s ->
                    Common.title row2 = JStr s)
      /\ Common.chunks_of_row Ingest.markdown_splitter row1 = Ok c1
      /\ Common.chunks_of_row Ingest.markdown_splitter row2 = Ok c2
      /\ cs = c1 ++ c2
      /\ c1 = map (Common.tag_split row1) splits
      /\ c2 = map (Common.tag_split row2) splits
      /\ length c2 = length c1
      /\ map Common.page_content c2 = map Common.page_content c1
      /\ map Reading.heading_path c2 = map Reading.heading_path c1
      /\ Forall (fun c =>
                   Common.chunk_metadata c !! "url"
                   = Some (Common.dict_get "url" (JStr "N/A") r2)
                   /\ Common.chunk_metadata c !! "page_title"
                      = Some (Common.title row2)) c2.
Proof.
  intros Hmd Hrun. split.
  { intros items. unfold Ingest.parsed_data_of. cbn [flat_map]. apply app_nil_r. }
  unfold Ingest.chunks_of, Ingest.parsed_data_of in Hrun. cbn [flat_map map app] in Hrun.
  set (parsed := [Ingest.parse_item file r1; Ingest.parse_item file r2]) in *.
  set (row1 := Pandas.row infer parsed (Ingest.parse_item file r1)).
  set (row2 := Pandas.row infer parsed (Ingest.parse_item file r2)).
  change (Pandas.DataFrame infer parsed) with ([row1] ++ row2 :: []) in Hrun.
  apply chunk_loop_middle in Hrun as (a & c2 & c & Ha & Hc2 & Hc & ->).
  rewrite (chunk_loop_cons _ _ []) in Ha.
  apply bind_ok_inv in Ha as (c1 & Hc1 & Ha). cbn in Ha, Hc.
  injection Ha as <-. injection Hc as <-. rewrite !app_nil_r.
  assert (Hcontent : Common.content row2 = Common.content row1).
  { unfold row1, row2, Pandas.row. cbn [Common.content Ingest.parse_item].
    now rewrite Hmd. }
  destruct (chunks_of_row_same_content Ingest.markdown_splitter row1 row2 c1)
    as (splits & Hsplits1 & Hsplits2); [now rewrite Hcontent | exact Hc1 |].
  assert (c2 = map (Common.tag_split row2) splits) as Hsplits2' by congruence.
  exists row1, row2, splits, c1, c2.
  split; [reflexivity|]. split; [exact Hcontent|].
  split; [reflexivity|]. split; [reflexivity|]. split.
  { intros s Hs. unfold row2, Pandas.row. cbn [Common.title Ingest.parse_item].
    now rewrite Hs. }
  split; [exact Hc1|]. split; [exact Hc2|]. split; [reflexivity|].
  split; [exact Hsplits1|]. split; [exact Hsplits2'|].
  subst c1 c2. split; [now rewrite !length_map|].
  split; [now rewrite !tag_split_text|]. split.
  { rewrite !map_map. apply map_ext. intros split.
    now rewrite !heading_path_tag_split. }
  apply List.Forall_forall. intros c Hin.
  apply in_map_iff in Hin as (split & <- & _).
  split; [apply tag_split_url | apply tag_split_page_title].
Qed.

Lemma duplicate_markdown_kept_witness :
  let parsed :=
    Ingest.parsed_data_of [Examples.docs_file] (fun _ => Examples.duplicate_items) in
  exists row1 row2 splits c1 c2,
    Pandas.DataFrame Examples.infer parsed = [row1; row2]
    /\ Common.content row2 = Common.content row1
    /\ Common.url (Common.metadata row1) = JStr "https://a"
    /\ Common.url (Common.metadata row2) = JStr "https://b"
    /\ (forall s, JStr "Second" = JStr s -> Common.title row2 = JStr s)
    /\ Common.chunks_of_row Ingest.markdown_splitter row1 = Ok c1
    /\ Common.chunks_of_row Ingest.markdown_splitter row2 = Ok c2
    /\ Examples.get_ok (Ingest.chunks_of (Pandas.DataFrame Examples.infer parsed))
       = c1 ++ c2
    /\ c1 = map (Common.tag_split row1) splits
    /\ c2 = map (Common.tag_split row2) splits
    /\ length c2 = length c1
    /\ map Common.page_content c2 = map Common.page_content c1
    /\ map Reading.heading_path c2 = map Reading.heading_path c1
    /\ Forall (fun c =>
                 Common.chunk_metadata c !! "url" = Some (JStr "https://b")
                 /\ Common.chunk_metadata c !! "page_title"
                    = Some (Common.title row2)) c2.
Proof.
  apply (proj2 (duplicate_markdown_kept Examples.infer Examples.docs_file
                  (Examples.item "First" "https://a" "same text")
                  (Examples.item "Second" "https://b" "same text")
                  (Examples.get_ok
                     (Ingest.chunks_of
                        (Pandas.DataFrame Examples.infer
                           (Ingest.parsed_data_of [Examples.docs_file]
                              (fun _ => Examples.duplicate_items)))))
                  eq_refl ltac:(vm_compute; reflexivity))).
Defined.

(** C2 as stated fails: from two records with the same markdown and
    different urls the normalizer builds two pages, and the chunk list has
    a chunk of each, the second with the second url. *)
Lemma duplicate_markdown_not_collapsed :
  let df :=
    Pandas.DataFrame Examples.infer
      (Ingest.parsed_data (Examples.load_docs Examples.duplicate_items)) in
  map Common.content df = [JStr "same text"; JStr "same text"]
  /\ map (fun p => Common.url (Common.metadata p)) df
     = [JStr "https://a"; JStr "https://b"]
  /\ exists c1 c2,
      Ingest.chunks Examples.infer (Examples.load_docs Examples.duplicate_items)
      = Ok [c1; c2]
      /\ Common.page_content c1 = "same text"
      /\ Common.page_content c2 = "same text"
      /\ Common.chunk_metadata c1 !! "url" = Some (JStr "https://a")
      /\ Common.chunk_metadata c2 !! "url" = Some (JStr "https://b").
Proof.
  split; [vm_compute; reflexivity|]. split; [vm_compute; reflexivity|].
  eexists _, _. split; [vm_compute; reflexivity|].
  repeat split; vm_compute; reflexivity.
Qed.

(** ** Records without usable markdown *)

Lemma dict_get_absent (key : string) (default : json) (item : Common.record) :
  (forall v, ~ In (key, v) item) -> Common.dict_get key default item = default.
Proof.
  induction item as [|[k v] item IH]; intros Habsent; simpl.
  - reflexivity.
  - destruct (String.eqb_spec k key) as [->|Hne].
    + exfalso. apply (Habsent v). now left.
    + apply IH. intros v' Hin. apply (Habsent v'). now right.
Qed.

(** C3 (amended): [ingest.py] raises no error of its own for a record
    without usable markdown and counts nothing.  A record whose [markdown]
    key is absent gets the empty string: it becomes an entry of
    [parsed_data] with empty content and adds no chunk, and the run goes
    on with the other pages.  A record whose [markdown] is present but not
    text is passed on as it is, and the chunk loop raises
    [AttributeError] when it reaches that page. *)
Theorem missing_markdown_not_rejected
    (file : Common.FileEntry) (item : Common.record) :
  ((forall v, ~ In ("markdown", v) item) ->
   Common.content (Ingest.parse_item file item) = JStr ""
   /\ Ingest.parsed_data_of [file] (fun _ => [item]) = [Ingest.parse_item file item]
   /\ forall before after a c,
       Ingest.chunks_of before = Ok a ->
       Ingest.chunks_of after = Ok c ->
       Ingest.chunks_of (before ++ Ingest.parse_item file item :: after) = Ok (a ++ c))
  /\ ((forall s, Common.dict_get "markdown" (JStr "") item <> JStr s) ->
      forall before after a,
        Ingest.chunks_of before = Ok a ->
        Ingest.chunks_of (before ++ Ingest.parse_item file item :: after)
        = Raise AttributeError).
Proof.
  split.
  - intros Habsent.
    assert (Hc : Common.content (Ingest.parse_item file item) = JStr "")
      by (apply dict_get_absent; assumption).
    split; [assumption|]. split; [reflexivity|].
    intros before after a c Ha Hc'. unfold Ingest.chunks_of in *.
    rewrite chunk_loop_app, Ha. cbn [mbind result_bind].
    rewrite chunk_loop_acc, chunk_loop_cons.
    unfold Common.chunks_of_row. rewrite Hc, Hc'. reflexivity.
  - intros Hnot before after a Ha. unfold Ingest.chunks_of in *.
    rewrite chunk_loop_app, Ha. cbn [mbind result_bind].
    rewrite chunk_loop_acc, chunk_loop_cons.
    unfold Common.chunks_of_row.
    rewrite (split_content_not_text _ (Common.content (Ingest.parse_item file item)));
      [reflexivity | exact Hnot].
Qed.

Lemma missing_markdown_not_rejected_witness :
  (Common.content (Ingest.parse_item Examples.docs_file Examples.no_markdown_item)
   = JStr ""
   /\ Ingest.chunks_of
        ([] ++ Ingest.parse_item Examples.docs_file Examples.no_markdown_item
            :: [Examples.page "T" "https://b" "# Z"])
      = Ok ([] ++ Examples.get_ok
                    (Ingest.chunks_of [Examples.page "T" "https://b" "# Z"])))
  /\ Ingest.chunks_of
       ([] ++ Ingest.parse_item Examples.docs_file Examples.null_markdown_item :: [])
     = Raise AttributeError.
Proof.
  destruct (missing_markdown_not_rejected Examples.docs_file Examples.no_markdown_item)
    as [Habsent _].
  destruct (missing_markdown_not_rejected Examples.docs_file Examples.null_markdown_item)
    as [_ Hnull].
  split.
  - destruct Habsent as (Hc & _ & Hrun).
    + intros v [H|[H|[]]]; discriminate H.
    + split; [exact Hc|].
      apply Hrun; vm_compute; reflexivity.
  - apply (Hnull ltac:(intros s H; vm_compute in H; discriminate H) [] [] []).
    reflexivity.
Defined.

(** C3 as stated fails: a record without [markdown] is not skipped, it
    becomes a page with empty content and nothing is raised for it; a
    record whose [markdown] is [null] makes the whole chunk loop fail. *)
Lemma malformed_record_not_skipped :
  Ingest.parsed_data (Examples.load_docs [Examples.no_markdown_item])
  = [{| Common.title := JStr "T";
        Common.content := JStr "";
        Common.metadata := {| Common.url := JStr "https://a";
                              Common.source := "Molecule Documentation" |} |}]
  /\ Ingest.chunks Examples.infer (Examples.load_docs [Examples.no_markdown_item])
     = Ok []
  /\ Ingest.chunks Examples.infer
       (Examples.load_docs
          [Examples.item "First" "https://b" "# Z"; Examples.null_markdown_item])
     = Raise AttributeError.
Proof. repeat split; vm_compute; reflexivity. Qed.

(** ** From chunks to rows *)

Lemma processed_chunks_acc (cs : list Common.Chunk) (acc : list Common.Chunks) :
  for_each
    (fun rows chunk => r ← Common.processed_chunk chunk; Ok (rows ++ [r]))
    cs acc
  = (rows ← Common.processed_chunks cs; Ok (acc ++ rows)).
Proof.
  unfold Common.processed_chunks.
  revert acc. induction cs as [|c cs IH]; intros acc; cbn [for_each].
  - simpl. now rewrite app_nil_r.
  - destruct (Common.processed_chunk c) as [r|e]; simpl; [|reflexivity].
    rewrite (IH (acc ++ [r])), (IH [r]).
    destruct (for_each _ cs []) as [rows|e]; simpl; [|reflexivity].
    now rewrite <- app_assoc.
Qed.

Lemma processed_chunks_cons (c : Common.Chunk) (cs : list Common.Chunk) :
  Common.processed_chunks (c :: cs)
  = (r ← Common.processed_chunk c;
     rows ← Common.processed_chunks cs;
     Ok (r :: rows)).
Proof.
  unfold Common.processed_chunks at 1. cbn [for_each].
  destruct (Common.processed_chunk c) as [r|e]; simpl; [|reflexivity].
  apply (processed_chunks_acc cs [r]).
Qed.

(** The row of a chunk that the loop has tagged. *)
Lemma processed_chunk_tagged (row : Common.ParsedItem) (split : Langchain.Document) :
  exists r,
    Common.processed_chunk (Common.tag_split row split) = Ok r
    /\ Common.text r = Langchain.page_content split
    /\ Common.page_title (Common.row_metadata r) = Common.title row
    /\ Common.row_url (Common.row_metadata r) = Common.url (Common.metadata row)
    /\ Common.row_source (Common.row_metadata r)
       = JStr (Common.source (Common.metadata row)).
Proof.
  unfold Common.processed_chunk, Common.getitem.
  rewrite tag_split_page_title, tag_split_source, tag_split_url. cbn.
  eexists. split; [reflexivity|]. cbn. repeat split.
Qed.

Lemma chunk_loop_tagged (sp : Langchain.MarkdownHeaderTextSplitter)
    (df : list Common.ParsedItem) (cs : list Common.Chunk) :
  Common.chunk_loop sp df [] = Ok cs ->
  List.Forall (fun c => exists row split, In row df /\ c = Common.tag_split row split) cs.
Proof.
  revert cs. induction df as [|row df IH]; intros cs H.
  - injection H as <-. constructor.
  - rewrite chunk_loop_cons in H.
    apply bind_ok_inv in H as (b & Hb & H).
    apply bind_ok_inv in H as (rest & Hrest & H). injection H as <-.
    apply List.Forall_app. split.
    + rewrite chunks_of_row_splits in Hb.
      apply bind_ok_inv in Hb as (splits & _ & Hb). injection Hb as <-.
      apply List.Forall_forall. intros c Hin.
      apply in_map_iff in Hin as (split & <- & _).
      exists row, split. split; [now left | reflexivity].
    + eapply List.Forall_impl; [|apply (IH rest Hrest)].
      intros c (row' & split & Hin & ->). exists row', split.
      split; [now right | reflexivity].
Qed.

Lemma processed_chunks_total (cs : list Common.Chunk) :
  List.Forall (fun c => exists r, Common.processed_chunk c = Ok r) cs ->
  exists rows,
    Common.processed_chunks cs = Ok rows
    /\ List.Forall2 (fun c r => Common.processed_chunk c = Ok r) cs rows.
Proof.
  induction 1 as [|c cs (r & Hr) _ (rows & Hrows & Hall)].
  - exists []. split; [reflexivity | constructor].
  - exists (r :: rows). rewrite processed_chunks_cons, Hr, Hrows.
    split; [reflexivity | now constructor].
Qed.

(** Every run of the chunk loop can be turned into rows, one per chunk
    and in the same order. *)
Lemma rows_of_chunks (df : list Common.ParsedItem) (cs : list Common.Chunk) :
  Ingest.chunks_of df = Ok cs ->
  exists rows,
    Common.processed_chunks cs = Ok rows
    /\ List.Forall2 (fun c r => Common.processed_chunk c = Ok r) cs rows.
Proof.
  intros H. apply processed_chunks_total.
  eapply List.Forall_impl; [|apply (chunk_loop_tagged _ _ _ H)].
  intros c (row & split & _ & ->).
  destruct (processed_chunk_tagged row split) as (r & Hr & _). eauto.
Qed.

Lemma Forall2_lookup_same {A B : Type} (R : A -> B -> Prop)
    (xs : list A) (ys : list B) (i : nat) (x : A) :
  List.Forall2 R xs ys -> xs !! i = Some x -> exists y, ys !! i = Some y /\ R x y.
Proof.
  intros H. revert i. induction H as [|x' y' xs ys Hxy _ IH]; intros i Hi.
  - destruct i; discriminate Hi.
  - destruct i as [|i]; cbn in *.
    + injection Hi as ->. eauto.
    + apply IH. assumption.
Qed.

(** ** The position of a chunk is not stored *)

(** C4 (amended): the rows handed to [table.add] are in chunk order, one
    row per chunk, with the chunk's text; the row is computed from the
    chunk's text and metadata alone and has no position field, so two
    equal chunks at different positions give equal rows. *)
Theorem rows_keep_order_without_position
    (df : list Common.ParsedItem) (cs : list Common.Chunk) :
  Ingest.chunks_of df = Ok cs ->
  exists rows,
    Ingest.rows_of df = Ok rows
    /\ length rows = length cs
    /\ (forall i c,
          cs !! i = Some c ->
          exists r,
            rows !! i = Some r
            /\ Common.processed_chunk c = Ok r
            /\ Common.text r = Common.page_content c)
    /\ (forall i j c,
          cs !! i = Some c -> cs !! j = Some c -> rows !! i = rows !! j).
Proof.
  intros Hcs. destruct (rows_of_chunks df cs Hcs) as (rows & Hrows & Hall).
  exists rows. unfold Ingest.rows_of. rewrite Hcs. cbn [mbind result_bind].
  split; [assumption|]. split.
  { symmetry. eapply List.Forall2_length. eassumption. }
  assert (Hpoint : forall i c, cs !! i = Some c ->
            exists r, rows !! i = Some r /\ Common.processed_chunk c = Ok r).
  { intros i c Hi. eapply Forall2_lookup_same in Hall as (r & Hr & Hcr); eauto. }
  split.
  - intros i c Hi. destruct (Hpoint i c Hi) as (r & Hr & Hcr).
    exists r. repeat split; try assumption.
    unfold Common.processed_chunk in Hcr.
    destruct (Common.getitem "page_title" _); [|discriminate].
    destruct (Common.getitem "source" _); [|discriminate].
    destruct (Common.getitem "url" _); [|discriminate].
    cbn in Hcr. injection Hcr as <-. reflexivity.
  - intros i j c Hi Hj.
    destruct (Hpoint i c Hi) as (ri & Hri & Hci).
    destruct (Hpoint j c Hj) as (rj & Hrj & Hcj).
    congruence.
Qed.

Lemma rows_keep_order_without_position_witness :
  let df := [Examples.page "T" "https://a" Examples.repeated_section_page] in
  exists rows,
    Ingest.rows_of df = Ok rows
    /\ length rows = length (Examples.get_ok (Ingest.chunks_of df))
    /\ (forall i c,
          Examples.get_ok (Ingest.chunks_of df) !! i = Some c ->
          exists r,
            rows !! i = Some r
            /\ Common.processed_chunk c = Ok r
            /\ Common.text r = Common.page_content c)
    /\ (forall i j c,
          Examples.get_ok (Ingest.chunks_of df) !! i = Some c ->
          Examples.get_ok (Ingest.chunks_of df) !! j = Some c ->
          rows !! i = rows !! j).
Proof.
  intros df. apply (rows_keep_order_without_position df).
  vm_compute. reflexivity.
Defined.

(** C4 as stated fails: the first and the third chunk of this page are
    stored as the same row, so no reading of a stored row gives back the
    position of its chunk. *)
Lemma position_not_recoverable :
  exists rows,
    Ingest.rows_of [Examples.page "T" "https://a" Examples.repeated_section_page]
    = Ok rows
    /\ length rows = 3
    /\ rows !! 0 = rows !! 2
    /\ ~ exists position : Common.Chunks -> nat,
          forall i r, rows !! i = Some r -> position r = i.
Proof.
  destruct (Ingest.rows_of [Examples.page "T" "https://a" Examples.repeated_section_page])
    as [rows|e] eqn:Hrows; vm_compute in Hrows; [|discriminate Hrows].
  injection Hrows as <-.
  eexists. split; [reflexivity|]. split; [reflexivity|]. split; [reflexivity|].
  intros (position & Hpos).
  pose proof (Hpos 0 _ eq_refl) as H0.
  pose proof (Hpos 2 _ eq_refl) as H2.
  cbn in H0, H2. congruence.
Qed.

(** ** Headers below level 4 are not stored *)

Lemma processed_chunk_without_deep_headers (c : Common.Chunk) :
  Common.processed_chunk (Reading.without_deep_headers c) = Common.processed_chunk c.
Proof.
  unfold Common.processed_chunk, Common.getitem, Common.get_or_none,
    Reading.without_deep_headers.
  cbn [Common.chunk_metadata Common.page_content].
  by rewrite !lookup_delete_ne.
Qed.

(** C10: [ingest.py] splits on levels 1 to 6 and keeps [header_5] and
    [header_6] in the metadata of the chunks in memory, but the row of a
    chunk is the row of the same chunk without these two headers: the
    stored metadata has [header_1] to [header_4] only.  The page
    ["# A", "##### E", "deep"] gives one chunk with [header_5 = "E"] in
    memory and a row with [header_1 = "A"] and no other header. *)
Theorem deep_headers_not_stored :
  (exists c r,
      Ingest.chunks_of [Examples.page "T" "https://a" Examples.deep_heading_page]
      = Ok [c]
      /\ Reading.heading_path c = [(1, JStr "A"); (5, JStr "E")]
      /\ Ingest.rows_of [Examples.page "T" "https://a" Examples.deep_heading_page]
         = Ok [r]
      /\ Common.row_metadata r
         = {| Common.header_1 := JStr "A";
              Common.header_2 := JNull;
              Common.header_3 := JNull;
              Common.header_4 := JNull;
              Common.page_title := JStr "T";
              Common.row_source := JStr "Molecule Documentation";
              Common.row_url := JStr "https://a" |})
  /\ (forall df cs,
        Ingest.chunks_of df = Ok cs ->
        exists rows,
          Ingest.rows_of df = Ok rows
          /\ forall i c,
              cs !! i = Some c ->
              exists r,
                rows !! i = Some r
                /\ Common.processed_chunk (Reading.without_deep_headers c) = Ok r).
Proof.
  split.
  - eexists _, _. split; [vm_compute; reflexivity|].
    split; [vm_compute; reflexivity|].
    split; vm_compute; reflexivity.
  - intros df cs Hcs.
    destruct (rows_of_chunks df cs Hcs) as (rows & Hrows & Hall).
    exists rows. unfold Ingest.rows_of. rewrite Hcs. cbn [mbind result_bind].
    split; [assumption|].
    intros i c Hi.
    eapply Forall2_lookup_same in Hall as (r & Hr & Hcr); [|eassumption].
    exists r. split; [assumption|].
    now rewrite processed_chunk_without_deep_headers.
Qed.

Lemma deep_headers_not_stored_witness :
  let df := [Examples.page "T" "https://a" Examples.deep_heading_page] in
  exists rows,
    Ingest.rows_of df = Ok rows
    /\ forall i c,
        Examples.get_ok (Ingest.chunks_of df) !! i = Some c ->
        exists r,
          rows !! i = Some r
          /\ Common.processed_chunk (Reading.without_deep_headers c) = Ok r.
Proof.
  intros df. apply (proj2 deep_headers_not_stored df).
  vm_compute. reflexivity.
Defined.

(** ** The heading stack of the markdown splitter *)

Lemma header_key_inj (a b : nat) :
  1 <= a <= 6 -> 1 <= b <= 6 ->
  Reading.header_key a = Reading.header_key b -> a = b.
Proof.
  intros Ha Hb.
  assert (Ha' : a = 1 \/ a = 2 \/ a = 3 \/ a = 4 \/ a = 5 \/ a = 6) by lia.
  assert (Hb' : b = 1 \/ b = 2 \/ b = 3 \/ b = 4 \/ b = 5 \/ b = 6) by lia.
  destruct Ha' as [->|[->|[->|[->|[->| ->]]]]];
    destruct Hb' as [->|[->|[->|[->|[->| ->]]]]];
    cbn; intros H; first [reflexivity | discriminate H].
Qed.

Lemma ingest_headers_sorted :
  Langchain.headers_to_split_on Ingest.markdown_splitter
  = [("######", "header_6"); ("#####", "header_5"); ("####", "header_4");
     ("###", "header_3"); ("##", "header_2"); ("#", "header_1")].
Proof. reflexivity. Qed.

Lemma match_header_ingest (s sep nm : string) :
  Langchain.match_header s (Langchain.headers_to_split_on Ingest.markdown_splitter)
  = Some (sep, nm) ->
  1 <= PyStr.count sep "#" <= 6 /\ nm = Reading.header_key (PyStr.count sep "#").
Proof.
  rewrite ingest_headers_sorted. cbn [Langchain.match_header].
  repeat (destruct (Langchain.is_header_line s _);
          [intros H; injection H as <- <-; cbn; split; [lia | reflexivity]|]).
  discriminate.
Qed.

Lemma pop_headers_spec (n : nat) (stack : list Langchain.HeaderType)
    (meta : gmap string string) :
  Reading.stack_ok stack -> Reading.meta_ok stack meta ->
  let '(stack', meta') := Langchain.pop_headers n stack meta in
  Reading.stack_ok stack'
  /\ Reading.meta_ok stack' meta'
  /\ List.Forall (fun h => Langchain.level h < n) stack'
  /\ (forall m, 1 <= m < n -> meta' !! Reading.header_key m = meta !! Reading.header_key m).
Proof.
  revert meta. induction stack as [|h rest IH]; intros meta Hstack Hmeta;
    cbn [Langchain.pop_headers].
  - repeat split; auto.
  - destruct Hstack as (Hname & Hlevel & Hbelow & Hrest).
    destruct (Nat.leb_spec n (Langchain.level h)) as [Hge|Hlt].
    + assert (Hmeta' : Reading.meta_ok rest (delete (Langchain.name h) meta)).
      { intros k Hk. apply lookup_delete_is_Some in Hk as [Hne Hk].
        destruct (Hmeta k Hk) as (h' & [->|Hin] & Hh'); [congruence | eauto]. }
      specialize (IH _ Hrest Hmeta').
      destruct (Langchain.pop_headers n rest (delete (Langchain.name h) meta))
        as [stack' meta'].
      destruct IH as (H1 & H2 & H3 & H4). repeat split; try assumption.
      intros m Hm. rewrite (H4 m Hm). apply lookup_delete_ne.
      rewrite Hname. intros Heq. apply header_key_inj in Heq; lia.
    + split; [cbn; tauto|]. split; [assumption|]. split; [|reflexivity].
      constructor; [assumption|].
      eapply List.Forall_impl; [|exact Hbelow]. cbn. intros h' Hh'. lia.
Qed.

Lemma step_line_ok (st : Langchain.SplitState) (line : string) :
  Reading.state_ok st ->
  Reading.state_ok (Langchain.step_line Ingest.markdown_splitter st line).
Proof.
  intros [Hstack Hmeta]. unfold Langchain.step_line.
  set (s := PyStr.filter PyStr.isprintable (PyStr.strip line)).
  match goal with |- context [let '(a, b) := ?e in _] => destruct e as [in_code fence] end.
  destruct in_code; [split; assumption|].
  destruct (Langchain.match_header s _) as [[sep nm]|] eqn:Hmatch.
  - apply match_header_ingest in Hmatch as [Hlevel ->].
    pose proof (pop_headers_spec (PyStr.count sep "#") _ _ Hstack Hmeta) as Hpop.
    destruct (Langchain.pop_headers _ _ _) as [stack' meta'].
    destruct Hpop as (H1 & H2 & H3 & _).
    split; cbn [Langchain.header_stack Langchain.initial_metadata
                Langchain.name Langchain.level Langchain.data Reading.stack_ok].
    + repeat split; try assumption; lia.
    + intros k Hk. apply lookup_insert_is_Some in Hk as [<-|[_ Hk]].
      * eexists. split; [left; reflexivity | reflexivity].
      * destruct (H2 k Hk) as (h & Hin & Hh). exists h. split; [now right | assumption].
  - destruct (negb (String.eqb s "")); split; assumption.
Qed.

Lemma fold_step_line_ok (lines : list string) (st : Langchain.SplitState) :
  Reading.state_ok st ->
  Reading.state_ok (fold_left (Langchain.step_line Ingest.markdown_splitter) lines st).
Proof.
  revert st. induction lines as [|l lines IH]; intros st Hst; cbn.
  - assumption.
  - apply IH, step_line_ok, Hst.
Qed.

Lemma init_state_ok : Reading.state_ok Langchain.init_state.
Proof.
  split; cbn; [exact I|].
  intros k Hk. rewrite lookup_empty in Hk. destruct Hk as [? Hk]. discriminate Hk.
Qed.

Lemma stack_ok_in (stack : list Langchain.HeaderType) (h : Langchain.HeaderType) :
  Reading.stack_ok stack -> In h stack ->
  Langchain.name h = Reading.header_key (Langchain.level h)
  /\ 1 <= Langchain.level h <= 6.
Proof.
  induction stack as [|h' rest IH]; intros Hok Hin; [destruct Hin|].
  destruct Hok as (Hname & Hlevel & _ & Hrest).
  destruct Hin as [->|Hin]; [split; assumption | apply IH; assumption].
Qed.

(** C6: the markdown splitter of [ingest.py] keeps a heading stack.  After
    any lines, a heading line of level [n] sets the header of level [n] to
    its text, removes the headers of all deeper levels and leaves the
    shallower ones as they were, and the lines that follow carry this
    metadata.  For the page
    ["# A\n\nfoo\n\n## B\n\nbar\n\n# C\n\nbaz"] the chunk with "bar" has
    heading path [(1,"A"); (2,"B")] and the chunk with "baz" has
    [(1,"C")], with no entry of level 2. *)
Theorem heading_stack_semantics :
  (forall (lines : list string) (line sep nm : string),
      let sp := Ingest.markdown_splitter in
      let st := fold_left (Langchain.step_line sp) lines Langchain.init_state in
      Reading.outside_code st line ->
      Langchain.match_header (Reading.stripped line) (Langchain.headers_to_split_on sp)
      = Some (sep, nm) ->
      let n := PyStr.count sep "#" in
      let st' := Langchain.step_line sp st line in
      Langchain.initial_metadata st' !! Reading.header_key n
      = Some (PyStr.strip (PyStr.drop (String.length sep) (Reading.stripped line)))
      /\ (forall m, n < m <= 6 ->
                    Langchain.initial_metadata st' !! Reading.header_key m = None)
      /\ (forall m, 1 <= m < n ->
                    Langchain.initial_metadata st' !! Reading.header_key m
                    = Langchain.initial_metadata st !! Reading.header_key m)
      /\ Langchain.current_metadata st' = Langchain.initial_metadata st')
  /\ (exists c1 c2 c3,
        Ingest.chunks_of [Examples.page "T" "https://a" Examples.heading_page]
        = Ok [c1; c2; c3]
        /\ map (fun c => PyStr.contains (Common.page_content c) "bar") [c1; c2; c3]
           = [false; true; false]
        /\ map (fun c => PyStr.contains (Common.page_content c) "baz") [c1; c2; c3]
           = [false; false; true]
        /\ Reading.heading_path c2 = [(1, JStr "A"); (2, JStr "B")]
        /\ Reading.heading_path c3 = [(1, JStr "C")]).
Proof.
  split.
  - intros lines line sep nm sp st (Hcode & Hticks & Htildes) Hmatch n st'.
    assert (Hst : Reading.state_ok st)
      by (apply fold_step_line_ok, init_state_ok).
    destruct Hst as [Hstack Hmeta].
    pose proof (match_header_ingest _ _ _ Hmatch) as [Hlevel Hnm].
    pose proof (pop_headers_spec n _ _ Hstack Hmeta) as Hpop.
    subst st'. unfold Langchain.step_line.
    fold (Reading.stripped line).
    rewrite Hcode, Hticks, Htildes. cbn [negb andb].
    rewrite Hmatch. fold n.
    destruct (Langchain.pop_headers n (Langchain.header_stack st)
                (Langchain.initial_metadata st)) as [stack' meta'].
    destruct Hpop as (Hstack' & Hmeta' & Hless & Hsame).
    cbn [Langchain.initial_metadata Langchain.current_metadata Langchain.data].
    subst nm. fold n in Hlevel.
    split; [apply lookup_insert_eq|]. split; [|split; [|reflexivity]].
    + intros m Hm. rewrite lookup_insert_ne.
      2:{ intros Heq. apply header_key_inj in Heq; lia. }
      destruct (meta' !! Reading.header_key m) as [v|] eqn:Hv; [|reflexivity].
      destruct (Hmeta' (Reading.header_key m)) as (h & Hin & Hh); [eauto|].
      destruct (stack_ok_in _ _ Hstack' Hin) as [Hname Hrange].
      rewrite Hname in Hh. apply header_key_inj in Hh; [|lia|lia].
      eapply List.Forall_forall in Hless; [|exact Hin]. lia.
    + intros m Hm. rewrite lookup_insert_ne.
      2:{ intros Heq. apply header_key_inj in Heq; lia. }
      apply Hsame. assumption.
  - eexists _, _, _. split; [vm_compute; reflexivity|].
    repeat split; vm_compute; reflexivity.
Qed.

Lemma heading_stack_semantics_witness :
  let sp := Ingest.markdown_splitter in
  let st := fold_left (Langchain.step_line sp) ["# A"; ""; "## B"; "bar"]
              Langchain.init_state in
  let st' := Langchain.step_line sp st "# C" in
  Langchain.initial_metadata st !! "header_2" = Some "B"
  /\ Langchain.initial_metadata st' !! Reading.header_key 1 = Some "C"
  /\ Langchain.initial_metadata st' !! Reading.header_key 2 = None.
Proof.
  intros sp st st'.
  destruct (proj1 heading_stack_semantics ["# A"; ""; "## B"; "bar"] "# C" "#" "header_1")
    as (Hset & Hdeeper & _).
  - repeat split; vm_compute; reflexivity.
  - vm_compute. reflexivity.
  - split; [vm_compute; reflexivity|]. split; [exact Hset|].
    apply Hdeeper. cbn. lia.
Defined.


(** ** Chunk sizes of the recursive splitter *)

Lemma len_nonneg (s : string) : (0 <= Langchain.len s)%Z.
Proof. unfold Langchain.len. lia. Qed.

Lemma len_append (a b : string) :
  Langchain.len (a ++ b)%string = (Langchain.len a + Langchain.len b)%Z.
Proof.
  unfold Langchain.len. induction a as [|c a IH].
  - change ("" +:+ b)%string with b. cbn [String.length]. lia.
  - change (String c a +:+ b)%string with (String c (a +:+ b)).
    cbn [String.length]. lia.
Qed.

Lemma lstrip_len (s : string) : (Langchain.len (PyStr.lstrip s) <= Langchain.len s)%Z.
Proof.
  unfold Langchain.len. induction s as [|c s IH]; cbn [PyStr.lstrip].
  - lia.
  - destruct (PyStr.isspace c); cbn [String.length] in *; lia.
Qed.

Lemma rstrip_len (s : string) : (Langchain.len (PyStr.rstrip s) <= Langchain.len s)%Z.
Proof.
  unfold Langchain.len. induction s as [|c s IH]; cbn [PyStr.rstrip].
  - lia.
  - destruct (PyStr.rstrip s) as [|c' r]; [destruct (PyStr.isspace c)|];
      cbn [String.length] in *; lia.
Qed.

Lemma strip_len (s : string) : (Langchain.len (PyStr.strip s) <= Langchain.len s)%Z.
Proof.
  unfold PyStr.strip. pose proof (rstrip_len (PyStr.lstrip s)).
  pose proof (lstrip_len s). lia.
Qed.

Lemma total_len_nonneg (parts : list string) : (0 <= Reading.total_len parts)%Z.
Proof.
  induction parts as [|p parts IH]; cbn [Reading.total_len];
    [lia | pose proof (len_nonneg p); lia].
Qed.

Lemma total_len_app (xs ys : list string) :
  Reading.total_len (xs ++ ys) = (Reading.total_len xs + Reading.total_len ys)%Z.
Proof. induction xs as [|x xs IH]; cbn [Reading.total_len app]; lia. Qed.

Lemma join_empty_len (parts : list string) :
  Langchain.len (PyStr.join "" parts) = Reading.total_len parts.
Proof.
  induction parts as [|p parts IH]; [reflexivity|].
  cbn [PyStr.join Reading.total_len]. destruct parts as [|q parts].
  - cbn [Reading.total_len]. lia.
  - rewrite len_append. change ("" +:+ PyStr.join "" (q :: parts))%string
      with (PyStr.join "" (q :: parts)). rewrite IH. reflexivity.
Qed.

Lemma join_docs_len (parts : list string) (t : string) :
  Langchain.join_docs parts "" = Some t ->
  (Langchain.len t <= Reading.total_len parts)%Z.
Proof.
  unfold Langchain.join_docs.
  destruct (String.eqb _ ""); [discriminate|].
  intros H. injection H as <-. rewrite <- join_empty_len. apply strip_len.
Qed.

Lemma append_doc_bound (sp : Langchain.RecursiveCharacterTextSplitter)
    (ds parts : list string) :
  List.Forall (fun d => (Langchain.len d <= Langchain.chunk_size sp)%Z) ds ->
  (Reading.total_len parts <= Langchain.chunk_size sp)%Z ->
  List.Forall (fun d => (Langchain.len d <= Langchain.chunk_size sp)%Z)
    (Langchain.append_doc ds (Langchain.join_docs parts "")).
Proof.
  intros Hds Hparts. destruct (Langchain.join_docs parts "") as [t|] eqn:Ht;
    cbn [Langchain.append_doc]; [|assumption].
  apply List.Forall_app. split; [assumption|].
  constructor; [|constructor]. apply join_docs_len in Ht. lia.
Qed.

(** The [while] loop of the merge never indexes an empty list, keeps the
    count exact, and leaves room for the next piece. *)
Lemma pop_front_spec (sp : Langchain.RecursiveCharacterTextSplitter) (_len : Z)
    (cur : list string) :
  (0 <= Langchain.chunk_overlap sp)%Z ->
  exists cur',
    Langchain.pop_front sp 0 _len (Reading.total_len cur) cur
    = Ok (Reading.total_len cur', cur')
    /\ ((Reading.total_len cur' + _len <= Langchain.chunk_size sp)%Z
        \/ Reading.total_len cur' = 0%Z).
Proof.
  intros Hov. induction cur as [|d0 rest IH].
  - exists []. cbn. unfold Langchain.keep_popping. cbn.
    destruct (Z.ltb_spec (Langchain.chunk_overlap sp) 0); [lia|].
    rewrite andb_false_r. cbn. split; [reflexivity | now right].
  - cbn [Langchain.pop_front].
    destruct (Langchain.keep_popping sp 0 _len (Reading.total_len (d0 :: rest))
                (d0 :: rest)) eqn:Hkeep.
    + replace (Reading.total_len (d0 :: rest)
               - (Langchain.len d0
                  + Langchain.sep_if (1 <? length (d0 :: rest))%nat 0))%Z
        with (Reading.total_len rest).
      * exact IH.
      * cbn [Reading.total_len]. unfold Langchain.sep_if.
        destruct (1 <? length (d0 :: rest))%nat; lia.
    + exists (d0 :: rest). split; [reflexivity|].
      unfold Langchain.keep_popping in Hkeep.
      apply orb_false_iff in Hkeep as [_ Hkeep].
      apply andb_false_iff in Hkeep as [Hkeep|Hkeep].
      * left. apply Z.ltb_ge in Hkeep. unfold Langchain.sep_if in Hkeep.
        destruct (0 <? length (d0 :: rest))%nat; lia.
      * right. apply Z.ltb_ge in Hkeep.
        pose proof (total_len_nonneg (d0 :: rest)). lia.
Qed.

Lemma merge_step_ok (sp : Langchain.RecursiveCharacterTextSplitter)
    (st : Langchain.MergeState) (d : string) :
  (0 <= Langchain.chunk_overlap sp)%Z ->
  (Langchain.len d < Langchain.chunk_size sp)%Z ->
  Reading.merge_ok sp st ->
  exists st', Langchain.merge_step sp "" st d = Ok st' /\ Reading.merge_ok sp st'.
Proof.
  intros Hov Hd (Htotal & Hfit & Hdocs). unfold Langchain.merge_step.
  change (Langchain.len "") with 0%Z.
  assert (Hsep : forall b, Langchain.sep_if b 0 = 0%Z) by (intros []; reflexivity).
  assert (Hnext : forall st1,
             Langchain.total st1 = Reading.total_len (Langchain.current_doc st1) ->
             ((Langchain.total st1 + Langchain.len d <= Langchain.chunk_size sp)%Z
              \/ Langchain.total st1 = 0%Z) ->
             List.Forall (fun x => (Langchain.len x <= Langchain.chunk_size sp)%Z)
               (Langchain.docs st1) ->
             Reading.merge_ok sp
               (Langchain.mkMergeState (Langchain.docs st1)
                  (Langchain.current_doc st1 ++ [d])
                  (Langchain.total st1
                   + (Langchain.len d
                      + Langchain.sep_if
                          (1 <? length (Langchain.current_doc st1 ++ [d]))%nat 0)))).
  { intros st1 H1 H2 H3. rewrite Hsep. repeat split; cbn.
    - rewrite total_len_app, H1. cbn. lia.
    - lia.
    - assumption. }
  rewrite Hsep.
  destruct (Z.ltb_spec (Langchain.chunk_size sp)
              (Langchain.total st + Langchain.len d + 0)) as [Hover|Hroom].
  - destruct (Langchain.current_doc st) as [|d0 rest] eqn:Hcur.
    + cbn [mbind result_bind]. eexists. split; [reflexivity|].
      apply Hnext; [now rewrite Hcur | right; now rewrite Htotal | assumption].
    + rewrite Htotal.
      destruct (pop_front_spec sp (Langchain.len d) (d0 :: rest) Hov)
        as (cur' & Hpop & Hroom').
      rewrite Hpop. cbn [mbind result_bind]. eexists. split; [reflexivity|].
      apply (Hnext (Langchain.mkMergeState _ cur' (Reading.total_len cur')));
        cbn [Langchain.total Langchain.current_doc Langchain.docs].
      * reflexivity.
      * exact Hroom'.
      * apply append_doc_bound; [assumption | lia].
  - cbn [mbind result_bind]. eexists. split; [reflexivity|].
    apply Hnext; [assumption | left; lia | assumption].
Qed.

Lemma merge_loop_ok (sp : Langchain.RecursiveCharacterTextSplitter)
    (splits : list string) (st : Langchain.MergeState) :
  (0 <= Langchain.chunk_overlap sp)%Z ->
  List.Forall (fun d => (Langchain.len d < Langchain.chunk_size sp)%Z) splits ->
  Reading.merge_ok sp st ->
  exists st', for_each (Langchain.merge_step sp "") splits st = Ok st'
              /\ Reading.merge_ok sp st'.
Proof.
  intros Hov Hsplits. revert st.
  induction Hsplits as [|d splits Hd _ IH]; intros st Hst; cbn [for_each].
  - eauto.
  - destruct (merge_step_ok sp st d Hov Hd Hst) as (st1 & -> & Hst1).
    cbn [mbind result_bind]. apply IH, Hst1.
Qed.

Lemma merge_splits_ok (sp : Langchain.RecursiveCharacterTextSplitter)
    (splits : list string) :
  (0 <= Langchain.chunk_overlap sp)%Z ->
  (0 <= Langchain.chunk_size sp)%Z ->
  List.Forall (fun d => (Langchain.len d < Langchain.chunk_size sp)%Z) splits ->
  exists docs,
    Langchain.merge_splits sp splits "" = Ok docs
    /\ List.Forall (fun d => (Langchain.len d <= Langchain.chunk_size sp)%Z) docs.
Proof.
  intros Hov Hsize Hsplits. unfold Langchain.merge_splits.
  destruct (merge_loop_ok sp splits (Langchain.mkMergeState [] [] 0) Hov Hsplits)
    as (st & -> & Htotal & Hfit & Hdocs).
  { repeat split; cbn; [assumption | constructor]. }
  cbn [mbind result_bind]. eexists. split; [reflexivity|].
  apply append_doc_bound; [assumption | lia].
Qed.

(** The recursion of [rc_split_text_rec] on the separator list is the
    search of [_split_text]: it splits on the separator that
    [choose_separator] selects and recurses on the separators left. *)
Lemma rc_split_text_choose (sp : Langchain.RecursiveCharacterTextSplitter)
    (seps : list string) (text : string) :
  Langchain.rc_split_text_rec sp seps text
  = match Langchain.choose_separator seps text with
    | None => Raise IndexError
    | Some (separator, new_separators) =>
        Langchain.split_with sp separator
          match new_separators with
          | [] => None
          | _ => Some (Langchain.rc_split_text_rec sp new_separators)
          end
          text
    end.
Proof.
  induction seps as [|s rest IH]; [reflexivity|].
  cbn [Langchain.rc_split_text_rec Langchain.choose_separator].
  destruct (String.eqb s ""); [reflexivity|].
  destruct (PyStr.contains text s).
  - destruct rest; reflexivity.
  - destruct rest as [|s' rest']; [reflexivity | exact IH].
Qed.

Lemma chars_len (text : string) :
  List.Forall (fun p => Langchain.len p = 1%Z) (PyStr.chars text).
Proof. induction text as [|c text IH]; cbn [PyStr.chars]; constructor; auto. Qed.

Lemma split_on_empty_small (sp : Langchain.RecursiveCharacterTextSplitter) (text : string) :
  (1 < Langchain.chunk_size sp)%Z ->
  List.Forall (fun d => (Langchain.len d < Langchain.chunk_size sp)%Z)
    (Langchain.split_text_with_regex text "").
Proof.
  intros Hsize. unfold Langchain.split_text_with_regex. cbn [String.eqb].
  apply List.Forall_forall. intros p Hp. apply filter_In in Hp as [Hp _].
  pose proof (chars_len text) as Hall.
  eapply List.Forall_forall in Hall; [|exact Hp]. cbn in Hall. lia.
Qed.

Section SplitBound.
Variable sp : Langchain.RecursiveCharacterTextSplitter.
Hypothesis overlap_nonneg : (0 <= Langchain.chunk_overlap sp)%Z.
Hypothesis size_large : (1 < Langchain.chunk_size sp)%Z.

Abbreviation bounded :=
  (List.Forall (fun d => (Langchain.len d <= Langchain.chunk_size sp)%Z)).
Abbreviation small :=
  (List.Forall (fun d => (Langchain.len d < Langchain.chunk_size sp)%Z)).
Abbreviation total_bounded f :=
  (forall s, exists chunks, f s = Ok chunks /\ bounded chunks).

Lemma flush_good_ok (acc : Langchain.SplitAcc) :
  bounded (Langchain.final_chunks acc) -> small (Langchain.good_splits acc) ->
  exists chunks, Langchain.flush_good sp acc = Ok chunks /\ bounded chunks.
Proof.
  intros Hfinal Hgood. unfold Langchain.flush_good.
  destruct (Langchain.good_splits acc) as [|g gs] eqn:Hg; [eauto|].
  destruct (merge_splits_ok sp (g :: gs)) as (merged & -> & Hmerged);
    [assumption | lia | assumption |].
  cbn [mbind result_bind]. eexists. split; [reflexivity|].
  apply List.Forall_app. split; assumption.
Qed.

Lemma split_step_ok (recurse : option (string -> result (list string)))
    (acc : Langchain.SplitAcc) (s : string) :
  match recurse with
  | Some f => total_bounded f
  | None => (Langchain.len s < Langchain.chunk_size sp)%Z
  end ->
  bounded (Langchain.final_chunks acc) -> small (Langchain.good_splits acc) ->
  exists acc',
    Langchain.split_step sp recurse acc s = Ok acc'
    /\ bounded (Langchain.final_chunks acc')
    /\ small (Langchain.good_splits acc').
Proof.
  intros Hrec Hfinal Hgood. unfold Langchain.split_step.
  destruct (Z.ltb_spec (Langchain.len s) (Langchain.chunk_size sp)) as [Hs|Hs].
  - eexists. split; [reflexivity|]. cbn. split; [assumption|].
    apply List.Forall_app. split; [assumption | constructor; [assumption|constructor]].
  - destruct recurse as [f|]; [|lia].
    destruct (flush_good_ok acc Hfinal Hgood) as (chunks & -> & Hchunks).
    cbn [mbind result_bind].
    destruct (Hrec s) as (other & -> & Hother). cbn [mbind result_bind].
    eexists. split; [reflexivity|]. cbn. split; [|constructor].
    apply List.Forall_app. split; assumption.
Qed.

Lemma split_loop_ok (recurse : option (string -> result (list string)))
    (splits : list string) (acc : Langchain.SplitAcc) :
  match recurse with
  | Some f => total_bounded f
  | None => small splits
  end ->
  bounded (Langchain.final_chunks acc) -> small (Langchain.good_splits acc) ->
  exists acc',
    for_each (Langchain.split_step sp recurse) splits acc = Ok acc'
    /\ bounded (Langchain.final_chunks acc')
    /\ small (Langchain.good_splits acc').
Proof.
  revert acc. induction splits as [|s splits IH]; intros acc Hrec Hfinal Hgood;
    cbn [for_each]; [eauto|].
  destruct (split_step_ok recurse acc s) as (acc1 & -> & Hfinal1 & Hgood1);
    try assumption.
  { destruct recurse; [assumption|]. now apply List.Forall_inv in Hrec. }
  cbn [mbind result_bind]. apply IH; try assumption.
  destruct recurse; [assumption|]. now apply List.Forall_inv_tail in Hrec.
Qed.

Lemma split_with_ok (separator : string)
    (recurse : option (string -> result (list string))) (text : string) :
  match recurse with
  | Some f => total_bounded f
  | None => small (Langchain.split_text_with_regex text separator)
  end ->
  exists chunks,
    Langchain.split_with sp separator recurse text = Ok chunks /\ bounded chunks.
Proof.
  intros Hrec. unfold Langchain.split_with.
  pose proof (split_loop_ok recurse (Langchain.split_text_with_regex text separator)
                (Langchain.mkSplitAcc [] []) Hrec) as Hloop.
  destruct Hloop as (acc & Hacc & Hfinal & Hgood); [constructor | constructor |].
  rewrite Hacc. cbn [mbind result_bind]. apply flush_good_ok; assumption.
Qed.

Lemma rc_split_text_rec_ok (seps : list string) :
  Reading.ends_with_empty seps ->
  total_bounded (Langchain.rc_split_text_rec sp seps).
Proof.
  induction seps as [|s rest IH]; intros [front Hfront] text.
  - destruct front; discriminate Hfront.
  - assert (Hrest : rest <> [] -> Reading.ends_with_empty rest).
    { intros Hne. destruct front as [|f front]; cbn in Hfront.
      - injection Hfront as _ ->. now destruct Hne.
      - injection Hfront as _ ->. now exists front. }
    assert (Hlast : rest = [] -> s = "").
    { intros ->. destruct front as [|f front]; cbn in Hfront.
      - now injection Hfront.
      - injection Hfront as _ Hfront. destruct front; discriminate Hfront. }
    cbn [Langchain.rc_split_text_rec].
    destruct (String.eqb_spec s "") as [->|Hs].
    + apply split_with_ok. apply split_on_empty_small, size_large.
    + destruct rest as [|s' rest']; [now destruct (Hs (Hlast eq_refl))|].
      destruct (PyStr.contains text s).
      * apply split_with_ok. apply IH, Hrest. discriminate.
      * apply IH, Hrest. discriminate.
Qed.

Lemma split_documents_ok (documents : list Langchain.Document) :
  Reading.ends_with_empty (Langchain.separators sp) ->
  exists out,
    Langchain.split_documents sp documents = Ok out
    /\ List.Forall
         (fun d => (Langchain.len (Langchain.page_content d)
                    <= Langchain.chunk_size sp)%Z) out.
Proof.
  intros Hseps. unfold Langchain.split_documents.
  assert (Hgen : forall acc,
             List.Forall
               (fun d => (Langchain.len (Langchain.page_content d)
                          <= Langchain.chunk_size sp)%Z) acc ->
             exists out,
               for_each
                 (fun acc doc =>
                    chunks ← Langchain.rc_split_text sp (Langchain.page_content doc);
                    Ok (acc ++ map (fun c => Langchain.mkDocument c (Langchain.metadata doc))
                                   chunks))
                 documents acc = Ok out
               /\ List.Forall
                    (fun d => (Langchain.len (Langchain.page_content d)
                               <= Langchain.chunk_size sp)%Z) out).
  { induction documents as [|doc documents IH]; intros acc Hacc; cbn [for_each];
      [eauto|].
    unfold Langchain.rc_split_text.
    destruct (rc_split_text_rec_ok _ Hseps (Langchain.page_content doc))
      as (chunks & -> & Hchunks).
    cbn [mbind result_bind]. apply IH.
    apply List.Forall_app. split; [assumption|].
    apply List.Forall_forall. intros d Hd.
    apply in_map_iff in Hd as (c & <- & Hc). cbn.
    eapply List.Forall_forall in Hchunks; [|exact Hc]. exact Hchunks. }
  apply Hgen. constructor.
Qed.

End SplitBound.

Lemma text_splitter_separators :
  Reading.ends_with_empty (Langchain.separators Common.text_splitter).
Proof. exists [PyStr.newline +:+ PyStr.newline; PyStr.newline; " "]. reflexivity. Qed.

Lemma chunks_of_row_bounded (sp : Langchain.MarkdownHeaderTextSplitter)
    (row : Common.ParsedItem) (cs : list Common.Chunk) :
  Common.chunks_of_row sp row = Ok cs ->
  List.Forall (fun c => (Langchain.len (Common.page_content c) <= 2000)%Z) cs.
Proof.
  rewrite chunks_of_row_splits. intros H.
  apply bind_ok_inv in H as (splits & Hsplits & H). injection H as <-.
  apply bind_ok_inv in Hsplits as (md & _ & Hsplits).
  destruct (split_documents_ok Common.text_splitter) with (documents := md)
    as (out & Hout & Hbound).
  - vm_compute. discriminate.
  - vm_compute. reflexivity.
  - apply text_splitter_separators.
  - assert (out = splits) by congruence. subst out.
    apply List.Forall_forall. intros c Hc.
    apply in_map_iff in Hc as (d & <- & Hd). cbn.
    eapply List.Forall_forall in Hbound; [|exact Hd]. exact Hbound.
Qed.

(** ** The overlap of the chunks of one merge *)

Lemma chained_snoc (prev : list string) (ws : list Overlap.Window) (w : Overlap.Window) :
  Overlap.chained prev ws ->
  Overlap.kept w `suffix_of` Overlap.last_pieces prev ws ->
  Overlap.chained prev (ws ++ [w]).
Proof.
  revert prev. induction ws as [|w0 ws IH]; intros prev Hchain Hkept.
  - cbn in *. split; [exact Hkept | exact I].
  - cbn [Overlap.chained app] in *. destruct Hchain as [H0 Hrest].
    split; [exact H0|]. apply IH; [exact Hrest | exact Hkept].
Qed.

Lemma last_pieces_snoc (prev : list string) (ws : list Overlap.Window) (w : Overlap.Window) :
  Overlap.last_pieces prev (ws ++ [w]) = Overlap.pieces w.
Proof. unfold Overlap.last_pieces. now rewrite fold_left_app. Qed.

Lemma omap_chunk_snoc (ws : list Overlap.Window) (w : Overlap.Window) :
  omap Overlap.chunk (ws ++ [w])
  = Langchain.append_doc (omap Overlap.chunk ws) (Overlap.chunk w).
Proof.
  rewrite omap_app. cbn [omap list_omap].
  destruct (Overlap.chunk w); cbn [Langchain.append_doc]; [reflexivity|].
  apply app_nil_r.
Qed.

(** The [while] loop of the merge stops with trailing pieces of the
    chunk just emitted that fit into the overlap. *)
Lemma pop_front_kept (sp : Langchain.RecursiveCharacterTextSplitter) (_len : Z)
    (cur : list string) :
  (0 <= Langchain.chunk_overlap sp)%Z ->
  exists cur',
    Langchain.pop_front sp 0 _len (Reading.total_len cur) cur
    = Ok (Reading.total_len cur', cur')
    /\ cur' `suffix_of` cur
    /\ (Reading.total_len cur' <= Langchain.chunk_overlap sp)%Z
    /\ ((Reading.total_len cur' + _len <= Langchain.chunk_size sp)%Z
        \/ Reading.total_len cur' = 0%Z).
Proof.
  intros Hov. induction cur as [|d0 rest IH].
  - exists []. cbn. unfold Langchain.keep_popping. cbn.
    destruct (Z.ltb_spec (Langchain.chunk_overlap sp) 0); [lia|].
    rewrite andb_false_r. cbn.
    split; [reflexivity|]. split; [reflexivity|]. split; [lia | now right].
  - cbn [Langchain.pop_front].
    destruct (Langchain.keep_popping sp 0 _len (Reading.total_len (d0 :: rest))
                (d0 :: rest)) eqn:Hkeep.
    + replace (Reading.total_len (d0 :: rest)
               - (Langchain.len d0
                  + Langchain.sep_if (1 <? length (d0 :: rest))%nat 0))%Z
        with (Reading.total_len rest).
      * destruct IH as (cur' & Hpop & Hsuffix & Hfit & Hroom).
        exists cur'. split; [exact Hpop|]. split; [|split; assumption].
        now apply suffix_cons_r.
      * cbn [Reading.total_len]. unfold Langchain.sep_if.
        destruct (1 <? length (d0 :: rest))%nat; lia.
    + exists (d0 :: rest). split; [reflexivity|]. split; [reflexivity|].
      unfold Langchain.keep_popping in Hkeep.
      apply orb_false_iff in Hkeep as [Hover Hkeep].
      apply Z.ltb_ge in Hover. split; [exact Hover|].
      apply andb_false_iff in Hkeep as [Hkeep|Hkeep].
      * left. apply Z.ltb_ge in Hkeep. unfold Langchain.sep_if in Hkeep.
        destruct (0 <? length (d0 :: rest))%nat; lia.
      * right. apply Z.ltb_ge in Hkeep.
        pose proof (total_len_nonneg (d0 :: rest)). lia.
Qed.

Section MergeWindows.
Variable sp : Langchain.RecursiveCharacterTextSplitter.
Hypothesis overlap_nonneg : (0 <= Langchain.chunk_overlap sp)%Z.

(** A piece that goes into the chunk in the making. *)
Lemma merge_inv_extend (consumed : list string) (done : list Overlap.Window)
    (cur : Overlap.Window) (st : Langchain.MergeState) (d : string) :
  Overlap.merge_inv sp consumed done cur st ->
  (Langchain.total st + Langchain.len d <= Langchain.chunk_size sp)%Z ->
  Overlap.merge_inv sp (consumed ++ [d]) done
    (Overlap.mkWindow (Overlap.kept cur) (Overlap.fresh cur ++ [d]))
    (Langchain.mkMergeState (Langchain.docs st) (Langchain.current_doc st ++ [d])
       (Langchain.total st + (Langchain.len d + 0))).
Proof.
  intros (Hdocs & Hcur & Htotal & Hfit & Hchain & Hkept & Hdone & Hov & Hcons) Hroom.
  unfold Overlap.merge_inv, Overlap.pieces in *.
  cbn [Langchain.docs Langchain.current_doc Langchain.total
       Overlap.kept Overlap.fresh].
  split; [exact Hdocs|]. split; [now rewrite Hcur, app_assoc|].
  split.
  { rewrite app_assoc, total_len_app, <- Htotal. cbn [Reading.total_len]. lia. }
  split; [lia|]. split; [exact Hchain|]. split; [exact Hkept|].
  split; [exact Hdone|]. split; [exact Hov|].
  now rewrite app_assoc, Hcons.
Qed.

Lemma merge_step_windows (consumed : list string) (done : list Overlap.Window)
    (cur : Overlap.Window) (st : Langchain.MergeState) (d : string) :
  (Langchain.len d < Langchain.chunk_size sp)%Z ->
  Overlap.merge_inv sp consumed done cur st ->
  exists done' cur' st',
    Langchain.merge_step sp "" st d = Ok st'
    /\ Overlap.merge_inv sp (consumed ++ [d]) done' cur' st'.
Proof.
  intros Hd Hinv. unfold Langchain.merge_step.
  change (Langchain.len "") with 0%Z.
  assert (Hsep : forall b, Langchain.sep_if b 0 = 0%Z) by (intros []; reflexivity).
  rewrite Hsep.
  destruct (Z.ltb_spec (Langchain.chunk_size sp)
              (Langchain.total st + Langchain.len d + 0)) as [Hover|Hroom].
  - destruct (Langchain.current_doc st) as [|d0 rest] eqn:Hcur.
    + cbn [mbind result_bind]. rewrite Hsep.
      eexists done, _, _. split; [reflexivity|].
      apply merge_inv_extend; [exact Hinv|].
      destruct Hinv as (_ & Hpieces & Htotal & _).
      rewrite Htotal, <- Hpieces, Hcur. cbn [Reading.total_len]. lia.
    + destruct Hinv as (Hdocs & Hpieces & Htotal & Hfit & Hchain & Hkept & Hdone
                        & Hov & Hcons).
      rewrite Htotal, <- Hpieces, Hcur.
      destruct (pop_front_kept sp (Langchain.len d) (d0 :: rest) overlap_nonneg)
        as (cur' & Hpop & Hsuffix & Hfit' & Hroom').
      rewrite Hpop. cbn [mbind result_bind]. rewrite Hsep.
      cbn [Langchain.docs Langchain.current_doc Langchain.total].
      exists (done ++ [cur]), (Overlap.mkWindow cur' [d]). eexists.
      split; [reflexivity|].
      unfold Overlap.merge_inv.
      cbn [Langchain.docs Langchain.current_doc Langchain.total
           Overlap.kept Overlap.fresh Overlap.pieces].
      split.
      { rewrite omap_chunk_snoc, Hdocs. unfold Overlap.chunk.
        now rewrite <- Hpieces, Hcur. }
      split; [reflexivity|].
      split.
      { unfold Overlap.pieces. cbn [Overlap.kept Overlap.fresh].
        rewrite total_len_app. cbn [Reading.total_len]. lia. }
      split; [lia|].
      split; [now apply chained_snoc|].
      split; [now rewrite last_pieces_snoc, <- Hpieces, Hcur|].
      split.
      { apply List.Forall_app. split; [exact Hdone|].
        constructor; [|constructor]. unfold Overlap.fits.
        split; [exact Hov | lia]. }
      split; [exact Hfit'|].
      rewrite map_app, concat_app. cbn [map concat]. rewrite app_nil_r.
      now rewrite Hcons.
  - cbn [mbind result_bind]. rewrite Hsep.
    eexists done, _, _. split; [reflexivity|].
    apply merge_inv_extend; [exact Hinv | lia].
Qed.

Lemma merge_loop_windows (splits consumed : list string) (done : list Overlap.Window)
    (cur : Overlap.Window) (st : Langchain.MergeState) :
  List.Forall (fun d => (Langchain.len d < Langchain.chunk_size sp)%Z) splits ->
  Overlap.merge_inv sp consumed done cur st ->
  exists done' cur' st',
    for_each (Langchain.merge_step sp "") splits st = Ok st'
    /\ Overlap.merge_inv sp (consumed ++ splits) done' cur' st'.
Proof.
  intros Hsplits. revert consumed done cur st.
  induction Hsplits as [|d splits Hd _ IH]; intros consumed done cur st Hinv;
    cbn [for_each].
  - rewrite app_nil_r. eauto.
  - destruct (merge_step_windows consumed done cur st d Hd Hinv)
      as (done1 & cur1 & st1 & -> & Hinv1).
    cbn [mbind result_bind].
    destruct (IH _ _ _ _ Hinv1) as (done' & cur' & st' & Hrun & Hinv').
    rewrite <- app_assoc in Hinv'. eauto.
Qed.

(** [_merge_splits] on pieces that each fit: the chunks are those of a
    chain of windows over the pieces. *)
Lemma merge_splits_windows (splits : list string) :
  (0 <= Langchain.chunk_size sp)%Z ->
  List.Forall (fun d => (Langchain.len d < Langchain.chunk_size sp)%Z) splits ->
  exists ws,
    Langchain.merge_splits sp splits "" = Ok (omap Overlap.chunk ws)
    /\ concat (map Overlap.fresh ws) = splits
    /\ Overlap.chained [] ws
    /\ List.Forall (Overlap.fits sp) ws.
Proof.
  intros Hsize Hsplits. unfold Langchain.merge_splits.
  destruct (merge_loop_windows splits [] [] (Overlap.mkWindow [] [])
              (Langchain.mkMergeState [] [] 0) Hsplits)
    as (done & cur & st & -> & Hinv).
  { unfold Overlap.merge_inv. cbn. repeat split; try lia; try constructor.
    now exists []. }
  destruct Hinv as (Hdocs & Hpieces & Htotal & Hfit & Hchain & Hkept & Hdone
                    & Hov & Hcons).
  cbn [mbind result_bind app] in *. exists (done ++ [cur]).
  split; [now rewrite omap_chunk_snoc, Hdocs, Hpieces|].
  split.
  { rewrite map_app, concat_app. cbn [map concat]. now rewrite app_nil_r. }
  split; [now apply chained_snoc|].
  apply List.Forall_app. split; [exact Hdone|].
  constructor; [|constructor]. unfold Overlap.fits. split; [exact Hov | lia].
Qed.

Lemma split_loop_small (recurse : option (string -> result (list string)))
    (splits : list string) (acc : Langchain.SplitAcc) :
  List.Forall (fun d => (Langchain.len d < Langchain.chunk_size sp)%Z) splits ->
  for_each (Langchain.split_step sp recurse) splits acc
  = Ok (Langchain.mkSplitAcc (Langchain.final_chunks acc)
          (Langchain.good_splits acc ++ splits)).
Proof.
  intros Hsplits. revert acc.
  induction Hsplits as [|d splits Hd _ IH]; intros acc; cbn [for_each].
  - rewrite app_nil_r. now destruct acc.
  - assert (Hstep : Langchain.split_step sp recurse acc d
                    = Ok (Langchain.mkSplitAcc (Langchain.final_chunks acc)
                            (Langchain.good_splits acc ++ [d]))).
    { unfold Langchain.split_step. apply Z.ltb_lt in Hd. now rewrite Hd. }
    rewrite Hstep. cbn [mbind result_bind].
    rewrite IH. cbn [Langchain.final_chunks Langchain.good_splits].
    now rewrite <- app_assoc.
Qed.

(** A text whose pieces on the chosen separator all fit is cut by one
    merge of these pieces. *)
Lemma rc_split_text_one_merge (text separator : string) (rest : list string) :
  Langchain.choose_separator (Langchain.separators sp) text = Some (separator, rest) ->
  List.Forall (fun d => (Langchain.len d < Langchain.chunk_size sp)%Z)
    (Langchain.split_text_with_regex text separator) ->
  Langchain.rc_split_text sp text
  = Langchain.merge_splits sp (Langchain.split_text_with_regex text separator) "".
Proof.
  intros Hchoose Hsmall. unfold Langchain.rc_split_text.
  rewrite rc_split_text_choose, Hchoose. unfold Langchain.split_with.
  rewrite split_loop_small by exact Hsmall. cbn [mbind result_bind].
  unfold Langchain.flush_good. cbn [Langchain.good_splits Langchain.final_chunks app].
  destruct (Langchain.split_text_with_regex text separator) as [|p ps];
    [reflexivity|].
  destruct (Langchain.merge_splits sp (p :: ps) "") as [merged|e]; reflexivity.
Qed.

End MergeWindows.

(** C7 (amended): every chunk has at most [chunk_size] = 2000 characters,
    also in the case that the claim excepts: the last separator of the
    recursive splitter is the empty one, so every text can be cut, and the
    splitter returns for every text.  The trailing 200 characters of a
    chunk need not open the next chunk.  When pieces that each fit are
    merged, every chunk is the stripped concatenation of consecutive
    pieces; the pieces of a chunk are trailing pieces kept from the chunk
    before it, at most [chunk_overlap] = 200 characters in total and
    possibly none, followed by the pieces that come next in the input, so
    that no piece is lost.  A section whose pieces on the separator
    chosen for it all fit is cut by one such merge. *)
Theorem chunk_length_bounded :
  (forall text,
      exists chunks,
        Langchain.rc_split_text Common.text_splitter text = Ok chunks
        /\ List.Forall (fun c => (Langchain.len c <= Common.chunk_size)%Z) chunks)
  /\ (forall df cs,
        Ingest.chunks_of df = Ok cs ->
        List.Forall (fun c => (Langchain.len (Common.page_content c) <= 2000)%Z) cs)
  /\ (forall splits,
        List.Forall (fun d => (Langchain.len d < Common.chunk_size)%Z) splits ->
        exists ws,
          Langchain.merge_splits Common.text_splitter splits ""
          = Ok (omap Overlap.chunk ws)
          /\ concat (map Overlap.fresh ws) = splits
          /\ Overlap.chained [] ws
          /\ List.Forall
               (fun w =>
                  (Reading.total_len (Overlap.kept w) <= Common.chunk_overlap)%Z
                  /\ (Reading.total_len (Overlap.pieces w) <= Common.chunk_size)%Z)
               ws)
  /\ (forall text separator rest,
        Langchain.choose_separator Langchain.default_separators text
        = Some (separator, rest) ->
        List.Forall (fun d => (Langchain.len d < Common.chunk_size)%Z)
          (Langchain.split_text_with_regex text separator) ->
        Langchain.rc_split_text Common.text_splitter text
        = Langchain.merge_splits Common.text_splitter
            (Langchain.split_text_with_regex text separator) "").
Proof.
  split; [|split; [|split]].
  - intros text. unfold Langchain.rc_split_text.
    apply (rc_split_text_rec_ok Common.text_splitter).
    + vm_compute. discriminate.
    + vm_compute. reflexivity.
    + apply text_splitter_separators.
  - intros df. unfold Ingest.chunks_of.
    induction df as [|row df IH]; intros cs H.
    + injection H as <-. constructor.
    + rewrite chunk_loop_cons in H.
      apply bind_ok_inv in H as (b & Hb & H).
      apply bind_ok_inv in H as (rest & Hrest & H). injection H as <-.
      apply List.Forall_app. split.
      * eapply chunks_of_row_bounded. exact Hb.
      * apply IH. exact Hrest.
  - intros splits Hsplits.
    apply (merge_splits_windows Common.text_splitter);
      [vm_compute; discriminate | vm_compute; discriminate | exact Hsplits].
  - intros text separator rest Hchoose Hsmall.
    apply (rc_split_text_one_merge Common.text_splitter text separator rest);
      assumption.
Qed.

Lemma chunk_length_bounded_witness :
  List.Forall (fun c => (Langchain.len (Common.page_content c) <= 2000)%Z)
    (Examples.get_ok
       (Ingest.chunks_of [Examples.page "T" "https://a" Examples.two_paragraph_page]))
  /\ (Langchain.merge_splits Common.text_splitter Examples.overlap_pieces ""
      = Ok [(PyStr.repeat "a" 900 +:+ PyStr.repeat "b" 900) +:+ PyStr.repeat "c" 150;
            PyStr.repeat "c" 150 +:+ PyStr.repeat "d" 900]
      /\ exists ws,
          Langchain.merge_splits Common.text_splitter Examples.overlap_pieces ""
          = Ok (omap Overlap.chunk ws)
          /\ concat (map Overlap.fresh ws) = Examples.overlap_pieces
          /\ Overlap.chained [] ws
          /\ List.Forall
               (fun w =>
                  (Reading.total_len (Overlap.kept w) <= Common.chunk_overlap)%Z
                  /\ (Reading.total_len (Overlap.pieces w) <= Common.chunk_size)%Z)
               ws)
  /\ Langchain.rc_split_text Common.text_splitter Examples.two_paragraph_page
     = Langchain.merge_splits Common.text_splitter
         (Langchain.split_text_with_regex Examples.two_paragraph_page
            (Examples.nl +:+ Examples.nl)) "".
Proof.
  destruct chunk_length_bounded as (_ & Hbound & Hoverlap & Hone).
  split; [|split; [split|]].
  - apply (Hbound [Examples.page "T" "https://a" Examples.two_paragraph_page]).
    vm_compute. reflexivity.
  - vm_compute. reflexivity.
  - apply (Hoverlap Examples.overlap_pieces).
    repeat (constructor; [vm_compute; reflexivity|]). constructor.
  - apply (Hone Examples.two_paragraph_page (Examples.nl +:+ Examples.nl)
             [Examples.nl; " "; ""]).
    + vm_compute. reflexivity.
    + apply List.Forall_forall. intros d Hd. vm_compute in Hd.
      destruct Hd as [<-|[<-|[]]]; vm_compute; reflexivity.
Defined.

(** C7 as stated fails: this page is one section of 3003 characters; it
    is split into the two paragraphs of 1500 characters, and the second
    chunk does not start with the last 200 characters of the first. *)
Lemma overlap_not_guaranteed :
  (exists section,
      Langchain.md_split_text Ingest.markdown_splitter Examples.two_paragraph_page
      = Ok [section]
      /\ Langchain.len (Langchain.page_content section) = 3003%Z)
  /\ exists c1 c2,
      Ingest.chunks_of [Examples.page "T" "https://a" Examples.two_paragraph_page]
      = Ok [c1; c2]
      /\ Common.page_content c1 = PyStr.repeat "a" 1500
      /\ Common.page_content c2 = PyStr.repeat "b" 1500
      /\ PyStr.take_last 200 (Common.page_content c1)
         <> PyStr.take 200 (Common.page_content c2).
Proof.
  split.
  - eexists. split; vm_compute; reflexivity.
  - eexists _, _. split; [vm_compute; reflexivity|].
    split; [vm_compute; reflexivity|]. split; [vm_compute; reflexivity|].
    intros H. vm_compute in H. discriminate H.
Qed.

(** ** The two ingestion variants *)

Lemma for_each_ext_in {A S : Type} (f g : S -> A -> result S) (xs : list A) (acc : S) :
  (forall a x, In x xs -> f a x = g a x) ->
  for_each f xs acc = for_each g xs acc.
Proof.
  revert acc. induction xs as [|x xs IH]; intros acc Hext; cbn [for_each].
  - reflexivity.
  - rewrite (Hext acc x) by now left.
    destruct (g acc x) as [a|e]; cbn [mbind result_bind]; [|reflexivity].
    apply IH. intros a' x' Hin. apply Hext. now right.
Qed.

Lemma custom_parse_item_agrees (file : Common.FileEntry) (item : Common.record) :
  Reading.titles_agree item ->
  CustomIngestion.parse_item file item = Ok (Ingest.parse_item file item).
Proof.
  intros (fields & Hmeta & Htitle).
  unfold CustomIngestion.parse_item, CustomIngestion.get_title, Ingest.parse_item.
  rewrite Hmeta. cbn [mbind result_bind]. now rewrite Htitle.
Qed.

Lemma custom_items_agree (file : Common.FileEntry) (items : list Common.record)
    (parsed : list Common.ParsedItem) :
  (forall item, In item items -> Reading.titles_agree item) ->
  for_each
    (fun parsed item => p ← CustomIngestion.parse_item file item; Ok (parsed ++ [p]))
    items parsed
  = Ok (parsed ++ map (Ingest.parse_item file) items).
Proof.
  revert parsed. induction items as [|item items IH]; intros parsed Hagree;
    cbn [for_each map].
  - now rewrite app_nil_r.
  - rewrite custom_parse_item_agrees by (apply Hagree; now left).
    cbn [mbind result_bind]. rewrite IH by (intros i Hi; apply Hagree; now right).
    now rewrite <- app_assoc.
Qed.

Lemma custom_files_agree (fs : list Common.FileEntry)
    (load : string -> list Common.record) (parsed : list Common.ParsedItem) :
  (forall file item,
      In file fs -> In item (load (Common.path file)) -> Reading.titles_agree item) ->
  for_each
    (fun parsed file =>
       for_each
         (fun parsed item => p ← CustomIngestion.parse_item file item; Ok (parsed ++ [p]))
         (load (Common.path file)) parsed)
    fs parsed
  = Ok (parsed
        ++ flat_map (fun file => map (Ingest.parse_item file) (load (Common.path file))) fs).
Proof.
  revert parsed. induction fs as [|file fs IH]; intros parsed Hagree.
  - cbn. now rewrite app_nil_r.
  - cbn [for_each flat_map].
    rewrite (custom_items_agree file (load (Common.path file)) parsed)
      by (intros item Hi; apply (Hagree file); [now left | exact Hi]).
    cbn [mbind result_bind].
    rewrite IH by (intros f i Hf Hi; apply (Hagree f); [now right | exact Hi]).
    now rewrite <- app_assoc.
Qed.

Lemma custom_parsed_data_agrees (fs : list Common.FileEntry)
    (load : string -> list Common.record) :
  (forall file item,
      In file fs -> In item (load (Common.path file)) -> Reading.titles_agree item) ->
  CustomIngestion.parsed_data_of fs load = Ok (Ingest.parsed_data_of fs load).
Proof.
  intros Hagree. unfold CustomIngestion.parsed_data_of, Ingest.parsed_data_of.
  now rewrite custom_files_agree.
Qed.

Lemma custom_headers_sorted :
  Langchain.headers_to_split_on CustomIngestion.markdown_splitter
  = [("####", "header_4"); ("###", "header_3"); ("##", "header_2"); ("#", "header_1")].
Proof. reflexivity. Qed.

Lemma step_line_agrees (st : Langchain.SplitState) (line : string) :
  Reading.shallow_line line = true ->
  Langchain.step_line CustomIngestion.markdown_splitter st line
  = Langchain.step_line Ingest.markdown_splitter st line.
Proof.
  unfold Reading.shallow_line. intros H.
  apply andb_true_iff in H as [H6 H5].
  apply negb_true_iff in H6, H5. unfold Langchain.step_line.
  rewrite ingest_headers_sorted, custom_headers_sorted.
  cbn [Langchain.match_header]. rewrite H6, H5. reflexivity.
Qed.

Lemma md_split_text_agrees (md : string) :
  Reading.no_deep_heading md ->
  Langchain.md_split_text CustomIngestion.markdown_splitter md
  = Langchain.md_split_text Ingest.markdown_splitter md.
Proof.
  unfold Reading.no_deep_heading. intros Hshallow. unfold Langchain.md_split_text.
  assert (Hfold : forall st,
             fold_left (Langchain.step_line CustomIngestion.markdown_splitter)
               (PyStr.split_lines md) st
             = fold_left (Langchain.step_line Ingest.markdown_splitter)
                 (PyStr.split_lines md) st).
  { induction (PyStr.split_lines md) as [|line lines IH]; intros st; cbn [fold_left].
    - reflexivity.
    - cbn [forallb] in Hshallow. apply andb_true_iff in Hshallow as [Hline Hlines].
      rewrite step_line_agrees by exact Hline. apply IH, Hlines. }
  rewrite Hfold. reflexivity.
Qed.

Lemma chunks_of_row_agrees (row : Common.ParsedItem) :
  match Common.content row with
  | JStr md => Reading.no_deep_heading md
  | _ => True
  end ->
  Common.chunks_of_row CustomIngestion.markdown_splitter row
  = Common.chunks_of_row Ingest.markdown_splitter row.
Proof.
  intros Hshallow. unfold Common.chunks_of_row, Common.split_content.
  destruct (Common.content row); try reflexivity.
  now rewrite md_split_text_agrees.
Qed.

(** C5 (amended): the two scripts share the chunk loop, the splitter
    sizes and the row preparation, and differ in where they read the
    title ([title], default [""], against [metadata.title], default
    ["N/A"]) and in the heading levels they split on (1 to 6 against 1 to
    4).  For every input whose records carry the same title in both
    places and whose markdown has no heading line of level 5 or 6, the two
    variants build the same pages, the same sequence of chunks and the
    same rows. *)
Theorem variants_agree_on_shallow_pages
    (fs : list Common.FileEntry) (load : string -> list Common.record) :
  (forall file item,
      In file fs -> In item (load (Common.path file)) ->
      Reading.titles_agree item /\ Reading.shallow item) ->
  let df := Ingest.parsed_data_of fs load in
  CustomIngestion.parsed_data_of fs load = Ok df
  /\ CustomIngestion.chunks_of df = Ingest.chunks_of df
  /\ CustomIngestion.rows_of df = Ingest.rows_of df.
Proof.
  intros Hitems df.
  assert (Hchunks : CustomIngestion.chunks_of df = Ingest.chunks_of df).
  { unfold CustomIngestion.chunks_of, Ingest.chunks_of, Common.chunk_loop.
    apply for_each_ext_in. intros acc row Hrow.
    rewrite chunks_of_row_agrees; [reflexivity|].
    apply in_flat_map in Hrow as (file & Hfile & Hrow).
    apply in_map_iff in Hrow as (item & <- & Hitem).
    destruct (Hitems file item Hfile Hitem) as [_ Hshallow]. exact Hshallow. }
  split; [|split].
  - apply custom_parsed_data_agrees. intros file item Hfile Hitem.
    apply (Hitems file item Hfile Hitem).
  - exact Hchunks.
  - unfold CustomIngestion.rows_of, Ingest.rows_of. now rewrite Hchunks.
Qed.

Lemma variants_agree_on_shallow_pages_witness :
  let load := fun _ : string =>
                [Examples.item_both "T" "https://a" Examples.heading_page] in
  let df := Ingest.parsed_data_of [Examples.docs_file] load in
  CustomIngestion.parsed_data_of [Examples.docs_file] load = Ok df
  /\ CustomIngestion.chunks_of df = Ingest.chunks_of df
  /\ CustomIngestion.rows_of df = Ingest.rows_of df.
Proof.
  intros load. apply (variants_agree_on_shallow_pages [Examples.docs_file] load).
  intros file item _ [<-|[]]. split.
  - eexists. split; vm_compute; reflexivity.
  - vm_compute. reflexivity.
Defined.

(** C5 as stated fails: on a record with a top-level title only, the
    remote variant tags its chunks with that title and the local variant
    with ["N/A"]; on a page with a level-5 heading after a paragraph line,
    the remote variant makes two chunks and the local variant one. *)
Lemma variants_differ :
  (let load := fun _ : string => [Examples.item "T" "https://a" "# A"] in
   exists c c',
     Ingest.chunks_of (Ingest.parsed_data_of [Examples.docs_file] load) = Ok [c]
     /\ (df ← CustomIngestion.parsed_data_of [Examples.docs_file] load;
         CustomIngestion.chunks_of df) = Ok [c']
     /\ Common.chunk_metadata c !! "page_title" = Some (JStr "T")
     /\ Common.chunk_metadata c' !! "page_title" = Some (JStr "N/A"))
  /\ (let load := fun _ : string =>
                    [Examples.item_both "T" "https://a" Examples.deep_inline_page] in
      exists c1 c2 c',
        Ingest.chunks_of (Ingest.parsed_data_of [Examples.docs_file] load)
        = Ok [c1; c2]
        /\ (df ← CustomIngestion.parsed_data_of [Examples.docs_file] load;
            CustomIngestion.chunks_of df) = Ok [c']
        /\ Common.page_content c1 <> Common.page_content c').
Proof.
  split.
  - eexists _, _. split; [vm_compute; reflexivity|].
    split; [vm_compute; reflexivity|]. split; vm_compute; reflexivity.
  - eexists _, _, _. split; [vm_compute; reflexivity|].
    split; [vm_compute; reflexivity|].
    intros H. vm_compute in H. discriminate H.
Qed.

(** * Further properties *)

(** ** [wait_for_index] returns only when the index is listed *)

Lemma wait_from_returned (list_indices : nat -> list string) (index_name : string) :
  forall (fuel k : nat) (w : Common.Waited),
    Common.wait_for_index_from list_indices index_name fuel k = Some w ->
    k < Common.polls w <= k + fuel
    /\ In index_name (list_indices (Common.polls w - 1))
    /\ (forall j, k <= j < Common.polls w - 1 -> ~ In index_name (list_indices j))
    /\ Common.slept w = Common.POLL_INTERVAL * (Common.polls w - 1).
Proof.
  induction fuel as [|fuel IH]; intros k w H; [discriminate H|].
  cbn [Common.wait_for_index_from] in H.
  destruct (negb (Nat.eqb (length (list_indices k)) 0)
            && existsb (fun nm => String.eqb nm index_name) (list_indices k))
    eqn:Hk.
  - injection H as <-. cbn [Common.polls Common.slept].
    replace (S k - 1) with k by lia.
    apply index_listed_spec in Hk.
    split; [lia|]. split; [assumption|]. split; [|reflexivity].
    intros j Hj. lia.
  - apply IH in H as (Hpolls & Hin & Hnot & Hslept).
    split; [lia|]. split; [assumption|]. split; [|assumption].
    intros j Hj Hlisted.
    destruct (Nat.eq_dec j k) as [->|Hne].
    + apply index_listed_spec in Hlisted. congruence.
    + apply (Hnot j); [lia | assumption].
Qed.

(** X1: when [wait_for_index] returns, the name was in the index list of
    its last poll and in none of the earlier ones, and it has slept
    [POLL_INTERVAL] = 10 once per earlier poll. *)
Theorem wait_for_index_returns_only_when_listed
    (list_indices : nat -> list string) (index_name : string)
    (fuel : nat) (w : Common.Waited) :
  Common.wait_for_index list_indices index_name fuel = Some w ->
  1 <= Common.polls w <= fuel
  /\ In index_name (list_indices (Common.polls w - 1))
  /\ (forall j, j < Common.polls w - 1 -> ~ In index_name (list_indices j))
  /\ Common.slept w = 10 * (Common.polls w - 1).
Proof.
  intros H. apply wait_from_returned in H as (Hpolls & Hin & Hnot & Hslept).
  split; [lia|]. split; [assumption|]. split; [|exact Hslept].
  intros j Hj. apply Hnot. lia.
Qed.

Lemma wait_for_index_returns_only_when_listed_witness :
  1 <= 3 <= 5
  /\ In "text_idx" (Examples.index_at_third_poll (3 - 1))
  /\ (forall j, j < 3 - 1 -> ~ In "text_idx" (Examples.index_at_third_poll j))
  /\ 20 = 10 * (3 - 1).
Proof.
  apply (wait_for_index_returns_only_when_listed
           Examples.index_at_third_poll "text_idx" 5 (Common.mkWaited 3 20)).
  reflexivity.
Defined.

(** ** The store calls of [ingest.py]: what a run leaves behind *)

Lemma filter_version_out (old : list Common.Config) :
  List.filter (fun c => String.eqb (Common.key c) Store.version_key)
    (List.filter (fun c => negb (String.eqb (Common.key c) Store.version_key)) old)
  = [].
Proof.
  induction old as [|c old IH]; [reflexivity|]. cbn [List.filter].
  destruct (String.eqb (Common.key c) Store.version_key) eqn:Hc; cbn [negb List.filter].
  - exact IH.
  - rewrite Hc. exact IH.
Qed.

Lemma filter_other_key (k : string) (old : list Common.Config) :
  k <> Store.version_key ->
  List.filter (fun c => String.eqb (Common.key c) k)
    (List.filter (fun c => negb (String.eqb (Common.key c) Store.version_key)) old)
  = List.filter (fun c => String.eqb (Common.key c) k) old.
Proof.
  intros Hk. induction old as [|c old IH]; [reflexivity|]. cbn [List.filter].
  destruct (String.eqb_spec (Common.key c) Store.version_key) as [Hc|Hc];
    cbn [negb List.filter].
  - destruct (String.eqb_spec (Common.key c) k) as [Hck|Hck]; [congruence | exact IH].
  - destruct (String.eqb (Common.key c) k); [f_equal|]; exact IH.
Qed.

Lemma filter_not_version_twice (old : list Common.Config) (today : string) :
  List.filter (fun c => negb (String.eqb (Common.key c) Store.version_key))
    (List.filter (fun c => negb (String.eqb (Common.key c) Store.version_key)) old
     ++ [Common.mkConfig Store.version_key today])
  = List.filter (fun c => negb (String.eqb (Common.key c) Store.version_key)) old.
Proof.
  rewrite List.filter_app. cbn. rewrite app_nil_r.
  induction old as [|c old IH]; [reflexivity|]. cbn [List.filter].
  destruct (negb (String.eqb (Common.key c) Store.version_key)) eqn:Hc; cbn [List.filter].
  - rewrite Hc. f_equal. exact IH.
  - exact IH.
Qed.

(** Unfold the store calls of a script and follow the calls in order,
    splitting on the oracle only where a call is reached. *)
Ltac unfold_store :=
  unfold StoreChecks.run_db, StoreChecks.local_store_script, Store.store_script,
    Store.bind, Store.try_except, Store.ret, Store.lift,
    Store.create_molrag, Store.open_config, Store.create_config,
    Store.delete_version, Store.add_config, Store.table_add,
    Store.create_fts_index, Store.create_index, Store.call;
  cbn [Store.db Store.log Store.molrag Store.config Store.fts_index
       Store.vector_index Store.is_some fst snd negb orb andb].

Lemma stored_field_fits (cast : json -> option string) (v : json) :
  StoreChecks.text_or_null v -> Store.stored_field cast v = v.
Proof. intros [->|(s & ->)]; reflexivity. Qed.

Lemma stored_row_fits (cast : json -> option string) (r : Common.Chunks) :
  StoreChecks.fits_schema r -> Store.stored_row cast r = r.
Proof.
  intros (H1 & H2 & H3 & H4 & H5 & H6 & H7). destruct r as [t md].
  destruct md as [h1 h2 h3 h4 pt src u]. unfold Store.stored_row. cbn in *.
  now rewrite !stored_field_fits.
Qed.

Lemma stored_rows_fit (cast : json -> option string) (rows : list Common.Chunks) :
  List.Forall StoreChecks.fits_schema rows -> map (Store.stored_row cast) rows = rows.
Proof.
  induction 1 as [|r rows Hr _ IH]; [reflexivity|].
  cbn [map]. now rewrite stored_row_fits, IH.
Qed.

(** X2: when no store call fails, the run of [ingest.py] ends with the
    chunk table holding one stored row per new row, in order and whatever
    it held before: the new row itself when its metadata is text or null
    as the schema says, and the row as the store casts it otherwise; both
    indexes are built, and there is exactly one ledger entry under
    [knowledge_version], today's date, which is also what the final query
    retrieves; config rows under other keys are kept. *)
Theorem successful_run_state
    (cast : Store.Cast) (today : string) (chunks : list Common.Chunk)
    (rows : list Common.Chunks) (d : Store.Db) :
  Common.processed_chunks chunks = Ok rows ->
  let run := Store.store_script StoreChecks.never_fails cast today chunks
               (Store.mkWorld d []) in
  snd run = Ok tt
  /\ Store.molrag (Store.db (fst run))
     = Some (map (Store.stored_row (cast rows)) rows)
  /\ (List.Forall StoreChecks.fits_schema rows ->
      Store.molrag (Store.db (fst run)) = Some rows)
  /\ Store.fts_index (Store.db (fst run)) = true
  /\ Store.vector_index (Store.db (fst run)) = true
  /\ Store.knowledge_version (Store.db (fst run)) = [today]
  /\ StoreChecks.retrieved_version (Store.db (fst run)) = Some today
  /\ forall k, k <> Store.version_key ->
               StoreChecks.entries_for k (Store.db (fst run))
               = StoreChecks.entries_for k d.
Proof.
  intros Hrows. destruct d as [mol [old|] fts vec]; unfold_store;
    unfold StoreChecks.never_fails; cbn -[String.eqb]; rewrite Hrows;
    unfold StoreChecks.retrieved_version, Store.knowledge_version,
      StoreChecks.entries_for; cbn -[String.eqb].
  - rewrite List.filter_app, filter_version_out. cbn -[String.eqb].
    rewrite String.eqb_refl. cbn -[String.eqb].
    split; [reflexivity|]. split; [reflexivity|].
    split; [intros Hfit; now rewrite stored_rows_fit|].
    repeat split. intros k Hk. rewrite List.filter_app, filter_other_key by exact Hk.
    cbn -[String.eqb].
    destruct (String.eqb_spec Store.version_key k) as [E|E];
      [congruence | apply app_nil_r].
  - rewrite String.eqb_refl. cbn -[String.eqb].
    split; [reflexivity|]. split; [reflexivity|].
    split; [intros Hfit; now rewrite stored_rows_fit|].
    repeat split. intros k Hk.
    destruct (String.eqb_spec Store.version_key k) as [E|E]; [congruence | reflexivity].
Qed.

Lemma successful_run_state_witness :
  let chunks := Examples.get_ok (Ingest.chunks_of [Examples.numbered_page]) in
  let run := Store.store_script StoreChecks.never_fails Examples.cast "2026-11-04"
               chunks (Store.mkWorld Examples.old_db []) in
  map (fun c => Common.chunk_metadata c !! "page_title") chunks = [Some (JNum 7)]
  /\ snd run = Ok tt
  /\ Store.molrag (Store.db (fst run))
     = Some [{| Common.text := "# A";
                Common.row_metadata :=
                  {| Common.header_1 := JStr "A";
                     Common.header_2 := JNull;
                     Common.header_3 := JNull;
                     Common.header_4 := JNull;
                     Common.page_title := JStr "7";
                     Common.row_source := JStr "Molecule Documentation";
                     Common.row_url := JStr "https://a" |} |}]
  /\ Store.knowledge_version (Store.db (fst run)) = ["2026-11-04"]
  /\ StoreChecks.retrieved_version (Store.db (fst run)) = Some "2026-11-04".
Proof.
  intros chunks run.
  destruct (successful_run_state Examples.cast "2026-11-04" chunks
              (Examples.get_ok (Common.processed_chunks chunks)) Examples.old_db)
    as (Hrun & Hmol & _ & _ & _ & Hversion & Hquery & _).
  - vm_compute. reflexivity.
  - unfold run. split; [vm_compute; reflexivity|]. split; [exact Hrun|].
    split; [rewrite Hmol; vm_compute; reflexivity|].
    split; [exact Hversion | exact Hquery].
Defined.

(** X3: re-running the store calls of [ingest.py] on the same chunks and
    the same day changes nothing: when no call fails, the database after
    two runs equals the database after one. *)
Theorem rerun_is_idempotent
    (cast : Store.Cast) (today : string) (chunks : list Common.Chunk)
    (rows : list Common.Chunks) (d : Store.Db) :
  Common.processed_chunks chunks = Ok rows ->
  StoreChecks.run_db StoreChecks.never_fails cast today chunks
    (StoreChecks.run_db StoreChecks.never_fails cast today chunks d)
  = StoreChecks.run_db StoreChecks.never_fails cast today chunks d.
Proof.
  intros Hrows. destruct d as [mol [old|] fts vec]; unfold_store;
    unfold StoreChecks.never_fails; cbn -[String.eqb]; rewrite Hrows;
    cbn -[String.eqb].
  - now rewrite filter_not_version_twice.
  - rewrite String.eqb_refl. reflexivity.
Qed.

Lemma rerun_is_idempotent_witness :
  StoreChecks.run_db StoreChecks.never_fails Examples.cast "2026-11-04" []
    (StoreChecks.run_db StoreChecks.never_fails Examples.cast "2026-11-04" []
       Examples.old_db)
  = StoreChecks.run_db StoreChecks.never_fails Examples.cast "2026-11-04" []
      Examples.old_db.
Proof.
  apply (rerun_is_idempotent Examples.cast "2026-11-04" [] [] Examples.old_db).
  reflexivity.
Defined.

(** X4: a failing [config_table.delete] is swallowed.  When only that
    call fails, the run still completes, the ledger keeps its old entries
    and gets today's after them, and the final query retrieves the first
    of them: with an old entry present that is the old date, not
    today's. *)
Theorem failed_delete_keeps_old_version
    (cast : Store.Cast) (today : string) (chunks : list Common.Chunk)
    (rows : list Common.Chunks)
    (mol : option (list Common.Chunks)) (old : list Common.Config) (fts vec : bool) :
  Common.processed_chunks chunks = Ok rows ->
  let d := Store.mkDb mol (Some old) fts vec in
  let run := Store.store_script (StoreChecks.only_fails Store.DeleteVersion) cast
               today chunks (Store.mkWorld d []) in
  snd run = Ok tt
  /\ Store.knowledge_version (Store.db (fst run))
     = Store.knowledge_version d ++ [today]
  /\ StoreChecks.retrieved_version (Store.db (fst run))
     = match Store.knowledge_version d with
       | [] => Some today
       | v :: _ => Some v
       end.
Proof.
  intros Hrows. unfold_store. unfold StoreChecks.only_fails.
  rewrite (bool_decide_eq_true_2 (Store.DeleteVersion = Store.DeleteVersion))
    by reflexivity.
  rewrite !bool_decide_eq_false_2 by discriminate.
  cbn -[String.eqb]. rewrite Hrows.
  unfold StoreChecks.retrieved_version, Store.knowledge_version. cbn -[String.eqb].
  rewrite List.filter_app, map_app. cbn -[String.eqb].
  rewrite String.eqb_refl. cbn -[String.eqb].
  split; [reflexivity|]. split; [reflexivity|].
  destruct (map Common.value _); reflexivity.
Qed.

Lemma failed_delete_keeps_old_version_witness :
  let run := Store.store_script (StoreChecks.only_fails Store.DeleteVersion)
               Examples.cast "2026-11-04" [] (Store.mkWorld Examples.old_db []) in
  snd run = Ok tt
  /\ Store.knowledge_version (Store.db (fst run)) = ["2020-01-01"; "2026-11-04"]
  /\ StoreChecks.retrieved_version (Store.db (fst run)) = Some "2020-01-01".
Proof.
  apply (failed_delete_keeps_old_version Examples.cast "2026-11-04" [] [] None
           [Common.mkConfig Store.version_key "2020-01-01"] false false).
  reflexivity.
Defined.

Ltac follow_script fails :=
  repeat match goal with
         | |- context [fails ?op] =>
             let H := fresh "Hcall" in
             destruct (fails op) eqn:H; cbn -[String.eqb]
         | |- context [Common.processed_chunks ?cs] =>
             let H := fresh "Hrows" in
             destruct (Common.processed_chunks cs) eqn:H; cbn -[String.eqb]
         end.

(** X5: the store calls of [ingest.py] never touch config rows under
    other keys.  Whatever calls fail, the rows of the config table under a
    key other than [knowledge_version] are after the run what they were
    before it. *)
Theorem other_config_keys_untouched
    (fails : Store.StoreOp -> bool) (cast : Store.Cast) (today : string)
    (chunks : list Common.Chunk) (d : Store.Db) (k : string) :
  k <> Store.version_key ->
  StoreChecks.entries_for k (StoreChecks.run_db fails cast today chunks d)
  = StoreChecks.entries_for k d.
Proof.
  intros Hk.
  assert (Hnew : String.eqb Store.version_key k = false)
    by (apply String.eqb_neq; congruence).
  destruct d as [mol [old|] fts vec]; unfold_store; cbn -[String.eqb];
    follow_script fails;
    unfold StoreChecks.entries_for; cbn -[String.eqb];
    rewrite ?List.filter_app, ?filter_other_key by exact Hk;
    cbn -[String.eqb]; rewrite ?Hnew, ?app_nil_r; reflexivity.
Qed.

Lemma other_config_keys_untouched_witness :
  StoreChecks.entries_for "schema_version"
    (StoreChecks.run_db Examples.add_chunks_fails Examples.cast "2026-11-04" []
       (Store.mkDb None
          (Some [Common.mkConfig "schema_version" "3";
                 Common.mkConfig Store.version_key "2020-01-01"])
          false false))
  = [Common.mkConfig "schema_version" "3"].
Proof.
  apply (other_config_keys_untouched Examples.add_chunks_fails Examples.cast
           "2026-11-04" []
           (Store.mkDb None
              (Some [Common.mkConfig "schema_version" "3";
                     Common.mkConfig Store.version_key "2020-01-01"])
              false false)
           "schema_version").
  discriminate.
Defined.

(** X6: which failures end the run of [ingest.py].  The store calls
    complete exactly when the chunk table can be created, the config table
    can be opened or, being absent, created, the ledger entry, the rows
    and the two indexes can be added, and the rows can be prepared; a
    failure of [config_table.delete] does not matter. *)
Theorem run_completes_iff
    (fails : Store.StoreOp -> bool) (cast : Store.Cast) (today : string)
    (chunks : list Common.Chunk) (d : Store.Db) :
  snd (Store.store_script fails cast today chunks (Store.mkWorld d [])) = Ok tt
  <-> (fails Store.CreateMolrag = false
       /\ StoreChecks.config_step_ok fails d = true
       /\ fails Store.AddVersion = false
       /\ (exists rows, Common.processed_chunks chunks = Ok rows)
       /\ fails Store.AddChunks = false
       /\ fails Store.CreateFtsIndex = false
       /\ fails Store.CreateIndex = false).
Proof.
  unfold StoreChecks.config_step_ok.
  destruct d as [mol [old|] fts vec]; unfold_store; cbn -[String.eqb];
    follow_script fails;
    (split;
     [ intros H; try discriminate H; repeat split; eauto
     | intros (H1 & H2 & H3 & (rows & H4) & H5 & H6 & H7);
       cbn in H2; rewrite ?H1, ?H3, ?H5, ?H6, ?H7 in *;
       try discriminate; try congruence;
       repeat match goal with
              | Hc : fails ?op = true, Hn : negb (fails ?op) = true |- _ =>
                  rewrite Hc in Hn; discriminate Hn
              end;
       try reflexivity ]).
Qed.

(** X7: the store calls of [custom-ingestion.py] have no ledger.  Whatever
    calls fail, the config table is after the run what it was before; and
    when the run completes, the chunk table holds one stored row per
    prepared row, in order (the prepared row itself when its metadata is
    text or null as the schema says), and both indexes are built. *)
Theorem local_run_has_no_ledger
    (fails : Store.StoreOp -> bool) (cast : Store.Cast)
    (chunks : list Common.Chunk) (d : Store.Db) :
  let run := StoreChecks.local_store_script fails cast chunks (Store.mkWorld d []) in
  Store.config (Store.db (fst run)) = Store.config d
  /\ Store.knowledge_version (Store.db (fst run)) = Store.knowledge_version d
  /\ (snd run = Ok tt ->
      exists rows,
        Common.processed_chunks chunks = Ok rows
        /\ Store.molrag (Store.db (fst run))
           = Some (map (Store.stored_row (cast rows)) rows)
        /\ (List.Forall StoreChecks.fits_schema rows ->
            Store.molrag (Store.db (fst run)) = Some rows)
        /\ Store.fts_index (Store.db (fst run)) = true
        /\ Store.vector_index (Store.db (fst run)) = true).
Proof.
  destruct d as [mol cfg fts vec]; unfold_store; cbn -[String.eqb];
    follow_script fails;
    (split; [reflexivity|]; split; [reflexivity|]; intros H; try discriminate H).
  all: eexists; split; [reflexivity|]; split; [reflexivity|];
    split; [|split; reflexivity].
  all: intros Hfit; now rewrite stored_rows_fit.
Qed.

Lemma local_run_has_no_ledger_witness :
  let chunks :=
    Examples.get_ok
      (CustomIngestion.chunks_of [Examples.page "T" "https://a" Examples.heading_page]) in
  let run := StoreChecks.local_store_script StoreChecks.never_fails Examples.cast
               chunks (Store.mkWorld Examples.old_db []) in
  exists rows,
    Common.processed_chunks chunks = Ok rows
    /\ Store.molrag (Store.db (fst run))
       = Some (map (Store.stored_row (Examples.cast rows)) rows)
    /\ (List.Forall StoreChecks.fits_schema rows ->
        Store.molrag (Store.db (fst run)) = Some rows)
    /\ Store.fts_index (Store.db (fst run)) = true
    /\ Store.vector_index (Store.db (fst run)) = true.
Proof.
  intros chunks.
  apply (proj2 (proj2 (local_run_has_no_ledger StoreChecks.never_fails Examples.cast
                         chunks Examples.old_db))).
  vm_compute. reflexivity.
Defined.

Lemma run_completes_iff_witness :
  snd (Store.store_script (StoreChecks.only_fails Store.DeleteVersion) Examples.cast
         "2026-11-04" [] (Store.mkWorld Examples.old_db []))
  = Ok tt.
Proof.
  apply (proj2 (run_completes_iff (StoreChecks.only_fails Store.DeleteVersion)
                  Examples.cast "2026-11-04" [] Examples.old_db)).
  repeat split; try reflexivity. exists []. reflexivity.
Defined.

(** ** Where chunks and rows come from *)

Lemma chunk_loop_origin (sp : Langchain.MarkdownHeaderTextSplitter)
    (df : list Common.ParsedItem) (cs : list Common.Chunk) :
  Common.chunk_loop sp df [] = Ok cs ->
  List.Forall
    (fun c => exists page cs_page,
         In page df /\ Common.chunks_of_row sp page = Ok cs_page /\ In c cs_page)
    cs.
Proof.
  revert cs. induction df as [|row df IH]; intros cs H.
  - injection H as <-. constructor.
  - rewrite chunk_loop_cons in H.
    apply bind_ok_inv in H as (b & Hb & H).
    apply bind_ok_inv in H as (rest & Hrest & H). injection H as <-.
    apply List.Forall_app. split.
    + apply List.Forall_forall. intros c Hc. exists row, b.
      split; [now left|]. split; assumption.
    + eapply List.Forall_impl; [|apply (IH rest Hrest)].
      intros c (page & cs_page & Hin & Hpage & Hc). exists page, cs_page.
      split; [now right|]. split; assumption.
Qed.

Lemma processed_chunks_inv (cs : list Common.Chunk) (rows : list Common.Chunks) :
  Common.processed_chunks cs = Ok rows ->
  List.Forall2 (fun c r => Common.processed_chunk c = Ok r) cs rows.
Proof.
  revert rows. induction cs as [|c cs IH]; intros rows H.
  - injection H as <-. constructor.
  - rewrite processed_chunks_cons in H.
    apply bind_ok_inv in H as (r & Hr & H).
    apply bind_ok_inv in H as (rest & Hrest & H). injection H as <-.
    constructor; [assumption | apply IH, Hrest].
Qed.

Lemma Forall2_in_right {A B : Type} (R : A -> B -> Prop)
    (xs : list A) (ys : list B) (y : B) :
  List.Forall2 R xs ys -> In y ys -> exists x, In x xs /\ R x y.
Proof.
  induction 1 as [|x y' xs ys Hxy _ IH]; intros Hin; [destruct Hin|].
  destruct Hin as [->|Hin].
  - exists x. split; [now left | assumption].
  - destruct (IH Hin) as (x' & Hx' & Hr). exists x'. split; [now right | assumption].
Qed.

Lemma rows_origin (sp : Langchain.MarkdownHeaderTextSplitter)
    (df : list Common.ParsedItem) (rows : list Common.Chunks) :
  (cs ← Common.chunk_loop sp df []; Common.processed_chunks cs) = Ok rows ->
  List.Forall
    (fun r => exists page cs_page c,
         In page df
         /\ Common.chunks_of_row sp page = Ok cs_page
         /\ In c cs_page
         /\ Common.processed_chunk c = Ok r
         /\ Common.text r = Common.page_content c
         /\ Common.page_title (Common.row_metadata r) = Common.title page
         /\ Common.row_url (Common.row_metadata r) = Common.url (Common.metadata page)
         /\ Common.row_source (Common.row_metadata r)
            = JStr (Common.source (Common.metadata page)))
    rows.
Proof.
  intros H. apply bind_ok_inv in H as (cs & Hcs & Hrows).
  apply processed_chunks_inv in Hrows. apply chunk_loop_origin in Hcs.
  apply List.Forall_forall. intros r Hr.
  destruct (Forall2_in_right _ _ _ _ Hrows Hr) as (c & Hc & Hcr).
  eapply List.Forall_forall in Hcs as (page & cs_page & Hpage & Hcs_page & Hin);
    [|exact Hc].
  exists page, cs_page, c. do 4 (split; [assumption|]).
  rewrite chunks_of_row_splits in Hcs_page.
  apply bind_ok_inv in Hcs_page as (splits & _ & Hmap). injection Hmap as <-.
  apply in_map_iff in Hin as (split & <- & _).
  destruct (processed_chunk_tagged page split) as (r' & Hr' & Ht & Hpt & Hu & Hs).
  assert (r' = r) by congruence. subst r'. repeat split; assumption.
Qed.

(** X8: every stored row comes from one chunk of one page of the run, in
    both variants: its text is that chunk's text and its [page_title],
    [url] and [source] are those of the page, whatever headings the chunk
    is under. *)
Theorem rows_come_from_pages
    (df : list Common.ParsedItem) (rows : list Common.Chunks) :
  (Ingest.rows_of df = Ok rows ->
   List.Forall
     (fun r => exists page cs_page c,
          In page df
          /\ Common.chunks_of_row Ingest.markdown_splitter page = Ok cs_page
          /\ In c cs_page
          /\ Common.processed_chunk c = Ok r
          /\ Common.text r = Common.page_content c
          /\ Common.page_title (Common.row_metadata r) = Common.title page
          /\ Common.row_url (Common.row_metadata r) = Common.url (Common.metadata page)
          /\ Common.row_source (Common.row_metadata r)
             = JStr (Common.source (Common.metadata page)))
     rows)
  /\ (CustomIngestion.rows_of df = Ok rows ->
      List.Forall
        (fun r => exists page cs_page c,
             In page df
             /\ Common.chunks_of_row CustomIngestion.markdown_splitter page = Ok cs_page
             /\ In c cs_page
             /\ Common.processed_chunk c = Ok r
             /\ Common.text r = Common.page_content c
             /\ Common.page_title (Common.row_metadata r) = Common.title page
             /\ Common.row_url (Common.row_metadata r)
                = Common.url (Common.metadata page)
             /\ Common.row_source (Common.row_metadata r)
                = JStr (Common.source (Common.metadata page)))
        rows).
Proof. split; apply rows_origin. Qed.

Lemma rows_come_from_pages_witness :
  let df := [Examples.page "T" "https://a" Examples.heading_page] in
  List.Forall
    (fun r => exists page cs_page c,
         In page df
         /\ Common.chunks_of_row Ingest.markdown_splitter page = Ok cs_page
         /\ In c cs_page
         /\ Common.processed_chunk c = Ok r
         /\ Common.text r = Common.page_content c
         /\ Common.page_title (Common.row_metadata r) = Common.title page
         /\ Common.row_url (Common.row_metadata r) = Common.url (Common.metadata page)
         /\ Common.row_source (Common.row_metadata r)
            = JStr (Common.source (Common.metadata page)))
    (Examples.get_ok (Ingest.rows_of df)).
Proof.
  intros df. apply (proj1 (rows_come_from_pages df (Examples.get_ok (Ingest.rows_of df)))).
  vm_compute. reflexivity.
Defined.

(** X9: in a run of [ingest.py] over its three files, every row handed
    to [table.add] belongs to a record of one of the files: its [source]
    is the label that [files] gives to that file (never a [source] field
    of the record), its [url] is the record's [url] or ["N/A"], and its
    [page_title] is the record's [title] or [""] as the frame holds it:
    the title itself when it is text, and otherwise what pandas makes of
    it in the title column of the run. *)
Theorem rows_come_from_records
    (infer : Pandas.Inference) (load : string -> list Common.record)
    (rows : list Common.Chunks) :
  Ingest.rows_of (Pandas.DataFrame infer (Ingest.parsed_data load)) = Ok rows ->
  List.Forall
    (fun r => exists file item,
         In file Ingest.files
         /\ In item (load (Common.path file))
         /\ Common.row_source (Common.row_metadata r)
            = JStr (Common.file_source file)
         /\ In (Common.file_source file)
              ["Molecule Documentation"; "Molecule Blog"; "DeSci.Codes"]
         /\ Common.row_url (Common.row_metadata r)
            = Common.dict_get "url" (JStr "N/A") item
         /\ Common.page_title (Common.row_metadata r)
            = Pandas.cell infer (map Common.title (Ingest.parsed_data load))
                (Common.dict_get "title" (JStr "") item)
         /\ (forall s, Common.dict_get "title" (JStr "") item = JStr s ->
                       Common.page_title (Common.row_metadata r) = JStr s))
    rows.
Proof.
  intros H. apply rows_origin in H.
  eapply List.Forall_impl; [|exact H]. cbn beta.
  intros r (page & cs_page & c & Hpage & _ & _ & _ & _ & Hpt & Hu & Hs).
  unfold Pandas.DataFrame in Hpage.
  apply in_map_iff in Hpage as (entry & <- & Hentry).
  unfold Ingest.parsed_data, Ingest.parsed_data_of in Hentry.
  apply in_flat_map in Hentry as (file & Hfile & Hentry).
  apply in_map_iff in Hentry as (item & <- & Hitem).
  cbn [Pandas.row Common.title Common.metadata Common.url Common.source
       Ingest.parse_item] in Hpt, Hu, Hs.
  exists file, item. split; [assumption|]. split; [assumption|].
  split; [exact Hs|]. split.
  { cbn in Hfile. destruct Hfile as [<-|[<-|[<-|[]]]]; cbn; tauto. }
  split; [exact Hu|]. split; [exact Hpt|].
  intros s Htitle. rewrite Hpt, Htitle. reflexivity.
Qed.

Lemma rows_come_from_records_witness :
  let load := Examples.load_docs
                [[("source", JStr "Molecule Docs"); ("title", JNum 7);
                  ("markdown", JStr "# A")];
                 [("title", JNull); ("markdown", JStr "# B")]] in
  let rows :=
    Examples.get_ok
      (Ingest.rows_of (Pandas.DataFrame Examples.infer (Ingest.parsed_data load))) in
  map (fun r => Common.page_title (Common.row_metadata r)) rows
  = [JFloat (Examples.float_of_int 7); JFloat SpecFloat.S754_nan]
  /\ List.Forall
       (fun r => exists file item,
            In file Ingest.files
            /\ In item (load (Common.path file))
            /\ Common.row_source (Common.row_metadata r)
               = JStr (Common.file_source file)
            /\ In (Common.file_source file)
                 ["Molecule Documentation"; "Molecule Blog"; "DeSci.Codes"]
            /\ Common.row_url (Common.row_metadata r)
               = Common.dict_get "url" (JStr "N/A") item
            /\ Common.page_title (Common.row_metadata r)
               = Pandas.cell Examples.infer
                   (map Common.title (Ingest.parsed_data load))
                   (Common.dict_get "title" (JStr "") item)
            /\ (forall s, Common.dict_get "title" (JStr "") item = JStr s ->
                          Common.page_title (Common.row_metadata r) = JStr s))
       rows.
Proof.
  intros load rows. split; [vm_compute; reflexivity|].
  apply (rows_come_from_records Examples.infer load rows).
  vm_compute. reflexivity.
Defined.

(** ** Titles in [custom-ingestion.py] *)

Lemma for_each_raises {A S : Type} (body : S -> A -> result S) (e : exn)
    (xs : list A) (acc : S) :
  (forall a x, In x xs -> (exists a', body a x = Ok a') \/ body a x = Raise e) ->
  (exists x, In x xs /\ forall a, body a x = Raise e) ->
  for_each body xs acc = Raise e.
Proof.
  revert acc. induction xs as [|x xs IH]; intros acc Hbody (bad & Hin & Hbad).
  - destruct Hin.
  - cbn [for_each].
    destruct (Hbody acc x (or_introl eq_refl)) as [(a' & Ha')|Hraise].
    + rewrite Ha'. cbn [mbind result_bind].
      destruct Hin as [->|Hin]; [rewrite Hbad in Ha'; discriminate Ha'|].
      apply IH; [|eauto]. intros a y Hy. apply Hbody. now right.
    + now rewrite Hraise.
Qed.

Lemma custom_parse_item_cases (file : Common.FileEntry) (item : Common.record) :
  (exists p, CustomIngestion.parse_item file item = Ok p)
  \/ CustomIngestion.parse_item file item = Raise AttributeError.
Proof.
  unfold CustomIngestion.parse_item, CustomIngestion.get_title.
  destruct (Common.dict_get "metadata" (JObj []) item); cbn; eauto.
Qed.

Lemma custom_items_loop_cases (file : Common.FileEntry) (items : list Common.record)
    (parsed : list Common.ParsedItem) :
  (exists out,
      for_each
        (fun parsed item => p ← CustomIngestion.parse_item file item; Ok (parsed ++ [p]))
        items parsed = Ok out)
  \/ for_each
       (fun parsed item => p ← CustomIngestion.parse_item file item; Ok (parsed ++ [p]))
       items parsed = Raise AttributeError.
Proof.
  revert parsed. induction items as [|item items IH]; intros parsed; cbn [for_each].
  - left. eauto.
  - destruct (custom_parse_item_cases file item) as [(p & ->)| ->];
      cbn [mbind result_bind]; [apply IH | now right].
Qed.

(** X10: [custom-ingestion.py] reads the title under [metadata] only.  A
    record whose [metadata] is absent or an object gets [metadata.title],
    or ["N/A"] when that is absent, whatever its top-level [title] is; a
    record whose [metadata] is anything else makes the parsing loop raise
    [AttributeError], so that a single such record in any file leaves the
    run without pages. *)
Theorem custom_title_lookup
    (fs : list Common.FileEntry) (load : string -> list Common.record) :
  (forall file item fields,
      Common.dict_get "metadata" (JObj []) item = JObj fields ->
      exists p,
        CustomIngestion.parse_item file item = Ok p
        /\ Common.title p = Common.dict_get "title" (JStr "N/A") fields
        /\ Common.content p = Common.content (Ingest.parse_item file item)
        /\ Common.metadata p = Common.metadata (Ingest.parse_item file item))
  /\ ((exists file item,
          In file fs /\ In item (load (Common.path file))
          /\ forall fields, Common.dict_get "metadata" (JObj []) item <> JObj fields) ->
      CustomIngestion.parsed_data_of fs load = Raise AttributeError).
Proof.
  split.
  - intros file item fields Hmeta.
    unfold CustomIngestion.parse_item, CustomIngestion.get_title. rewrite Hmeta.
    cbn [mbind result_bind]. eexists. split; [reflexivity|]. repeat split.
  - intros (file & item & Hfile & Hitem & Hbad).
    unfold CustomIngestion.parsed_data_of.
    apply for_each_raises.
    + intros parsed f _. destruct (custom_items_loop_cases f (load (Common.path f)) parsed)
        as [(out & ->)| ->]; eauto.
    + exists file. split; [assumption|]. intros parsed.
      apply for_each_raises.
      * intros a x _. destruct (custom_parse_item_cases file x) as [(p & ->)| ->];
          cbn [mbind result_bind]; eauto.
      * exists item. split; [assumption|]. intros a.
        unfold CustomIngestion.parse_item, CustomIngestion.get_title.
        destruct (Common.dict_get "metadata" (JObj []) item) eqn:Hm;
          cbn [mbind result_bind]; try reflexivity.
        now destruct (Hbad fields).
Qed.

Lemma custom_title_lookup_witness :
  (exists p,
      CustomIngestion.parse_item Examples.docs_file
        [("title", JStr "Top"); ("metadata", JObj [("depth", JNum 2)])] = Ok p
      /\ Common.title p = JStr "N/A")
  /\ CustomIngestion.parsed_data_of [Examples.docs_file]
       (fun _ => [Examples.item_both "T" "https://a" "# A";
                  [("metadata", JStr "none"); ("markdown", JStr "# B")]])
     = Raise AttributeError.
Proof.
  split.
  - destruct (proj1 (custom_title_lookup [] (fun _ => [])) Examples.docs_file
                [("title", JStr "Top"); ("metadata", JObj [("depth", JNum 2)])]
                [("depth", JNum 2)] eq_refl) as (p & Hp & Ht & _).
    exists p. split; [exact Hp | exact Ht].
  - apply (proj2 (custom_title_lookup [Examples.docs_file]
                    (fun _ => [Examples.item_both "T" "https://a" "# A";
                               [("metadata", JStr "none"); ("markdown", JStr "# B")]]))).
    exists Examples.docs_file, [("metadata", JStr "none"); ("markdown", JStr "# B")].
    split; [now left|]. split; [right; now left|].
    intros fields H. discriminate H.
Defined.

(** ** The chunk loop, page by page *)

(** X11: the chunk list of a run is the concatenation, in page order, of
    the chunk lists of its pages, and the run returns exactly when every
    page can be chunked: one page that cannot ends the run. *)
Theorem chunk_loop_page_by_page
    (df : list Common.ParsedItem) (cs : list Common.Chunk) :
  Ingest.chunks_of df = Ok cs
  <-> exists per_page,
        List.Forall2
          (fun page l => Common.chunks_of_row Ingest.markdown_splitter page = Ok l)
          df per_page
        /\ cs = concat per_page.
Proof.
  unfold Ingest.chunks_of. revert cs. induction df as [|page df IH]; intros cs.
  - split.
    + intros H. injection H as <-. exists []. split; [constructor | reflexivity].
    + intros (per_page & Hall & ->). inversion Hall. reflexivity.
  - rewrite chunk_loop_cons. split.
    + intros H. apply bind_ok_inv in H as (b & Hb & H).
      apply bind_ok_inv in H as (rest & Hrest & H). injection H as <-.
      apply IH in Hrest as (per_page & Hall & ->).
      exists (b :: per_page). split; [now constructor | reflexivity].
    + intros (per_page & Hall & ->). inversion Hall as [|? l ? ls Hl Hls]; subst.
      rewrite Hl. cbn [mbind result_bind].
      rewrite (proj2 (IH (concat ls))) by eauto. reflexivity.
Qed.

Lemma chunk_loop_page_by_page_witness :
  let df := [Examples.page "T" "https://a" Examples.heading_page;
             Examples.page "U" "https://b" ""] in
  exists per_page,
    List.Forall2
      (fun page l => Common.chunks_of_row Ingest.markdown_splitter page = Ok l)
      df per_page
    /\ Examples.get_ok (Ingest.chunks_of df) = concat per_page.
Proof.
  intros df. apply (proj1 (chunk_loop_page_by_page df _)).
  vm_compute. reflexivity.
Defined.

(** ** The markdown splitter never raises *)

Lemma str_app_assoc (a b c : string) : ((a +:+ b) +:+ c = a +:+ (b +:+ c))%string.
Proof.
  induction a as [|x a IH].
  - reflexivity.
  - change (String x ((a +:+ b) +:+ c) = String x (a +:+ (b +:+ c)))%string.
    now rewrite IH.
Qed.

Lemma split_lines_nonempty (s : string) : PyStr.split_lines s <> [].
Proof.
  destruct s as [|c s]; cbn [PyStr.split_lines]; [discriminate|].
  destruct (Ascii.eqb c PyStr.nl); [discriminate|].
  destruct (PyStr.split_lines s); discriminate.
Qed.

Lemma split_lines_app_nl (a b : string) :
  PyStr.split_lines (a +:+ String PyStr.nl b)%string
  = PyStr.split_lines a ++ PyStr.split_lines b.
Proof.
  induction a as [|c a IH].
  - change (PyStr.split_lines (String PyStr.nl b) = [""] ++ PyStr.split_lines b).
    cbn [PyStr.split_lines]. now rewrite Ascii.eqb_refl.
  - change (PyStr.split_lines (String c (a +:+ String PyStr.nl b))
            = PyStr.split_lines (String c a) ++ PyStr.split_lines b).
    cbn [PyStr.split_lines]. destruct (Ascii.eqb c PyStr.nl).
    + now rewrite IH.
    + rewrite IH. pose proof (split_lines_nonempty a) as Ha.
      destruct (PyStr.split_lines a); [now destruct Ha | reflexivity].
Qed.

Lemma split_lines_no_nl (s : string) :
  SplitInv.no_nl s = true -> PyStr.split_lines s = [s].
Proof.
  induction s as [|c s IH]; [reflexivity|]. cbn [SplitInv.no_nl PyStr.split_lines].
  intros H. apply andb_true_iff in H as [Hc Hs]. apply negb_true_iff in Hc.
  rewrite Hc, (IH Hs). reflexivity.
Qed.

Lemma split_lines_join (cur : list string) :
  cur <> [] -> forallb SplitInv.no_nl cur = true ->
  PyStr.split_lines (PyStr.join PyStr.newline cur) = cur.
Proof.
  induction cur as [|p cur IH]; intros Hne Hall; [now destruct Hne|].
  cbn [forallb] in Hall. apply andb_true_iff in Hall as [Hp Hcur].
  destruct cur as [|q cur].
  - cbn [PyStr.join]. now apply split_lines_no_nl.
  - change (PyStr.join PyStr.newline (p :: q :: cur))
      with (p +:+ String PyStr.nl (PyStr.join PyStr.newline (q :: cur)))%string.
    rewrite split_lines_app_nl, (split_lines_no_nl p Hp), IH by (discriminate || assumption).
    reflexivity.
Qed.

Lemma last_default {A : Type} (l : list A) (d d' : A) :
  l <> [] -> List.last l d = List.last l d'.
Proof.
  induction l as [|x l IH]; intros Hne; [now destruct Hne|].
  destruct l as [|y l]; [reflexivity|]. cbn [List.last] in *. apply IH. discriminate.
Qed.

Lemma last_app_right {A : Type} (l1 l2 : list A) (d : A) :
  l2 <> [] -> List.last (l1 ++ l2) d = List.last l2 d.
Proof.
  intros Hne. induction l1 as [|x l1 IH]; [reflexivity|].
  cbn [app List.last]. destruct (l1 ++ l2) eqn:E; [|exact IH].
  apply app_eq_nil in E as [_ E]. now destruct Hne.
Qed.

Lemma get_first_nonempty (s : string) : s <> "" -> String.get 0 s <> None.
Proof. destruct s; [congruence | discriminate]. Qed.

Lemma join_ends_in_text (cur : list string) :
  cur <> [] -> forallb SplitInv.no_nl cur = true -> List.last cur "x" <> "" ->
  SplitInv.ends_in_text (PyStr.join PyStr.newline cur).
Proof.
  intros Hne Hall Hlast. unfold SplitInv.ends_in_text.
  rewrite split_lines_join by assumption.
  apply get_first_nonempty. now rewrite (last_default cur "" "x").
Qed.

Lemma merged_ends_in_text (a b : string) :
  SplitInv.ends_in_text b ->
  SplitInv.ends_in_text (a +:+ Langchain.two_spaces_newline +:+ b)%string.
Proof.
  unfold SplitInv.ends_in_text. intros Hb.
  change (a +:+ Langchain.two_spaces_newline +:+ b)%string
    with (a +:+ ("  " +:+ String PyStr.nl b))%string.
  rewrite <- str_app_assoc, split_lines_app_nl.
  rewrite last_app_right by apply split_lines_nonempty. exact Hb.
Qed.

Lemma flush_ok (lines : list Langchain.LineType) (cur : list string)
    (meta : gmap string string) :
  List.Forall (fun l => SplitInv.ends_in_text (Langchain.content l)) lines ->
  forallb SplitInv.no_nl cur = true -> List.last cur "x" <> "" ->
  List.Forall (fun l => SplitInv.ends_in_text (Langchain.content l))
    (Langchain.flush lines cur meta).
Proof.
  intros Hlines Hall Hlast. unfold Langchain.flush.
  destruct cur as [|p cur]; [assumption|].
  apply List.Forall_app. split; [assumption|]. constructor; [|constructor].
  cbn [Langchain.content]. apply join_ends_in_text; [discriminate | assumption..].
Qed.

Lemma filter_printable_no_nl (s : string) :
  SplitInv.no_nl (PyStr.filter PyStr.isprintable s) = true.
Proof.
  induction s as [|c s IH]; [reflexivity|]. cbn [PyStr.filter].
  destruct (PyStr.isprintable c) eqn:Hc; [|exact IH].
  cbn [SplitInv.no_nl]. rewrite IH, andb_true_r. apply negb_true_iff.
  destruct (Ascii.eqb_spec c PyStr.nl) as [->|]; [|reflexivity].
  vm_compute in Hc. discriminate Hc.
Qed.

Lemma prefix_first (c : ascii) (p s : string) :
  String.prefix (String c p) s = true -> exists r, s = String c r.
Proof.
  destruct s as [|b s]; cbn [String.prefix]; [discriminate|].
  destruct (Ascii.ascii_dec c b) as [->|]; [eauto | discriminate].
Qed.

Lemma prefix_trans_first (c : ascii) (sep s : string) :
  String.prefix (String c "") sep = true -> String.prefix sep s = true ->
  exists r, s = String c r.
Proof.
  intros H1 H2. apply prefix_first in H1 as (r & ->).
  apply prefix_first in H2. exact H2.
Qed.

Lemma match_header_hash (sp : Langchain.MarkdownHeaderTextSplitter)
    (s sep nm : string) :
  SplitInv.hash_headers sp ->
  Langchain.match_header s (Langchain.headers_to_split_on sp) = Some (sep, nm) ->
  exists r, s = String "#" r.
Proof.
  unfold SplitInv.hash_headers.
  induction 1 as [|[sep' nm'] hs Hsep _ IH]; cbn [Langchain.match_header];
    [discriminate|].
  destruct (Langchain.is_header_line s sep') eqn:Hline; [|exact IH].
  intros _. unfold Langchain.is_header_line in Hline.
  apply andb_true_iff in Hline as [Hstart _].
  exact (prefix_trans_first _ _ _ Hsep Hstart).
Qed.

Lemma fence_not_hash (f s : string) :
  SplitInv.is_fence f -> PyStr.startswith s f = true ->
  s <> "" /\ forall r, s <> String "#" r.
Proof.
  intros [->| ->] H; apply prefix_first in H as (r & ->); split; discriminate.
Qed.

Lemma forallb_no_nl_app (cur : list string) (s : string) :
  forallb SplitInv.no_nl cur = true -> SplitInv.no_nl s = true ->
  forallb SplitInv.no_nl (cur ++ [s]) = true.
Proof.
  intros Hcur Hs. rewrite forallb_app, Hcur. cbn. now rewrite Hs.
Qed.

Lemma last_snoc {A : Type} (l : list A) (x d : A) : List.last (l ++ [x]) d = x.
Proof. rewrite last_app_right by discriminate. reflexivity. Qed.

Lemma nonempty_neqb (s : string) : s <> "" -> negb (String.eqb s "") = true.
Proof. intros H. apply negb_true_iff, String.eqb_neq, H. Qed.

(** One line keeps [lines_ok]. *)
Lemma step_line_lines_ok (sp : Langchain.MarkdownHeaderTextSplitter)
    (st : Langchain.SplitState) (line : string) :
  SplitInv.hash_headers sp -> SplitInv.lines_ok st ->
  SplitInv.lines_ok (Langchain.step_line sp st line).
Proof.
  intros Hhash (K1 & K2 & K3 & K4). unfold Langchain.step_line.
  set (s := PyStr.filter PyStr.isprintable (PyStr.strip line)).
  assert (Hs : SplitInv.no_nl s = true) by apply filter_printable_no_nl.
  assert (Hcode_branch : forall fence,
             SplitInv.is_fence fence ->
             SplitInv.lines_ok
               {| Langchain.lines_with_metadata := Langchain.lines_with_metadata st;
                  Langchain.current_content := Langchain.current_content st ++ [s];
                  Langchain.current_metadata := Langchain.current_metadata st;
                  Langchain.header_stack := Langchain.header_stack st;
                  Langchain.initial_metadata := Langchain.initial_metadata st;
                  Langchain.in_code_block := true;
                  Langchain.opening_fence := fence |}).
  { intros fence Hfence. split; [exact K1|]. split; [now apply forallb_no_nl_app|].
    split; [discriminate | intros _; exact Hfence]. }
  assert (Happend : forall fence,
             s <> "" ->
             SplitInv.lines_ok
               {| Langchain.lines_with_metadata := Langchain.lines_with_metadata st;
                  Langchain.current_content := Langchain.current_content st ++ [s];
                  Langchain.current_metadata := Langchain.initial_metadata st;
                  Langchain.header_stack := Langchain.header_stack st;
                  Langchain.initial_metadata := Langchain.initial_metadata st;
                  Langchain.in_code_block := false;
                  Langchain.opening_fence := fence |}).
  { intros fence Hne. split; [exact K1|]. split; [now apply forallb_no_nl_app|].
    split; [intros _; cbn [Langchain.current_content]; now rewrite last_snoc
          | discriminate]. }
  destruct (Langchain.in_code_block st) eqn:Hcode; cbn [negb].
  - specialize (K4 eq_refl).
    destruct (PyStr.startswith s (Langchain.opening_fence st)) eqn:Hclose;
      [|apply Hcode_branch, K4].
    destruct (fence_not_hash _ _ K4 Hclose) as [Hne Hnothash].
    destruct (Langchain.match_header s (Langchain.headers_to_split_on sp))
      as [[sep nm]|] eqn:Hm.
    + apply (match_header_hash sp) in Hm as (r & Hr); [|exact Hhash].
      now destruct (Hnothash r).
    + rewrite (nonempty_neqb s Hne). apply Happend, Hne.
  - specialize (K3 eq_refl).
    destruct (PyStr.startswith s Langchain.fence_backticks
              && (PyStr.count s Langchain.fence_backticks =? 1)%nat);
      [apply Hcode_branch; now left|].
    destruct (PyStr.startswith s Langchain.fence_tildes);
      [apply Hcode_branch; now right|].
    destruct (Langchain.match_header s (Langchain.headers_to_split_on sp))
      as [[sep nm]|] eqn:Hm.
    + apply (match_header_hash sp) in Hm as (r & Hr); [|exact Hhash].
      destruct (Langchain.pop_headers _ _ _) as [stack meta].
      split; [apply flush_ok; assumption|].
      cbn [Langchain.current_content Langchain.in_code_block].
      destruct (Langchain.strip_headers sp); cbn [forallb List.last].
      * split; [reflexivity|]. split; [discriminate | discriminate].
      * rewrite Hs. split; [reflexivity|].
        split; [intros _; rewrite Hr; discriminate | discriminate].
    + destruct (negb (String.eqb s "")) eqn:Hempty.
      * apply Happend. apply negb_true_iff, String.eqb_neq in Hempty. exact Hempty.
      * split; [apply flush_ok; assumption|].
        split; [reflexivity|]. split; [discriminate | discriminate].
Qed.

Lemma fold_step_line_lines_ok (sp : Langchain.MarkdownHeaderTextSplitter)
    (lines : list string) (st : Langchain.SplitState) :
  SplitInv.hash_headers sp -> SplitInv.lines_ok st ->
  SplitInv.lines_ok (fold_left (Langchain.step_line sp) lines st).
Proof.
  intros Hhash. revert st. induction lines as [|l lines IH]; intros st Hst; cbn.
  - assumption.
  - apply IH, step_line_lines_ok; assumption.
Qed.

Lemma init_state_lines_ok : SplitInv.lines_ok Langchain.init_state.
Proof. split; [constructor|]. split; [reflexivity|]. split; discriminate. Qed.

Lemma aggregate_step_ok (sp : Langchain.MarkdownHeaderTextSplitter)
    (agg : list Langchain.LineType) (line : Langchain.LineType) :
  AggregateInv.head_ok agg ->
  exists agg',
    Langchain.aggregate_step sp agg line = Ok agg'
    /\ (SplitInv.ends_in_text (Langchain.content line) -> AggregateInv.head_ok agg').
Proof.
  intros Hhead. unfold Langchain.aggregate_step.
  destruct agg as [|lst older]; [eexists; split; [reflexivity | auto]|].
  cbn [AggregateInv.head_ok] in Hhead.
  destruct (bool_decide _).
  { eexists. split; [reflexivity|]. intros Hline. cbn.
    now apply merged_ends_in_text. }
  destruct (size (Langchain.line_metadata lst) <? size (Langchain.line_metadata line))%nat;
    [|eexists; split; [reflexivity | auto]].
  unfold Langchain.last_line_is_header. unfold SplitInv.ends_in_text in Hhead.
  destruct (String.get 0 _) as [ch|]; [|now destruct Hhead].
  cbn [mbind result_bind].
  destruct (Ascii.eqb ch "#" && negb (Langchain.strip_headers sp)).
  - eexists. split; [reflexivity|]. intros Hline. cbn.
    now apply merged_ends_in_text.
  - eexists. split; [reflexivity | auto].
Qed.

Lemma aggregate_loop_ok (sp : Langchain.MarkdownHeaderTextSplitter)
    (lines agg : list Langchain.LineType) :
  List.Forall (fun l => SplitInv.ends_in_text (Langchain.content l)) lines ->
  AggregateInv.head_ok agg ->
  exists agg',
    for_each (Langchain.aggregate_step sp) lines agg = Ok agg'
    /\ AggregateInv.head_ok agg'.
Proof.
  intros Hlines. revert agg.
  induction Hlines as [|l lines Hl _ IH]; intros agg Hagg; cbn [for_each]; [eauto|].
  destruct (aggregate_step_ok sp agg l Hagg) as (agg1 & -> & Hagg1).
  cbn [mbind result_bind]. apply IH, Hagg1, Hl.
Qed.

Lemma aggregate_total (sp : Langchain.MarkdownHeaderTextSplitter)
    (lines : list Langchain.LineType) (final : list Langchain.LineType) :
  List.Forall (fun l => SplitInv.ends_in_text (Langchain.content l)) lines ->
  length final <= 1 ->
  exists docs, Langchain.aggregate_lines_to_chunks sp (lines ++ final) = Ok docs.
Proof.
  intros Hlines Hfinal. unfold Langchain.aggregate_lines_to_chunks.
  rewrite for_each_app.
  destruct (aggregate_loop_ok sp lines [] Hlines I) as (agg & -> & Hagg).
  cbn [mbind result_bind].
  destruct final as [|x [|y final]]; cbn [for_each]; [eauto | | cbn in Hfinal; lia].
  destruct (aggregate_step_ok sp agg x Hagg) as (agg' & -> & _).
  cbn [mbind result_bind]. eauto.
Qed.

(** [split_text] of a markdown splitter whose separators start with ["#"]
    returns for every text. *)
Lemma md_split_text_total (sp : Langchain.MarkdownHeaderTextSplitter) (text : string) :
  SplitInv.hash_headers sp ->
  exists docs, Langchain.md_split_text sp text = Ok docs.
Proof.
  intros Hhash. unfold Langchain.md_split_text.
  pose proof (fold_step_line_lines_ok sp (PyStr.split_lines text) _ Hhash
                init_state_lines_ok) as (K1 & _ & _ & _).
  set (st := fold_left (Langchain.step_line sp) (PyStr.split_lines text)
               Langchain.init_state) in *.
  destruct (negb (Langchain.return_each_line sp)); [|eauto].
  unfold Langchain.flush. destruct (Langchain.current_content st) as [|p cur].
  - rewrite <- (app_nil_r (Langchain.lines_with_metadata st)).
    apply aggregate_total; [assumption | cbn; lia].
  - apply aggregate_total; [assumption | cbn; lia].
Qed.

Lemma ingest_hash_headers : SplitInv.hash_headers Ingest.markdown_splitter.
Proof. unfold SplitInv.hash_headers. rewrite ingest_headers_sorted. repeat constructor. Qed.

Lemma custom_hash_headers : SplitInv.hash_headers CustomIngestion.markdown_splitter.
Proof. unfold SplitInv.hash_headers. rewrite custom_headers_sorted. repeat constructor. Qed.

Lemma chunks_of_row_cases (sp : Langchain.MarkdownHeaderTextSplitter)
    (row : Common.ParsedItem) :
  SplitInv.hash_headers sp ->
  (SplitInv.is_text (Common.content row) ->
   exists cs, Common.chunks_of_row sp row = Ok cs)
  /\ (~ SplitInv.is_text (Common.content row) ->
      Common.chunks_of_row sp row = Raise AttributeError).
Proof.
  intros Hhash. unfold Common.chunks_of_row. split.
  - intros (s & ->). cbn [Common.split_content].
    destruct (md_split_text_total sp s Hhash) as (md & ->). cbn [mbind result_bind].
    destruct (split_documents_ok Common.text_splitter) with (documents := md)
      as (out & -> & _).
    + vm_compute. discriminate.
    + vm_compute. reflexivity.
    + apply text_splitter_separators.
    + cbn [mbind result_bind]. eauto.
  - intros Hnot. rewrite split_content_not_text; [reflexivity|].
    intros s Hs. apply Hnot. now exists s.
Qed.

Lemma chunk_loop_cases (sp : Langchain.MarkdownHeaderTextSplitter)
    (df : list Common.ParsedItem) :
  SplitInv.hash_headers sp ->
  (List.Forall (fun p => SplitInv.is_text (Common.content p)) df ->
   exists cs, Common.chunk_loop sp df [] = Ok cs)
  /\ (List.Exists (fun p => ~ SplitInv.is_text (Common.content p)) df ->
      Common.chunk_loop sp df [] = Raise AttributeError).
Proof.
  intros Hhash. split.
  - induction 1 as [|p df Hp _ (rest & IH)]; [now exists []|].
    rewrite chunk_loop_cons.
    destruct (proj1 (chunks_of_row_cases sp p Hhash) Hp) as (b & ->).
    rewrite IH. cbn [mbind result_bind]. eauto.
  - intros Hbad. unfold Common.chunk_loop. apply for_each_raises.
    + intros acc p _.
      destruct (Common.content p) as [| | | |s| |] eqn:Hc;
        try (right; rewrite (proj2 (chunks_of_row_cases sp p Hhash));
             [reflexivity | rewrite Hc; intros (s' & Hs'); discriminate Hs']).
      left. destruct (proj1 (chunks_of_row_cases sp p Hhash)) as (b & ->);
        [rewrite Hc; now exists s | cbn [mbind result_bind]; eauto].
    + apply List.Exists_exists in Hbad as (p & Hin & Hp). exists p.
      split; [assumption|]. intros acc.
      now rewrite (proj2 (chunks_of_row_cases sp p Hhash) Hp).
Qed.

(** C8: chunking is deterministic.  The chunks that a page contributes
    are fixed by its markdown: for a page whose content is text there is
    one list of splits such that in every run that contains the page,
    whatever pages come before and after it and whatever pandas makes of
    the other cells of the frame, the row of the page gives exactly these
    splits, in this order, with these texts and heading paths, and the
    chunk list of the run has them between the chunks of the rows before
    and the chunks of the rows after. *)
Theorem chunking_deterministic (page : Common.ParsedItem) (md : string) :
  Common.content page = JStr md ->
  exists splits : list Langchain.Document,
    forall (infer : Pandas.Inference) (before after : list Common.ParsedItem),
      let row := Pandas.row infer (before ++ page :: after) in
      let cs := map (Common.tag_split (row page)) splits in
      Common.chunks_of_row Ingest.markdown_splitter (row page) = Ok cs
      /\ map Common.page_content cs = map Langchain.page_content splits
      /\ map Reading.heading_path cs
         = map (fun s => Reading.heading_path
                           (Common.mkChunk (Langchain.page_content s)
                              (JStr <$> Langchain.metadata s)))
             splits
      /\ forall run,
          Ingest.chunks_of (Pandas.DataFrame infer (before ++ page :: after)) = Ok run ->
          exists a c,
            Ingest.chunks_of (map row before) = Ok a
            /\ Ingest.chunks_of (map row after) = Ok c
            /\ run = a ++ cs ++ c.
Proof.
  intros Hmd.
  destruct (proj1 (chunks_of_row_cases Ingest.markdown_splitter page ingest_hash_headers))
    as (cs0 & Hcs0); [now exists md|].
  rewrite chunks_of_row_splits in Hcs0.
  apply bind_ok_inv in Hcs0 as (splits & Hsplits & _).
  exists splits. intros infer before after row cs.
  assert (Hrow : Common.chunks_of_row Ingest.markdown_splitter (row page) = Ok cs).
  { rewrite chunks_of_row_splits.
    replace (Common.content (row page)) with (Common.content page).
    - now rewrite Hsplits.
    - unfold row, Pandas.row. cbn [Common.content]. now rewrite Hmd. }
  split; [exact Hrow|]. split; [apply tag_split_text|]. split.
  { unfold cs. rewrite map_map. apply map_ext. intros s.
    apply heading_path_tag_split. }
  intros run Hrun. rewrite DataFrame_middle in Hrun. fold row in Hrun.
  apply chunk_loop_middle in Hrun as (a & cs' & c & Ha & Hcs' & Hc & ->).
  exists a, c. split; [exact Ha|]. split; [exact Hc|]. congruence.
Qed.

Lemma chunking_deterministic_witness :
  exists splits : list Langchain.Document,
    forall (infer : Pandas.Inference) (before after : list Common.ParsedItem),
      let page := Examples.page "T" "https://a" Examples.heading_page in
      let row := Pandas.row infer (before ++ page :: after) in
      let cs := map (Common.tag_split (row page)) splits in
      Common.chunks_of_row Ingest.markdown_splitter (row page) = Ok cs
      /\ map Common.page_content cs = map Langchain.page_content splits
      /\ map Reading.heading_path cs
         = map (fun s => Reading.heading_path
                           (Common.mkChunk (Langchain.page_content s)
                              (JStr <$> Langchain.metadata s)))
             splits
      /\ forall run,
          Ingest.chunks_of (Pandas.DataFrame infer (before ++ page :: after)) = Ok run ->
          exists a c,
            Ingest.chunks_of (map row before) = Ok a
            /\ Ingest.chunks_of (map row after) = Ok c
            /\ run = a ++ cs ++ c.
Proof.
  apply (chunking_deterministic
           (Examples.page "T" "https://a" Examples.heading_page)
           Examples.heading_page).
  reflexivity.
Defined.

(** X12: in both variants the chunk loop fails only on markdown that is
    not text.  When the content of every page is a string the loop returns
    a chunk list, whatever the text is; when some page has another value
    as content the loop raises [AttributeError]. *)
Theorem chunk_loop_fails_only_on_non_text (df : list Common.ParsedItem) :
  (List.Forall (fun p => SplitInv.is_text (Common.content p)) df ->
   (exists cs, Ingest.chunks_of df = Ok cs)
   /\ (exists cs, CustomIngestion.chunks_of df = Ok cs))
  /\ (List.Exists (fun p => ~ SplitInv.is_text (Common.content p)) df ->
      Ingest.chunks_of df = Raise AttributeError
      /\ CustomIngestion.chunks_of df = Raise AttributeError).
Proof.
  unfold Ingest.chunks_of, CustomIngestion.chunks_of. split; intros H; split.
  - apply (chunk_loop_cases _ df ingest_hash_headers), H.
  - apply (chunk_loop_cases _ df custom_hash_headers), H.
  - apply (chunk_loop_cases _ df ingest_hash_headers), H.
  - apply (chunk_loop_cases _ df custom_hash_headers), H.
Qed.

Lemma chunk_loop_fails_only_on_non_text_witness :
  ((exists cs,
       Ingest.chunks_of [Examples.page "T" "https://a" Examples.open_fence_page]
       = Ok cs)
   /\ (exists cs,
          CustomIngestion.chunks_of
            [Examples.page "T" "https://a" Examples.open_fence_page]
          = Ok cs))
  /\ (Ingest.chunks_of
        [Ingest.parse_item Examples.docs_file Examples.null_markdown_item]
      = Raise AttributeError
      /\ CustomIngestion.chunks_of
           [Ingest.parse_item Examples.docs_file Examples.null_markdown_item]
         = Raise AttributeError).
Proof.
  split.
  - apply (proj1 (chunk_loop_fails_only_on_non_text
                    [Examples.page "T" "https://a" Examples.open_fence_page])).
    constructor; [|constructor]. eexists. reflexivity.
  - apply (proj2 (chunk_loop_fails_only_on_non_text
                    [Ingest.parse_item Examples.docs_file Examples.null_markdown_item])).
    constructor. intros (s & Hs). discriminate Hs.
Defined.

(** ** The export loop of [crawl_docs.py] *)

Lemma NoDup_snoc {A : Type} (l : list A) (x : A) :
  List.NoDup l -> ~ In x l -> List.NoDup (l ++ [x]).
Proof.
  intros Hl Hx. apply List.NoDup_app; [assumption | repeat constructor; intros [] | ].
  intros y Hy [<-|[]]. exact (Hx Hy).
Qed.

Section DocsLoop.
Variable hash : option string -> Z.
Variable extract_title : option string -> string.

Lemma docs_loop_spec (results : list Crawl.CrawlResult) :
  forall st st',
    for_each (Crawl.docs_step hash extract_title) results st = Ok st' ->
    Crawl.docs_ok hash st ->
    Crawl.docs_ok hash st'
    /\ (exists added,
           fst st' = fst st ++ added
           /\ sublist (map Crawl.page_key added) (map Crawl.result_key results))
    /\ (forall r, In r results -> hash (Crawl.markdown r) ∈ snd st')
    /\ (forall h, h ∈ snd st -> h ∈ snd st').
Proof.
  induction results as [|r results IH]; intros st st' Hrun Hst; cbn [for_each] in Hrun.
  - injection Hrun as <-. split; [assumption|]. split.
    + exists []. rewrite app_nil_r. split; [reflexivity | constructor].
    + split; [intros r [] | auto].
  - apply bind_ok_inv in Hrun as (st1 & Hstep & Hrun).
    destruct st as [pages seen]. unfold Crawl.docs_step in Hstep.
    destruct (bool_decide (hash (Crawl.markdown r) ∈ seen)) eqn:Hseen.
    + injection Hstep as <-. apply bool_decide_eq_true_1 in Hseen.
      destruct (IH _ _ Hrun Hst) as (Hok & (added & Hadd & Hsub) & Hcov & Hmono).
      split; [assumption|]. split.
      * exists added. split; [assumption|]. cbn [map]. now constructor.
      * split; [|assumption]. intros r' [<-|Hr']; [apply Hmono, Hseen | apply Hcov, Hr'].
    + apply bool_decide_eq_false_1 in Hseen.
      apply bind_ok_inv in Hstep as (t & _ & Hstep). injection Hstep as <-.
      destruct Hst as [Hmem Hnodup]. cbn [fst snd] in *.
      assert (Hst1 : Crawl.docs_ok hash
                       (pages ++ [Crawl.mkPageData t (Crawl.url r) (Crawl.markdown r)
                                    "Molecule Docs"],
                        {[hash (Crawl.markdown r)]} ∪ seen)).
      { split; cbn [fst snd]; rewrite map_app; cbn [map Crawl.page_markdown].
        - intros h. rewrite elem_of_union, elem_of_singleton, in_app_iff, Hmem.
          cbn [In]. split.
          + intros [->|H]; [right; now left | now left].
          + intros [H|[<-|[]]]; [now right | now left].
        - apply NoDup_snoc; [assumption|]. intros Hin. apply Hseen, Hmem, Hin. }
      destruct (IH _ _ Hrun Hst1) as (Hok & (added & Hadd & Hsub) & Hcov & Hmono).
      cbn [fst snd] in *. split; [assumption|]. split.
      * eexists (_ :: added). rewrite Hadd, <- app_assoc. split; [reflexivity|].
        cbn [map]. now constructor.
      * split.
        -- intros r' [<-|Hr']; [|apply Hcov, Hr'].
           apply Hmono, elem_of_union. left. now apply elem_of_singleton.
        -- intros h Hh. apply Hmono, elem_of_union. now right.
Qed.

End DocsLoop.

(** X13: the export loop of [crawl_docs.py] keeps one page per markdown
    hash, the first one found.  When the loop returns, no two exported
    pages have the same hash, hence none the same markdown; the exported
    pages are results of the crawl in crawl order, the first result among
    them; and every result has an exported page with its hash.  Two
    results with different markdown and the same hash count as
    duplicates. *)
Theorem docs_export_dedups
    (hash : option string -> Z) (extract_title : option string -> string)
    (results : list Crawl.CrawlResult) (pages : list Crawl.PageData) :
  Crawl.docs_pages hash extract_title results = Ok pages ->
  List.NoDup (map (fun p => hash (Crawl.page_markdown p)) pages)
  /\ List.NoDup (map Crawl.page_markdown pages)
  /\ sublist (map Crawl.page_key pages) (map Crawl.result_key results)
  /\ (forall r, In r results ->
                exists p, In p pages
                          /\ hash (Crawl.page_markdown p) = hash (Crawl.markdown r))
  /\ (forall r rest, results = r :: rest ->
                     exists p pages', pages = p :: pages'
                                      /\ Crawl.page_key p = Crawl.result_key r).
Proof.
  unfold Crawl.docs_pages. intros H.
  apply bind_ok_inv in H as ([pages' seen] & Hrun & H). injection H as <-.
  assert (Hinit : Crawl.docs_ok hash ([], ∅)).
  { split; [|constructor]. intros h. cbn. set_solver. }
  destruct (docs_loop_spec hash extract_title results _ _ Hrun Hinit)
    as ((Hmem & Hnodup) & (added & Hadd & Hsub) & Hcov & _).
  cbn [fst snd] in *. subst pages'. cbn [app] in *.
  split; [exact Hnodup|]. split.
  { apply (List.NoDup_map_inv hash). now rewrite map_map. }
  split; [exact Hsub|]. split.
  - intros r Hr. apply Hcov, Hmem, in_map_iff in Hr as (p & Hp & Hin). eauto.
  - intros r rest ->. cbn [for_each] in Hrun.
    apply bind_ok_inv in Hrun as (st1 & Hstep & Hrun).
    unfold Crawl.docs_step in Hstep.
    rewrite bool_decide_eq_false_2 in Hstep by set_solver.
    apply bind_ok_inv in Hstep as (t & _ & Hstep). injection Hstep as <-.
    assert (Hst1 : Crawl.docs_ok hash
                     ([] ++ [Crawl.mkPageData t (Crawl.url r) (Crawl.markdown r)
                               "Molecule Docs"],
                      {[hash (Crawl.markdown r)]} ∪ ∅)).
    { split; [|repeat constructor; intros []]. intros h.
      cbn [fst snd app map In Crawl.page_markdown].
      rewrite elem_of_union, elem_of_singleton. split.
      - intros [->|H]; [now left | now apply not_elem_of_empty in H].
      - intros [<-|[]]. now left. }
    destruct (docs_loop_spec hash extract_title rest _ _ Hrun Hst1)
      as (_ & (added' & Hadd' & _) & _).
    cbn [fst snd app] in Hadd'. eexists _, _. split; [exact Hadd' | reflexivity].
Qed.

Lemma docs_export_dedups_witness :
  let pages := Examples.get_ok
                 (Crawl.docs_pages CrawlExamples.length_hash CrawlExamples.no_title
                    CrawlExamples.docs_results) in
  map Crawl.page_url pages = ["https://a"; "https://c"]
  /\ List.NoDup (map Crawl.page_markdown pages)
  /\ sublist (map Crawl.page_key pages)
       (map Crawl.result_key CrawlExamples.docs_results).
Proof.
  intros pages.
  destruct (docs_export_dedups CrawlExamples.length_hash CrawlExamples.no_title
              CrawlExamples.docs_results pages) as (_ & Hnodup & Hsub & _).
  - vm_compute. reflexivity.
  - split; [vm_compute; reflexivity|]. split; assumption.
Defined.

(** ** The export loop of [crawl_blog.py] *)

Section BlogLoop.
Variable hash : option string -> Z.
Variable url_data : string -> option Common.record.

Lemma blog_loop_spec (results : list Crawl.CrawlResult) :
  forall st st',
    for_each (Crawl.blog_step hash url_data) results st = Ok st' ->
    Crawl.blog_ok hash st ->
    Crawl.blog_ok hash st'
    /\ exists added,
        fst st' = fst st ++ added
        /\ sublist (map Crawl.page_key added)
             (map Crawl.result_key (List.filter Crawl.success results))
        /\ map Crawl.page_key
             (List.filter (fun p => negb (Crawl.truthy (Crawl.page_markdown p))) added)
           = map Crawl.result_key
               (List.filter
                  (fun r => Crawl.success r && negb (Crawl.truthy (Crawl.markdown r)))
                  results).
Proof.
  induction results as [|r results IH]; intros st st' Hrun Hst; cbn [for_each] in Hrun.
  - injection Hrun as <-. split; [assumption|].
    exists []. rewrite app_nil_r. split; [reflexivity|]. split; [constructor | reflexivity].
  - apply bind_ok_inv in Hrun as (st1 & Hstep & Hrun).
    destruct st as [pages seen]. unfold Crawl.blog_step in Hstep.
    cbn [List.filter]. destruct (Crawl.success r) eqn:Hsuccess; cbn [negb andb] in *.
    2:{ injection Hstep as <-. exact (IH _ _ Hrun Hst). }
    destruct (Crawl.truthy (Crawl.markdown r)) eqn:Htruthy; cbn [negb andb] in *.
    + destruct (bool_decide (hash (Crawl.markdown r) ∈ seen)) eqn:Hseen.
      * injection Hstep as <-.
        destruct (IH _ _ Hrun Hst) as (Hok & added & Hadd & Hsub & Hempty).
        split; [assumption|]. exists added. split; [assumption|].
        split; [cbn [map]; now constructor | assumption].
      * apply bool_decide_eq_false_1 in Hseen.
        apply bind_ok_inv in Hstep as (t & _ & Hstep). injection Hstep as <-.
        destruct Hst as [Hmem Hnodup]. cbn [fst snd] in *.
        set (p := Crawl.mkPageData (JStr t) (Crawl.url r) (Crawl.markdown r)
                    "Molecule Blog") in *.
        assert (Hst1 : Crawl.blog_ok hash
                         (pages ++ [p], {[hash (Crawl.markdown r)]} ∪ seen)).
        { split; cbn [fst snd]; rewrite List.filter_app, map_app;
            cbn [List.filter Crawl.page_markdown p]; rewrite Htruthy;
            cbn [map Crawl.page_markdown].
          - intros h. rewrite elem_of_union, elem_of_singleton, in_app_iff, Hmem.
            cbn [In]. split.
            + intros [->|H]; [right; now left | now left].
            + intros [H|[<-|[]]]; [now right | now left].
          - apply NoDup_snoc; [assumption|]. intros Hin. apply Hseen, Hmem, Hin. }
        destruct (IH _ _ Hrun Hst1) as (Hok & added & Hadd & Hsub & Hempty).
        cbn [fst snd] in *. split; [assumption|].
        exists (p :: added). rewrite Hadd, <- app_assoc. split; [reflexivity|].
        split; [cbn [map]; now constructor|].
        cbn [List.filter Crawl.page_markdown p]. rewrite Htruthy. exact Hempty.
    + apply bind_ok_inv in Hstep as (t & _ & Hstep). injection Hstep as <-.
      destruct Hst as [Hmem Hnodup]. cbn [fst snd] in *.
      set (p := Crawl.mkPageData (JStr t) (Crawl.url r) (Crawl.markdown r)
                  "Molecule Blog") in *.
      assert (Hst1 : Crawl.blog_ok hash (pages ++ [p], seen)).
      { split; cbn [fst snd]; rewrite List.filter_app;
          cbn [List.filter Crawl.page_markdown p]; rewrite Htruthy, app_nil_r;
          assumption. }
      destruct (IH _ _ Hrun Hst1) as (Hok & added & Hadd & Hsub & Hempty).
      cbn [fst snd] in *. split; [assumption|].
      exists (p :: added). rewrite Hadd, <- app_assoc. split; [reflexivity|].
      split; [cbn [map]; now constructor|].
      cbn [List.filter Crawl.page_markdown p]. rewrite Htruthy. cbn [negb map].
      now rewrite Hempty.
Qed.

End BlogLoop.

(** X14: the export loop of [crawl_blog.py] drops failed results and
    repeated markdown, but never a page without markdown.  When the loop
    returns, the exported pages are successful results in crawl order; no
    two exported pages with markdown have the same hash, hence none the
    same markdown; and every successful result whose markdown is empty or
    missing is exported, however many there are. *)
Theorem blog_export_dedups
    (hash : option string -> Z) (url_data : string -> option Common.record)
    (results : list Crawl.CrawlResult) (pages : list Crawl.PageData) :
  Crawl.blog_pages hash url_data results = Ok pages ->
  sublist (map Crawl.page_key pages)
    (map Crawl.result_key (List.filter Crawl.success results))
  /\ List.NoDup
       (map (fun p => hash (Crawl.page_markdown p))
          (List.filter (fun p => Crawl.truthy (Crawl.page_markdown p)) pages))
  /\ List.NoDup
       (map Crawl.page_markdown
          (List.filter (fun p => Crawl.truthy (Crawl.page_markdown p)) pages))
  /\ map Crawl.page_key
       (List.filter (fun p => negb (Crawl.truthy (Crawl.page_markdown p))) pages)
     = map Crawl.result_key
         (List.filter
            (fun r => Crawl.success r && negb (Crawl.truthy (Crawl.markdown r)))
            results).
Proof.
  unfold Crawl.blog_pages. intros H.
  apply bind_ok_inv in H as ([pages' seen] & Hrun & H). injection H as <-.
  assert (Hinit : Crawl.blog_ok hash ([], ∅)).
  { split; [|constructor]. intros h. cbn [fst snd List.filter map In]. split.
    - intros Hh. now apply not_elem_of_empty in Hh.
    - intros []. }
  destruct (blog_loop_spec hash url_data results _ _ Hrun Hinit)
    as ((_ & Hnodup) & added & Hadd & Hsub & Hempty).
  cbn [fst snd app] in *. subst pages'.
  split; [exact Hsub|]. split; [exact Hnodup|]. split; [|exact Hempty].
  apply (List.NoDup_map_inv hash). now rewrite map_map.
Qed.

Lemma blog_export_dedups_witness :
  let pages := Examples.get_ok
                 (Crawl.blog_pages CrawlExamples.length_hash CrawlExamples.no_seeder
                    CrawlExamples.blog_results) in
  map Crawl.page_url pages = ["https://b"; "https://c"; "https://d"]
  /\ map Crawl.title pages = [JStr "Page"; JStr "Page"; JStr "Page"]
  /\ sublist (map Crawl.page_key pages)
       (map Crawl.result_key (List.filter Crawl.success CrawlExamples.blog_results)).
Proof.
  intros pages.
  destruct (blog_export_dedups CrawlExamples.length_hash CrawlExamples.no_seeder
              CrawlExamples.blog_results pages) as (Hsub & _).
  - vm_compute. reflexivity.
  - split; [vm_compute; reflexivity|]. split; [vm_compute; reflexivity | assumption].
Defined.

(** ** The url exclusion of [crawl_blog.py] *)

Lemma prefix_trans (p q s : string) :
  String.prefix p q = true -> String.prefix q s = true -> String.prefix p s = true.
Proof.
  revert q s. induction p as [|a p IH]; intros q s Hpq Hqs; [now destruct s|].
  destruct q as [|b q]; [discriminate Hpq|].
  destruct s as [|c s]; [discriminate Hqs|].
  cbn [String.prefix] in *.
  destruct (Ascii.ascii_dec a b) as [->|]; [|discriminate Hpq].
  destruct (Ascii.ascii_dec b c) as [->|]; [|discriminate Hqs].
  eapply IH; eassumption.
Qed.

Lemma contains_prefix (u p q : string) :
  String.prefix p q = true -> PyStr.contains u q = true -> PyStr.contains u p = true.
Proof.
  intros Hpq. induction u as [|c u IH]; cbn [PyStr.contains]; [discriminate|].
  intros H. apply orb_true_iff in H as [H|H]; apply orb_true_iff.
  - left. eapply prefix_trans; eassumption.
  - right. apply IH, H.
Qed.

Lemma exclude_loop (url_list filtered excluded : list string) :
  fold_left Crawl.exclude_step url_list (filtered, excluded)
  = (filtered
     ++ List.filter
          (fun u => negb (Crawl.should_exclude Crawl.url_exclusion_patterns u)) url_list,
     excluded
     ++ List.filter (Crawl.should_exclude Crawl.url_exclusion_patterns) url_list).
Proof.
  revert filtered excluded.
  induction url_list as [|u url_list IH]; intros filtered excluded;
    cbn [fold_left List.filter].
  - now rewrite !app_nil_r.
  - unfold Crawl.exclude_step at 2.
    destruct (Crawl.should_exclude Crawl.url_exclusion_patterns u);
      cbn [negb]; rewrite IH, <- app_assoc; reflexivity.
Qed.

(** X15: the exclusion loop of [crawl_blog.py] keeps a url exactly when
    none of the patterns occurs in it.  Both lists keep the crawl order,
    every url lands in exactly one of them, and the three longer
    [desci-berlin] patterns change nothing: any url they match contains
    ["desci-berlin"], which is a pattern of its own. *)
Theorem url_exclusion_partition (url_list : list string) :
  fst (Crawl.filter_urls url_list)
  = List.filter (fun u => negb (Crawl.should_exclude Crawl.url_exclusion_patterns u))
      url_list
  /\ snd (Crawl.filter_urls url_list)
     = List.filter (Crawl.should_exclude Crawl.url_exclusion_patterns) url_list
  /\ length (fst (Crawl.filter_urls url_list))
     + length (snd (Crawl.filter_urls url_list)) = length url_list
  /\ (forall u,
         In u (fst (Crawl.filter_urls url_list)) <->
         In u url_list
         /\ forall pattern, In pattern Crawl.url_exclusion_patterns ->
                            PyStr.contains u pattern = false)
  /\ (forall u,
         Crawl.should_exclude Crawl.url_exclusion_patterns u
         = Crawl.should_exclude
             ["gamifying-longevity-increasing-participation-accelerating-breakthroughs";
              "vitalik-buterin-on-decentralized-science-aging-ai-and-scientific-progress";
              "exploring-decentralized-science-with-balaji-srinivasan-on-the-desci-podcast";
              "desci-berlin"] u).
Proof.
  unfold Crawl.filter_urls. rewrite exclude_loop. cbn [fst snd app].
  split; [reflexivity|]. split; [reflexivity|]. split; [|split].
  - induction url_list as [|u l IH]; [reflexivity|]. cbn [List.filter].
    destruct (Crawl.should_exclude _ u); cbn [negb length]; lia.
  - intros u. rewrite filter_In, negb_true_iff. unfold Crawl.should_exclude. split.
    + intros [Hin Hnone]. split; [assumption|]. intros pattern Hp.
      destruct (PyStr.contains u pattern) eqn:Hc; [|reflexivity].
      assert (existsb (fun pattern => PyStr.contains u pattern)
                Crawl.url_exclusion_patterns = true) as Hex
        by (apply existsb_exists; eauto).
      congruence.
    + intros [Hin Hnone]. split; [assumption|].
      destruct (existsb _ _) eqn:Hex; [|reflexivity].
      apply existsb_exists in Hex as (pattern & Hp & Hc).
      rewrite (Hnone pattern Hp) in Hc. discriminate Hc.
  - intros u. unfold Crawl.should_exclude, Crawl.url_exclusion_patterns.
    cbn [existsb].
    destruct (PyStr.contains u "desci-berlin") eqn:Hb.
    + now rewrite !orb_true_r.
    + assert (Hlong : forall q, String.prefix "desci-berlin" q = true ->
                                PyStr.contains u q = false).
      { intros q Hq. destruct (PyStr.contains u q) eqn:Hc; [|reflexivity].
        rewrite (contains_prefix u _ _ Hq Hc) in Hb. discriminate Hb. }
      rewrite (Hlong "desci-berlin-2025-bigger-busier-bolder" eq_refl),
        (Hlong "desci-berlin-2023" eq_refl),
        (Hlong "desci-berlin-2024-recap" eq_refl).
      now rewrite !orb_false_r.
Qed.

Lemma url_exclusion_partition_witness :
  In "https://www.molecule.to/blog/ip-nfts"
    (fst (Crawl.filter_urls
            ["https://www.molecule.to/blog/desci-berlin-2023";
             "https://www.molecule.to/blog/ip-nfts"])).
Proof.
  apply (proj1 (proj2 (proj2 (proj2 (url_exclusion_partition
           ["https://www.molecule.to/blog/desci-berlin-2023";
            "https://www.molecule.to/blog/ip-nfts"])))) _).
  split; [right; now left|].
  intros pattern Hp. cbn in Hp.
  repeat (destruct Hp as [<-|Hp]; [vm_compute; reflexivity|]). destruct Hp.
Defined.

(** ** Chunks are never empty and never padded *)

Lemma rstrip_nonspace (c : ascii) (s : string) :
  PyStr.isspace c = false -> PyStr.rstrip (String c s) = String c (PyStr.rstrip s).
Proof.
  intros Hc. cbn [PyStr.rstrip]. rewrite Hc. now destruct (PyStr.rstrip s).
Qed.

Lemma rstrip_idem (s : string) : PyStr.rstrip (PyStr.rstrip s) = PyStr.rstrip s.
Proof.
  induction s as [|c s IH]; [reflexivity|]. cbn [PyStr.rstrip].
  destruct (PyStr.rstrip s) as [|c' r] eqn:Hr.
  - destruct (PyStr.isspace c) eqn:Hc; [reflexivity|].
    cbn [PyStr.rstrip]. now rewrite Hc.
  - cbn [PyStr.rstrip] in *. rewrite IH. reflexivity.
Qed.

Lemma lstrip_cases (s : string) :
  PyStr.lstrip s = ""
  \/ exists c r, PyStr.lstrip s = String c r /\ PyStr.isspace c = false.
Proof.
  induction s as [|c s IH]; [now left|]. cbn [PyStr.lstrip].
  destruct (PyStr.isspace c) eqn:Hc; [exact IH | right; eauto].
Qed.

Lemma strip_idem (s : string) : PyStr.strip (PyStr.strip s) = PyStr.strip s.
Proof.
  unfold PyStr.strip at 2 3. destruct (lstrip_cases s) as [->|(c & r & -> & Hc)].
  - reflexivity.
  - rewrite (rstrip_nonspace c r Hc). unfold PyStr.strip.
    cbn [PyStr.lstrip]. rewrite Hc, (rstrip_nonspace c _ Hc), rstrip_idem.
    reflexivity.
Qed.

Lemma join_docs_trimmed (parts : list string) (separator t : string) :
  Langchain.join_docs parts separator = Some t -> ChunkText.trimmed t.
Proof.
  unfold Langchain.join_docs.
  destruct (String.eqb_spec (PyStr.strip (PyStr.join separator parts)) "") as [|Hne];
    [discriminate|].
  intros H. injection H as <-. split; [exact Hne | apply strip_idem].
Qed.

Lemma append_doc_trimmed (ds parts : list string) (separator : string) :
  List.Forall ChunkText.trimmed ds ->
  List.Forall ChunkText.trimmed
    (Langchain.append_doc ds (Langchain.join_docs parts separator)).
Proof.
  intros Hds. destruct (Langchain.join_docs parts separator) as [t|] eqn:Ht;
    cbn [Langchain.append_doc]; [|assumption].
  apply List.Forall_app. split; [assumption|].
  constructor; [|constructor]. eapply join_docs_trimmed, Ht.
Qed.

Section Trimmed.
Variable sp : Langchain.RecursiveCharacterTextSplitter.
Hypothesis size_large : (1 < Langchain.chunk_size sp)%Z.

Lemma merge_step_trimmed (separator : string) (st st' : Langchain.MergeState)
    (d : string) :
  Langchain.merge_step sp separator st d = Ok st' ->
  List.Forall ChunkText.trimmed (Langchain.docs st) ->
  List.Forall ChunkText.trimmed (Langchain.docs st').
Proof.
  unfold Langchain.merge_step. intros H Hdocs.
  apply bind_ok_inv in H as (st1 & Hst1 & H). injection H as <-.
  cbn [Langchain.docs].
  destruct (_ <? _)%Z; [|injection Hst1 as <-; assumption].
  destruct (Langchain.current_doc st) eqn:Hcur; [injection Hst1 as <-; assumption|].
  apply bind_ok_inv in Hst1 as ([t cur] & _ & Hst1). injection Hst1 as <-.
  cbn [Langchain.docs]. rewrite <- Hcur. now apply append_doc_trimmed.
Qed.

Lemma merge_splits_trimmed (splits : list string) (separator : string)
    (docs : list string) :
  Langchain.merge_splits sp splits separator = Ok docs ->
  List.Forall ChunkText.trimmed docs.
Proof.
  unfold Langchain.merge_splits. intros H.
  apply bind_ok_inv in H as (st & Hloop & H). injection H as <-.
  apply append_doc_trimmed.
  assert (Hgen : forall st0,
             for_each (Langchain.merge_step sp separator) splits st0 = Ok st ->
             List.Forall ChunkText.trimmed (Langchain.docs st0) ->
             List.Forall ChunkText.trimmed (Langchain.docs st)).
  { clear Hloop. induction splits as [|d splits IH]; intros st0 Hrun Hst0;
      cbn [for_each] in Hrun.
    - now injection Hrun as <-.
    - apply bind_ok_inv in Hrun as (st1 & Hstep & Hrun).
      eapply IH; [exact Hrun|]. eapply merge_step_trimmed; eassumption. }
  apply (Hgen _ Hloop). constructor.
Qed.

Lemma flush_good_trimmed (acc : Langchain.SplitAcc) (chunks : list string) :
  Langchain.flush_good sp acc = Ok chunks ->
  List.Forall ChunkText.trimmed (Langchain.final_chunks acc) ->
  List.Forall ChunkText.trimmed chunks.
Proof.
  unfold Langchain.flush_good. intros H Hfinal.
  destruct (Langchain.good_splits acc); [now injection H as <-|].
  apply bind_ok_inv in H as (merged & Hmerged & H). injection H as <-.
  apply List.Forall_app. split; [assumption|].
  eapply merge_splits_trimmed, Hmerged.
Qed.

Lemma split_loop_trimmed (recurse : option (string -> result (list string)))
    (splits : list string) :
  match recurse with
  | Some f => forall s out, f s = Ok out -> List.Forall ChunkText.trimmed out
  | None => List.Forall (fun d => (Langchain.len d < Langchain.chunk_size sp)%Z) splits
  end ->
  forall acc acc',
    for_each (Langchain.split_step sp recurse) splits acc = Ok acc' ->
    List.Forall ChunkText.trimmed (Langchain.final_chunks acc) ->
    List.Forall ChunkText.trimmed (Langchain.final_chunks acc').
Proof.
  induction splits as [|s splits IH]; intros Hrec acc acc' Hrun Hacc;
    cbn [for_each] in Hrun.
  - now injection Hrun as <-.
  - apply bind_ok_inv in Hrun as (acc1 & Hstep & Hrun).
    assert (Hrec' : match recurse with
                    | Some f => forall s out, f s = Ok out ->
                                              List.Forall ChunkText.trimmed out
                    | None => List.Forall
                                (fun d => (Langchain.len d < Langchain.chunk_size sp)%Z)
                                splits
                    end).
    { destruct recurse; [assumption | now apply List.Forall_inv_tail in Hrec]. }
    apply (IH Hrec' _ _ Hrun). unfold Langchain.split_step in Hstep.
    destruct (Z.ltb_spec (Langchain.len s) (Langchain.chunk_size sp)) as [Hs|Hs].
    + now injection Hstep as <-.
    + apply bind_ok_inv in Hstep as (chunks & Hchunks & Hstep).
      pose proof (flush_good_trimmed _ _ Hchunks Hacc) as Htrim.
      destruct recurse as [f|].
      * apply bind_ok_inv in Hstep as (other & Hother & Hstep). injection Hstep as <-.
        cbn [Langchain.final_chunks]. apply List.Forall_app. split; [assumption|].
        eapply Hrec, Hother.
      * apply List.Forall_inv in Hrec. lia.
Qed.

Lemma split_with_trimmed (separator : string)
    (recurse : option (string -> result (list string))) (text : string)
    (chunks : list string) :
  match recurse with
  | Some f => forall s out, f s = Ok out -> List.Forall ChunkText.trimmed out
  | None => List.Forall (fun d => (Langchain.len d < Langchain.chunk_size sp)%Z)
              (Langchain.split_text_with_regex text separator)
  end ->
  Langchain.split_with sp separator recurse text = Ok chunks ->
  List.Forall ChunkText.trimmed chunks.
Proof.
  intros Hrec H. unfold Langchain.split_with in H.
  apply bind_ok_inv in H as (acc & Hloop & H).
  eapply flush_good_trimmed; [exact H|].
  eapply split_loop_trimmed; [exact Hrec | exact Hloop | constructor].
Qed.

Lemma rc_split_text_rec_trimmed (seps : list string) :
  Reading.ends_with_empty seps ->
  forall text chunks,
    Langchain.rc_split_text_rec sp seps text = Ok chunks ->
    List.Forall ChunkText.trimmed chunks.
Proof.
  induction seps as [|s rest IH]; intros [front Hfront] text chunks H.
  - discriminate H.
  - assert (Hrest : rest <> [] -> Reading.ends_with_empty rest).
    { intros Hne. destruct front as [|f front]; cbn in Hfront.
      - injection Hfront as _ ->. now destruct Hne.
      - injection Hfront as _ ->. now exists front. }
    assert (Hlast : rest = [] -> s = "").
    { intros ->. destruct front as [|f front]; cbn in Hfront.
      - now injection Hfront.
      - injection Hfront as _ Hfront. destruct front; discriminate Hfront. }
    cbn [Langchain.rc_split_text_rec] in H.
    destruct (String.eqb_spec s "") as [->|Hs].
    + eapply split_with_trimmed; [|exact H]. apply split_on_empty_small, size_large.
    + destruct rest as [|s' rest']; [now destruct (Hs (Hlast eq_refl))|].
      destruct (PyStr.contains text s).
      * eapply split_with_trimmed; [|exact H]. cbn beta iota.
        intros t out Hout. eapply IH; [apply Hrest; discriminate | exact Hout].
      * eapply IH; [apply Hrest; discriminate | exact H].
Qed.

Lemma split_documents_trimmed (documents out : list Langchain.Document) :
  Reading.ends_with_empty (Langchain.separators sp) ->
  Langchain.split_documents sp documents = Ok out ->
  List.Forall (fun d => ChunkText.trimmed (Langchain.page_content d)) out.
Proof.
  intros Hseps. unfold Langchain.split_documents.
  assert (Hgen : forall acc,
             for_each
               (fun acc doc =>
                  chunks ← Langchain.rc_split_text sp (Langchain.page_content doc);
                  Ok (acc ++ map (fun c => Langchain.mkDocument c (Langchain.metadata doc))
                                 chunks))
               documents acc = Ok out ->
             List.Forall (fun d => ChunkText.trimmed (Langchain.page_content d)) acc ->
             List.Forall (fun d => ChunkText.trimmed (Langchain.page_content d)) out).
  { induction documents as [|doc documents IH]; intros acc Hrun Hacc;
      cbn [for_each] in Hrun.
    - now injection Hrun as <-.
    - apply bind_ok_inv in Hrun as (acc1 & Hstep & Hrun).
      apply (IH _ Hrun).
      apply bind_ok_inv in Hstep as (chunks & Hchunks & Hstep). injection Hstep as <-.
      apply List.Forall_app. split; [assumption|].
      apply List.Forall_forall. intros d Hd.
      apply in_map_iff in Hd as (c & <- & Hc). cbn [Langchain.page_content].
      pose proof (rc_split_text_rec_trimmed _ Hseps _ _ Hchunks) as Hall.
      eapply List.Forall_forall in Hall; [exact Hall | exact Hc]. }
  intros H. apply (Hgen [] H). constructor.
Qed.

End Trimmed.

Lemma chunk_loop_trimmed (sp : Langchain.MarkdownHeaderTextSplitter)
    (df : list Common.ParsedItem) (cs : list Common.Chunk) :
  Common.chunk_loop sp df [] = Ok cs ->
  List.Forall (fun c => ChunkText.trimmed (Common.page_content c)) cs.
Proof.
  intros H. apply chunk_loop_origin in H.
  eapply List.Forall_impl; [|exact H]. cbn beta.
  intros c (page & cs_page & _ & Hpage & Hc).
  rewrite chunks_of_row_splits in Hpage.
  apply bind_ok_inv in Hpage as (splits & Hsplits & Hmap). injection Hmap as <-.
  apply bind_ok_inv in Hsplits as (md & _ & Hsplits).
  apply in_map_iff in Hc as (d & <- & Hd). cbn [Common.tag_split Common.page_content].
  pose proof (split_documents_trimmed Common.text_splitter eq_refl md splits
                text_splitter_separators Hsplits) as Hall.
  eapply List.Forall_forall in Hall; [exact Hall | exact Hd].
Qed.

(** X16: in both variants no chunk is empty and no chunk starts or ends
    with white space: the text of every chunk of a run, and so of every
    stored row, is non-empty and equal to its own [strip()]. *)
Theorem chunks_are_trimmed (df : list Common.ParsedItem) (cs : list Common.Chunk) :
  Ingest.chunks_of df = Ok cs \/ CustomIngestion.chunks_of df = Ok cs ->
  List.Forall
    (fun c => Common.page_content c <> ""
              /\ PyStr.strip (Common.page_content c) = Common.page_content c)
    cs.
Proof. intros [H|H]; exact (chunk_loop_trimmed _ df cs H). Qed.

Lemma chunks_are_trimmed_witness :
  List.Forall
    (fun c => Common.page_content c <> ""
              /\ PyStr.strip (Common.page_content c) = Common.page_content c)
    (Examples.get_ok
       (Ingest.chunks_of [Examples.page "T" "https://a" Examples.two_paragraph_page])).
Proof.
  apply (chunks_are_trimmed
           [Examples.page "T" "https://a" Examples.two_paragraph_page]).
  left. vm_compute. reflexivity.
Defined.

(** ** Pages without visible text *)

Lemma match_header_empty (sp : Langchain.MarkdownHeaderTextSplitter) :
  SplitInv.hash_headers sp ->
  Langchain.match_header "" (Langchain.headers_to_split_on sp) = None.
Proof.
  intros Hhash.
  destruct (Langchain.match_header "" _) as [[sep nm]|] eqn:Hm; [|reflexivity].
  apply (match_header_hash sp) in Hm as (r & Hr); [discriminate Hr | exact Hhash].
Qed.

Lemma step_line_blank (sp : Langchain.MarkdownHeaderTextSplitter) (line : string) :
  SplitInv.hash_headers sp -> Reading.stripped line = "" ->
  Langchain.step_line sp Langchain.init_state line = Langchain.init_state.
Proof.
  intros Hhash Hblank. unfold Langchain.step_line.
  fold (Reading.stripped line). rewrite Hblank. cbn -[Langchain.match_header].
  now rewrite (match_header_empty sp Hhash).
Qed.

Lemma md_split_text_blank (sp : Langchain.MarkdownHeaderTextSplitter) (md : string) :
  SplitInv.hash_headers sp -> BlankPage.blank md ->
  Langchain.md_split_text sp md = Ok [].
Proof.
  intros Hhash Hblank. unfold Langchain.md_split_text.
  assert (Hfold : fold_left (Langchain.step_line sp) (PyStr.split_lines md)
                    Langchain.init_state = Langchain.init_state).
  { unfold BlankPage.blank in Hblank.
    induction Hblank as [|line lines Hline _ IH]; [reflexivity|].
    cbn [fold_left]. now rewrite step_line_blank. }
  rewrite Hfold. cbn. now destruct (Langchain.return_each_line sp).
Qed.

Lemma lstrip_white (s : string) : BlankPage.white s = true -> PyStr.lstrip s = "".
Proof.
  induction s as [|c s IH]; [reflexivity|]. cbn [BlankPage.white PyStr.lstrip].
  intros H. apply andb_true_iff in H as [Hc Hs]. rewrite Hc. exact (IH Hs).
Qed.

Lemma split_lines_white (s : string) :
  BlankPage.white s = true ->
  List.Forall (fun line => BlankPage.white line = true) (PyStr.split_lines s).
Proof.
  induction s as [|c s IH]; cbn [BlankPage.white PyStr.split_lines].
  - intros _. repeat constructor.
  - intros H. apply andb_true_iff in H as [Hc Hs]. specialize (IH Hs).
    destruct (Ascii.eqb c PyStr.nl).
    + constructor; [reflexivity | exact IH].
    + destruct (PyStr.split_lines s) as [|l ls].
      * repeat constructor. cbn [BlankPage.white]. now rewrite Hc.
      * apply List.Forall_cons_iff in IH as [Hl Hls].
        constructor; [|exact Hls]. cbn [BlankPage.white]. now rewrite Hc, Hl.
Qed.

(** X17: a page without a visible line contributes nothing.  In both
    variants a page on which every line is empty, once the white space at
    its ends and its characters that are not printable are removed, gives
    no chunk, and the run goes on with the pages around it as if the page
    were not there.  An empty page and a page of white space only are
    such pages. *)
Theorem blank_page_gives_no_chunk :
  (forall md, BlankPage.white md = true -> BlankPage.blank md)
  /\ forall (page : Common.ParsedItem) (md : string)
            (before after : list Common.ParsedItem),
      Common.content page = JStr md -> BlankPage.blank md ->
      Ingest.chunks_of (before ++ page :: after) = Ingest.chunks_of (before ++ after)
      /\ CustomIngestion.chunks_of (before ++ page :: after)
         = CustomIngestion.chunks_of (before ++ after).
Proof.
  split.
  { intros md Hwhite. unfold BlankPage.blank.
    eapply List.Forall_impl; [|exact (split_lines_white md Hwhite)].
    intros line Hline. unfold Reading.stripped, PyStr.strip.
    now rewrite (lstrip_white line Hline). }
  intros page md before after Hcontent Hblank.
  assert (Hgen : forall sp,
             SplitInv.hash_headers sp ->
             Common.chunk_loop sp (before ++ page :: after) []
             = Common.chunk_loop sp (before ++ after) []).
  { intros sp Hhash. rewrite !chunk_loop_app.
    destruct (Common.chunk_loop sp before []) as [a|e]; [|reflexivity].
    cbn [mbind result_bind]. unfold Common.chunk_loop at 1. cbn [for_each].
    unfold Common.chunks_of_row. rewrite Hcontent. cbn [Common.split_content].
    rewrite (md_split_text_blank sp md Hhash Hblank). cbn.
    now rewrite app_nil_r. }
  split; [apply (Hgen _ ingest_hash_headers) | apply (Hgen _ custom_hash_headers)].
Qed.

Lemma blank_page_gives_no_chunk_witness :
  BlankPage.blank (" " +:+ Examples.nl +:+ "  ")
  /\ Ingest.chunks_of
       ([Examples.page "T" "https://a" "# A"]
        ++ Examples.page "U" "https://b" (" " +:+ Examples.nl +:+ "  ")
        :: [Examples.page "V" "https://c" "# C"])
     = Ingest.chunks_of
         ([Examples.page "T" "https://a" "# A"] ++ [Examples.page "V" "https://c" "# C"]).
Proof.
  pose proof (proj1 blank_page_gives_no_chunk (" " +:+ Examples.nl +:+ "  ") eq_refl)
    as Hblank.
  split; [exact Hblank|].
  apply (proj1 (proj2 blank_page_gives_no_chunk
                  (Examples.page "U" "https://b" (" " +:+ Examples.nl +:+ "  "))
                  (" " +:+ Examples.nl +:+ "  ")
                  [Examples.page "T" "https://a" "# A"]
                  [Examples.page "V" "https://c" "# C"] eq_refl Hblank)).
Defined.

(** ** The whole run of [ingest.py] *)

Lemma processed_chunk_text (c : Common.Chunk) (r : Common.Chunks) :
  Common.processed_chunk c = Ok r -> Common.text r = Common.page_content c.
Proof.
  unfold Common.processed_chunk. intros H.
  apply bind_ok_inv in H as (pt & _ & H).
  apply bind_ok_inv in H as (src & _ & H).
  apply bind_ok_inv in H as (u & _ & H). injection H as <-. reflexivity.
Qed.

Lemma rows_texts (cs : list Common.Chunk) (rows : list Common.Chunks) :
  List.Forall2 (fun c r => Common.processed_chunk c = Ok r) cs rows ->
  map Common.text rows = map Common.page_content cs.
Proof.
  induction 1 as [|c r cs rows Hcr _ IH]; [reflexivity|].
  cbn [map]. now rewrite IH, (processed_chunk_text c r Hcr).
Qed.

(** X18: the whole script.  When the chunk loop raises, [ingest.py] stops
    with that error before any store call, so the tables and the ledger
    are left as they were.  When the chunk loop returns and no store call
    fails, the run completes and the chunk table holds one row per chunk,
    in chunk order and with the chunk's text, so that the row count
    printed at the end is the number of chunks printed earlier. *)
Theorem main_end_to_end
    (cast : Store.Cast) (infer : Pandas.Inference)
    (today : string) (load : string -> list Common.record) :
  (forall fails e w,
      Ingest.chunks infer load = Raise e ->
      Store.main fails cast infer today load w = (w, Raise e))
  /\ (forall cs d,
        Ingest.chunks infer load = Ok cs ->
        let run := Store.main StoreChecks.never_fails cast infer today load
                     (Store.mkWorld d []) in
        snd run = Ok tt
        /\ exists rows,
            Store.molrag (Store.db (fst run)) = Some rows
            /\ length rows = length cs
            /\ map Common.text rows = map Common.page_content cs).
Proof.
  split.
  - intros fails e w He. unfold Store.main, Store.bind, Store.lift. now rewrite He.
  - intros cs d Hcs.
    destruct (rows_of_chunks _ cs Hcs) as (rows & Hrows & Hall).
    unfold Store.main, Store.bind at 1, Store.lift. rewrite Hcs.
    destruct d as [mol [old|] fts vec]; unfold_store;
      unfold StoreChecks.never_fails; cbn -[String.eqb]; rewrite Hrows;
      cbn -[String.eqb];
      (split; [reflexivity|]; eexists; split; [reflexivity|]; split;
       [rewrite length_map; symmetry; eapply List.Forall2_length; eassumption
       | rewrite map_map; now apply rows_texts]).
Qed.

Lemma main_end_to_end_witness :
  Store.main Examples.add_chunks_fails Examples.cast Examples.infer "2026-11-04"
    (Examples.load_docs [Examples.null_markdown_item]) (Store.mkWorld Examples.old_db [])
  = (Store.mkWorld Examples.old_db [], Raise AttributeError)
  /\ exists rows,
      Store.molrag
        (Store.db (fst (Store.main StoreChecks.never_fails Examples.cast Examples.infer
                          "2026-11-04"
                          (Examples.load_docs
                             [Examples.item "T" "https://a" Examples.heading_page])
                          (Store.mkWorld Examples.old_db []))))
      = Some rows
      /\ length rows = 3.
Proof.
  split.
  - apply (proj1 (main_end_to_end Examples.cast Examples.infer "2026-11-04"
                    (Examples.load_docs [Examples.null_markdown_item]))).
    vm_compute. reflexivity.
  - destruct (proj2 (main_end_to_end Examples.cast Examples.infer "2026-11-04"
                       (Examples.load_docs
                          [Examples.item "T" "https://a" Examples.heading_page]))
                (Examples.get_ok
                   (Ingest.chunks Examples.infer
                      (Examples.load_docs
                         [Examples.item "T" "https://a" Examples.heading_page])))
                Examples.old_db) as (_ & rows & Hmol & Hlen & _).
    + vm_compute. reflexivity.
    + exists rows. split; [exact Hmol | exact Hlen].
Defined.

(** ** Rows of [custom-ingestion.py] keep every header *)

Lemma match_header_in (s sep nm : string) (hs : list (string * string)) :
  Langchain.match_header s hs = Some (sep, nm) -> In nm (map snd hs).
Proof.
  induction hs as [|[sep' nm'] hs IH]; cbn [Langchain.match_header map];
    [discriminate|].
  destruct (Langchain.is_header_line s sep').
  - intros H. injection H as _ <-. now left.
  - intros H. right. apply IH, H.
Qed.

Lemma pop_headers_keys (names : list string) (n : nat)
    (stack : list Langchain.HeaderType) (meta : gmap string string) :
  RowDecode.keys_in names meta ->
  RowDecode.keys_in names (snd (Langchain.pop_headers n stack meta)).
Proof.
  revert meta. induction stack as [|h stack IH]; intros meta Hmeta;
    cbn [Langchain.pop_headers]; [exact Hmeta|].
  destruct (n <=? Langchain.level h)%nat; [|exact Hmeta].
  apply IH. intros k Hk. apply lookup_delete_is_Some in Hk as [_ Hk]. apply Hmeta, Hk.
Qed.

Lemma flush_keys (names : list string) (lines : list Langchain.LineType)
    (cur : list string) (meta : gmap string string) :
  List.Forall (fun l => RowDecode.keys_in names (Langchain.line_metadata l)) lines ->
  RowDecode.keys_in names meta ->
  List.Forall (fun l => RowDecode.keys_in names (Langchain.line_metadata l))
    (Langchain.flush lines cur meta).
Proof.
  intros Hlines Hmeta. unfold Langchain.flush. destruct cur; [assumption|].
  apply List.Forall_app. split; [assumption | repeat constructor; exact Hmeta].
Qed.

Lemma step_line_keys (sp : Langchain.MarkdownHeaderTextSplitter)
    (st : Langchain.SplitState) (line : string) :
  RowDecode.keys_ok sp st -> RowDecode.keys_ok sp (Langchain.step_line sp st line).
Proof.
  intros (Hinit & Hcur & Hlines). unfold Langchain.step_line.
  set (s := PyStr.filter PyStr.isprintable (PyStr.strip line)).
  match goal with
  | |- context [let '(a, b) := ?e in _] => destruct e as [in_code fence]
  end.
  destruct in_code; [repeat split; assumption|].
  destruct (Langchain.match_header s _) as [[sep nm]|] eqn:Hm.
  - apply match_header_in in Hm.
    pose proof (pop_headers_keys _ (PyStr.count sep "#") (Langchain.header_stack st)
                  _ Hinit) as Hpop.
    destruct (Langchain.pop_headers _ _ _) as [stack meta]. cbn [snd] in Hpop.
    assert (Hnew : RowDecode.keys_in (RowDecode.header_names sp)
                     (<[nm := PyStr.strip (PyStr.drop (String.length sep) s)]> meta)).
    { intros k Hk. apply lookup_insert_is_Some in Hk as [<-|[_ Hk]];
        [exact Hm | apply Hpop, Hk]. }
    repeat split; cbn; try assumption. now apply flush_keys.
  - destruct (negb (String.eqb s "")); repeat split; cbn; try assumption.
    now apply flush_keys.
Qed.

Lemma aggregate_step_keys (sp : Langchain.MarkdownHeaderTextSplitter)
    (names : list string) (agg agg' : list Langchain.LineType)
    (line : Langchain.LineType) :
  Langchain.aggregate_step sp agg line = Ok agg' ->
  List.Forall (fun l => RowDecode.keys_in names (Langchain.line_metadata l)) agg ->
  RowDecode.keys_in names (Langchain.line_metadata line) ->
  List.Forall (fun l => RowDecode.keys_in names (Langchain.line_metadata l)) agg'.
Proof.
  unfold Langchain.aggregate_step. intros H Hagg Hline.
  destruct agg as [|lst older]; [injection H as <-; now repeat constructor|].
  pose proof (List.Forall_inv Hagg) as Hlst.
  pose proof (List.Forall_inv_tail Hagg) as Holder.
  destruct (bool_decide _); [injection H as <-; now constructor|].
  destruct (_ <? _)%nat; [|injection H as <-; now constructor].
  apply bind_ok_inv in H as (b & _ & H).
  destruct (b && _); injection H as <-; now constructor.
Qed.

Lemma md_split_text_keys (sp : Langchain.MarkdownHeaderTextSplitter)
    (text : string) (docs : list Langchain.Document) :
  Langchain.md_split_text sp text = Ok docs ->
  List.Forall
    (fun d => RowDecode.keys_in (RowDecode.header_names sp) (Langchain.metadata d)) docs.
Proof.
  unfold Langchain.md_split_text.
  assert (Hst : RowDecode.keys_ok sp
                  (fold_left (Langchain.step_line sp) (PyStr.split_lines text)
                     Langchain.init_state)).
  { assert (Hgen : forall lines st,
               RowDecode.keys_ok sp st ->
               RowDecode.keys_ok sp (fold_left (Langchain.step_line sp) lines st)).
    { induction lines as [|l lines IH]; intros st Hst; cbn [fold_left];
        [assumption | apply IH, step_line_keys, Hst]. }
    apply Hgen. repeat split; try constructor;
      intros k Hk; cbn in Hk; rewrite lookup_empty in Hk; now destruct Hk. }
  set (st := fold_left _ _ _) in *. destruct Hst as (_ & Hcur & Hlines).
  pose proof (flush_keys _ _ (Langchain.current_content st) _ Hlines Hcur) as Hflush.
  set (lines := Langchain.flush _ _ _) in *.
  assert (Hdocs : forall ls : list Langchain.LineType,
             List.Forall
               (fun l => RowDecode.keys_in (RowDecode.header_names sp)
                           (Langchain.line_metadata l)) ls ->
             List.Forall
               (fun d => RowDecode.keys_in (RowDecode.header_names sp)
                           (Langchain.metadata d))
               (map (fun c => Langchain.mkDocument (Langchain.content c)
                                (Langchain.line_metadata c)) ls)).
  { intros ls Hls. apply List.Forall_forall. intros d Hd.
    apply in_map_iff in Hd as (l & <- & Hl). cbn.
    eapply List.Forall_forall in Hls; [exact Hls | exact Hl]. }
  destruct (negb (Langchain.return_each_line sp)).
  - unfold Langchain.aggregate_lines_to_chunks. intros H.
    apply bind_ok_inv in H as (agg & Hagg & H). injection H as <-.
    apply Hdocs. apply List.Forall_forall. intros l Hl. apply in_rev in Hl.
    revert l Hl. apply List.Forall_forall.
    assert (Hgen : forall ls acc,
               for_each (Langchain.aggregate_step sp) ls acc = Ok agg ->
               List.Forall (fun l => RowDecode.keys_in (RowDecode.header_names sp)
                                       (Langchain.line_metadata l)) ls ->
               List.Forall (fun l => RowDecode.keys_in (RowDecode.header_names sp)
                                       (Langchain.line_metadata l)) acc ->
               List.Forall (fun l => RowDecode.keys_in (RowDecode.header_names sp)
                                       (Langchain.line_metadata l)) agg).
    { induction ls as [|l ls IH]; intros acc Hrun Hls Hacc; cbn [for_each] in Hrun.
      - now injection Hrun as <-.
      - apply bind_ok_inv in Hrun as (acc1 & Hstep & Hrun).
        apply (IH _ Hrun); [now apply List.Forall_inv_tail in Hls|].
        eapply aggregate_step_keys; [exact Hstep | exact Hacc |].
        now apply List.Forall_inv in Hls. }
    apply (Hgen _ _ Hagg Hflush). constructor.
  - intros H. injection H as <-. apply Hdocs, Hflush.
Qed.

Lemma split_documents_metadata (sp : Langchain.RecursiveCharacterTextSplitter)
    (documents out : list Langchain.Document) :
  Langchain.split_documents sp documents = Ok out ->
  List.Forall
    (fun d => exists doc, In doc documents
                          /\ Langchain.metadata d = Langchain.metadata doc) out.
Proof.
  unfold Langchain.split_documents.
  assert (Hgen : forall docs acc,
             for_each
               (fun acc doc =>
                  chunks ← Langchain.rc_split_text sp (Langchain.page_content doc);
                  Ok (acc ++ map (fun c => Langchain.mkDocument c (Langchain.metadata doc))
                                 chunks))
               docs acc = Ok out ->
             (forall d, In d acc ->
                        exists doc, In doc documents
                                    /\ Langchain.metadata d = Langchain.metadata doc) ->
             (forall doc, In doc docs -> In doc documents) ->
             List.Forall
               (fun d => exists doc, In doc documents
                                     /\ Langchain.metadata d = Langchain.metadata doc) out).
  { induction docs as [|doc docs IH]; intros acc Hrun Hacc Hsub; cbn [for_each] in Hrun.
    - injection Hrun as <-. apply List.Forall_forall. exact Hacc.
    - apply bind_ok_inv in Hrun as (acc1 & Hstep & Hrun).
      apply bind_ok_inv in Hstep as (chunks & _ & Hstep). injection Hstep as <-.
      apply (IH _ Hrun).
      + intros d Hd. apply in_app_iff in Hd as [Hd|Hd]; [apply Hacc, Hd|].
        apply in_map_iff in Hd as (c & <- & _). exists doc.
        split; [apply Hsub; now left | reflexivity].
      + intros doc' Hdoc'. apply Hsub. now right. }
  intros H. apply (Hgen _ _ H); [intros d [] | auto].
Qed.

Lemma processed_chunk_explicit (row : Common.ParsedItem) (split : Langchain.Document) :
  Common.processed_chunk (Common.tag_split row split)
  = Ok {| Common.text := Langchain.page_content split;
          Common.row_metadata :=
            {| Common.header_1 :=
                 RowHeaders.header_field (Langchain.metadata split) "header_1";
               Common.header_2 :=
                 RowHeaders.header_field (Langchain.metadata split) "header_2";
               Common.header_3 :=
                 RowHeaders.header_field (Langchain.metadata split) "header_3";
               Common.header_4 :=
                 RowHeaders.header_field (Langchain.metadata split) "header_4";
               Common.page_title := Common.title row;
               Common.row_source := JStr (Common.source (Common.metadata row));
               Common.row_url := Common.url (Common.metadata row) |} |}.
Proof.
  assert (Hget : forall k,
             k <> "source" -> k <> "url" -> k <> "page_title" ->
             Common.get_or_none k (Common.chunk_metadata (Common.tag_split row split))
             = RowHeaders.header_field (Langchain.metadata split) k).
  { intros k H1 H2 H3. unfold Common.get_or_none, Common.tag_split,
      RowHeaders.header_field. cbn [Common.chunk_metadata].
    rewrite !lookup_insert_ne by congruence. rewrite lookup_fmap.
    now destruct (Langchain.metadata split !! k). }
  unfold Common.processed_chunk, Common.getitem.
  rewrite tag_split_page_title, tag_split_source, tag_split_url.
  cbn [mbind result_bind]. rewrite !Hget by discriminate. reflexivity.
Qed.

Lemma decode_headers (m : gmap string string) :
  RowDecode.keys_in ["header_4"; "header_3"; "header_2"; "header_1"] m ->
  RowDecode.with_header "header_1" (RowHeaders.header_field m "header_1")
    (RowDecode.with_header "header_2" (RowHeaders.header_field m "header_2")
       (RowDecode.with_header "header_3" (RowHeaders.header_field m "header_3")
          (RowDecode.with_header "header_4" (RowHeaders.header_field m "header_4") ∅)))
  = JStr <$> m.
Proof.
  intros Hkeys. apply map_eq. intros k. rewrite lookup_fmap.
  assert (Hother : k <> "header_1" -> k <> "header_2" -> k <> "header_3" ->
                   k <> "header_4" -> m !! k = None).
  { intros H1 H2 H3 H4. destruct (m !! k) eqn:Hk; [|reflexivity].
    destruct (Hkeys k (ex_intro _ _ Hk)) as [<-|[<-|[<-|[<-|[]]]]]; congruence. }
  unfold RowHeaders.header_field.
  destruct (decide (k = "header_1")) as [->|H1];
    [|destruct (decide (k = "header_2")) as [->|H2];
      [|destruct (decide (k = "header_3")) as [->|H3];
        [|destruct (decide (k = "header_4")) as [->|H4]]]];
    [ .. | rewrite (Hother H1 H2 H3 H4)];
    destruct (m !! "header_1") eqn:E1, (m !! "header_2") eqn:E2,
      (m !! "header_3") eqn:E3, (m !! "header_4") eqn:E4;
    cbn [RowDecode.with_header fmap option_fmap option_map];
    repeat first [ rewrite lookup_insert_eq
                 | rewrite lookup_insert_ne by congruence
                 | rewrite lookup_empty ];
    reflexivity.
Qed.

Lemma custom_header_names :
  RowDecode.header_names CustomIngestion.markdown_splitter
  = ["header_4"; "header_3"; "header_2"; "header_1"].
Proof. reflexivity. Qed.

(** X19: in [custom-ingestion.py] the row preparation loses nothing.  The
    local variant splits on levels 1 to 4 only, so every key of a chunk's
    metadata is a field of its row, and the chunk can be read back from
    the row; in [ingest.py], which splits on levels 1 to 6, the page with
    a level-5 heading gives a chunk that cannot. *)
Theorem local_rows_are_lossless :
  (forall df cs,
      CustomIngestion.chunks_of df = Ok cs ->
      List.Forall
        (fun c => exists r, Common.processed_chunk c = Ok r
                            /\ RowDecode.chunk_of_row r = c) cs)
  /\ (exists c r,
         Ingest.chunks_of [Examples.page "T" "https://a" Examples.deep_heading_page]
         = Ok [c]
         /\ Common.processed_chunk c = Ok r
         /\ RowDecode.chunk_of_row r <> c).
Proof.
  split.
  - intros df cs H. unfold CustomIngestion.chunks_of in H.
    apply chunk_loop_origin in H. eapply List.Forall_impl; [|exact H]. cbn beta.
    intros c (page & cs_page & _ & Hpage & Hc).
    rewrite chunks_of_row_splits in Hpage.
    apply bind_ok_inv in Hpage as (splits & Hsplits & Hmap). injection Hmap as <-.
    apply bind_ok_inv in Hsplits as (md & Hmd & Hsplits).
    apply in_map_iff in Hc as (d & <- & Hd).
    assert (Hkeys : RowDecode.keys_in ["header_4"; "header_3"; "header_2"; "header_1"]
                      (Langchain.metadata d)).
    { apply split_documents_metadata in Hsplits.
      eapply List.Forall_forall in Hsplits as (doc & Hdoc & ->); [|exact Hd].
      unfold Common.split_content in Hmd.
      destruct (Common.content page); try discriminate Hmd.
      apply md_split_text_keys in Hmd. rewrite custom_header_names in Hmd.
      eapply List.Forall_forall in Hmd; [exact Hmd | exact Hdoc]. }
    eexists. split; [apply processed_chunk_explicit|].
    unfold RowDecode.chunk_of_row, Common.tag_split.
    cbn [Common.text Common.row_metadata Common.header_1 Common.header_2
         Common.header_3 Common.header_4 Common.page_title Common.row_source
         Common.row_url].
    now rewrite (decode_headers _ Hkeys).
  - eexists _, _. split; [vm_compute; reflexivity|].
    split; [vm_compute; reflexivity|].
    intros H. apply (f_equal (fun c => Common.chunk_metadata c !! "header_5")) in H.
    vm_compute in H. discriminate H.
Qed.

Lemma local_rows_are_lossless_witness :
  List.Forall
    (fun c => exists r, Common.processed_chunk c = Ok r
                        /\ RowDecode.chunk_of_row r = c)
    (Examples.get_ok
       (CustomIngestion.chunks_of
          [Examples.page "T" "https://a" Examples.deep_heading_page])).
Proof.
  apply (proj1 local_rows_are_lossless
           [Examples.page "T" "https://a" Examples.deep_heading_page]).
  vm_compute. reflexivity.
Defined.
